(* ===== verification/_CoqProject ===== *)
-Q . S2P
Prelude.v
Errors.v
Bytes.v
FileIO.v
Text.v
Values.v
Cursor.v
Reader.v
Unreal.v
Session.v
Writer.v
Utils.v
Tool.v
Server.v
Api.v
Tests.v
