(* ===== verification/Prelude.v ===== *)
(** * Verification of binary-reader-mcp: shared prelude and overview

    The program parses a fixed-layout binary container (the header of an
    Unreal Engine [.uasset] file) through a cursor-based reader and exposes
    the result through a tool server and an HTTP route.

    ** Parts of the program and where they are modelled

    - [src/src/binary_reader/base_reader.py], class [BinaryReader]: a file
      path, an optional file object and a tracked cursor [_position];
      [__enter__]/[__exit__] open and close the file, [read_bytes] reads at the
      cursor, [read_uint32]/[read_int32]/[read_float] unpack four
      little-endian bytes, [read_string] reads a signed length prefix that
      selects the encoding, [seek] repositions.  Modelled in [Reader.v];
      every method is one definition in the exception-and-state monad of
      this file, over the record [Reader.BinaryReader]; the [with] statement
      is [Reader.with_reader]; method calls are also data ([Reader.call],
      [Reader.exec]) so that theorems can speak of every sequence of calls.
    - The Python runtime under the reader: [open], [file.read], [file.seek],
      [file.tell], [file.close] and [os.path.getsize] ([FileIO.v], over a
      finite map from paths to contents); [struct.unpack] with the formats
      ['<I'], ['<i'] and ['<f'], [int.to_bytes] and [bytes.fromhex]
      ([Bytes.v]); [bytes.decode] for UTF-8, UTF-16-LE, Latin-1 and ASCII and
      [str.rstrip] ([Text.v]); dictionaries, [hex], [str] and [repr] of the
      decoded values ([Values.v]).
    - The exceptions that the code raises or lets through, their class
      hierarchy as [except] clauses test it, their text [str(e)], and the
      error taxonomy of the specification as a classification of them
      ([Errors.v]).
    - The contract of the cursor reader as the specification states it, over
      one byte string and one cursor ([Cursor.v]); [Reader.v] and [Unreal.v]
      prove that the methods implement it.
    - [src/src/binary_reader/unreal_reader.py], class [UnrealAssetReader]:
      [MAGIC], [read_header], [read_metadata], [read_name_table]
      ([Unreal.v]), together with the interface that the abstract methods of
      [BinaryReader] declare (the class [Unreal.Decoder], of which
      [UnrealAssetReader] is the instance) and the fixture of the tests.
      The interface promises that inside a [with] block both methods leave
      the reader open with its invariant and fail only as decoders do.
    - The [with] block that the route and both tools run,
      [read_header] and then [read_metadata], for any class that implements
      the interface ([Session.v]); the second tool calls the methods of the
      class that it selected at run time.
    - The writer of the format, which the repository does not have: the
      records that a producer of the format puts for a string and for a
      table of names, from the encoders of [Text.v], and the four bytes of a
      binary32 number, from the encoder of [Bytes.v] ([Writer.v]).  It is
      the reference for the round trips of [read_string], [read_name_table]
      and [read_float].
    - [src/src/binary_reader/utils.py] and [src/src/config.py]: header
      sniffing, format detection and the constants of [Config] ([Utils.v]).
    - [src/main.py]: [handle_list_tools], [format_unreal_asset_data] and
      [handle_call_tool] with its two tools, their [try] statements and the
      text of every answer ([Tool.v]).
    - [src/main.py], the rest: the object [server], the decorators
      [server.list_tools()] and [server.call_tool()] that register the two
      functions, [server.get_capabilities], the options that [main] builds
      and the loop of [server.run] ([Server.v]).  The server of the MCP
      library is modelled at these call sites: a record of registered
      handlers, one response per request under the identifier of the
      request, "Method not found" for a request type without a handler.
      The loop is an interaction tree ([ITree.iter]) over three events:
      the next request, or the end of the stream; the file system of the
      moment; a response sent.  [Server.handle_io] gives the events their
      meaning over [Server.world], which holds the requests still to come,
      each with the file system at the time it is handled; [Server.serve]
      runs a tree on a world; [Server.answers] is the reference, a function
      from the requests to the responses.
    - [src/src/api/routes.py] and [src/src/api/schemas.py]: the route
      [analyze_binary_file] and the two schema records ([Api.v]).
    - [src/tests/]: the six test functions with their fixtures, [assert],
      subscripts, [pytest.raises] with its [match] pattern, and the test
      client as validation of the body followed by the handler
      ([Tests.v]).  A test is a function from the file system on which it
      runs to a verdict.

    ** How state and effects are modelled

    A method of the reader is a function [S -> outcome exn A * S]: it returns
    a value or raises, and the state it leaves is kept in both cases, because
    a Python exception does not undo the mutations made before it.  This is
    what makes statements such as "a failed [read_uint32] has still advanced
    the cursor" expressible.  Integers are [Z] (Python integers are
    unbounded); the 32-bit width appears where the code has it, in
    [struct.unpack].  Bytes are [Byte.byte], byte strings are lists.

    ** What the theorems show

    - [Bytes.v]: bounds of the unpacked integers, the two's complement
      relation between ['<i'] and ['<I'], agreement of the arithmetic decoder
      with the shift-and-or one, round trips with [int.to_bytes], the error
      on a buffer that is not four bytes long, that every four bytes
      decode to a number of the binary32 format, and that decoding and
      encoding of binary32 are inverse to each other on the numbers of the
      format and on the patterns that are not a not-a-number.
    - [FileIO.v]: [read] returns the slice of the content at the offset, a
      short read at the end of the file, and nothing past it.
    - [Text.v]: [rstrip] (what it removes, idempotence) and the decoders:
      each one accepts exactly the byte strings that its encoder writes and
      returns the string that was written, so that overlong forms,
      surrogates and truncated sequences are refused; lengths; agreement of
      ASCII and UTF-8 on ASCII input.
    - [Reader.v]: the cursor invariant ([_position] equals the offset of the
      open file) and its preservation by every method during a session;
      functional behaviour of every method on every branch, errors included;
      that no sequence of reads moves the tracked position backwards; that
      [seek] accepts every target from zero on and what the runtime does
      with the others; the two errors of a reader without an open file; that
      a [with] block always leaves the file closed; that the invariant is
      lost when a reader is entered a second time; that the methods
      implement the contract of [Cursor.v].
    - [Unreal.v]: header and metadata decoding on every branch, the round
      trip with the layout written as the tests write it, the failure on
      every truncated file, the length of the name table, the refinement of
      the specification's decoder, and that the magic bytes of the
      specification and of the tests are rejected.
    - [Session.v]: from the promises of the interface alone, a session
      answers with something built from the two dictionaries or fails as
      not found, invalid format or decode error, and leaves the file
      closed; the front-ends' theorems are instances of it.
    - [Writer.v]: a string written with its terminator, in the codec asked
      for or in UTF-16 behind a negative prefix, is read back exactly, and so
      are a table of names and a binary32 number; a text that ends in null
      characters is not, and the negative prefix counts code units, not
      characters.
    - [Utils.v]: format detection, and that it disagrees with [read_header]
      on the byte order of the magic number.
    - [Tool.v]: the handler never raises and always answers one text; the
      text of each answer, for success and for each failure, and that each
      tool has these answers and no other; the tools that are listed are
      exactly the tools that are handled; the generic reader that the second
      tool falls back to cannot be instantiated; both tools leave the file
      closed.
    - [Server.v]: a run of [main] on any world refines the reference
      ([Server.main_refines_answers]); it terminates, as a finite tree, for
      every finite sequence of requests; every request is answered, once,
      in order, under its identifier; no response reports a failure of a
      handler, because [handle_call_tool] catches everything itself; the
      capability that [main] announces is the one whose handler is
      registered; and, through every layer at once, a request to read a
      well-formed asset is answered with the text of its seven fields
      ([Server.asset_request_served]).
    - [Api.v]: the response on success, status 400 with the text of the
      exception on every failure, the three details that can occur, and that
      the format of the request is not read.
    - [Tests.v]: the verdict of each of the six tests on the code of the
      repository, for every temporary directory and file system (two pass),
      and that the two tests of the reader pass on a fixture written in the
      byte order that the reader reads.

    ** Bounds

    The loops of the reader need no fuel: the one loop of the decoder is a
    [for] over [range] and is modelled by structural recursion on the count.
    The loop of the server is not bounded by the program; it is an
    interaction tree, and its termination is proved for every world, whose
    sequence of requests is a finite list: the measure is the number of
    requests still to come.  Evaluated with fuel, a run has returned after
    four silent steps for each request and three more
    ([Server.main_terminates]); the sample session of [Server.v], of four
    requests, is evaluated with a fuel of forty.
    Integers are unbounded, as in Python; the 32-bit ranges are proved of
    what [struct.unpack] returns.  File offsets and read sizes are assumed
    to fit the C types of the runtime (below [2^63]); the largest read the
    reader itself can request is [2^32] bytes, from a length prefix of
    [-2^31].  The round trips of [Writer.v] are for records whose length
    fits the prefix (fewer than [2^31] bytes, code units or names).

    ** Not modelled

    Of the MCP library: the JSON-RPC framing of the standard streams, the
    handshake of a session and the order that the session imposes on it,
    and the concurrency of the tasks that the library starts, one per
    request (a handler of this program never awaits, so each runs to its
    end once started; the model handles the requests in the order of their
    arrival).  Of FastAPI and pydantic: routing, the serialisation of the
    response, and of the validation of the body everything but the required
    field.  The re-exports of [binary_reader/__init__.py], which have no
    behaviour.  The text of a [UnicodeDecodeError] is abbreviated (no
    front-end decodes text), [repr] of a string is exact for strings
    without quotes, backslashes and control characters, the patterns of
    [pytest.raises] are literal characters and the dot, and the arguments of
    a tool are strings, as the schemas of the tools declare.

    This file holds what the components share: the [outcome] type, the monad
    with its notations in [exst_scope], the predicates [preserves],
    [returns], [raises] and [raises_only] with their composition lemmas, the
    hint databases and tactics, and lemmas on slices of lists. *)

From Stdlib Require Import ZArith Lia.
From stdpp Require Import base tactics option list numbers.

#[local] Open Scope Z_scope.

(** ** Outcomes: a value or a raised exception *)

Inductive outcome (E A : Type) : Type :=
| Ok (a : A)
| Raise (e : E).

Arguments Ok {E A} a.
Arguments Raise {E A} e.

Definition is_ok {E A} (o : outcome E A) : bool :=
  match o with Ok _ => true | Raise _ => false end.

Definition outcome_map {E A B} (f : A -> B) (o : outcome E A) : outcome E B :=
  match o with Ok a => Ok (f a) | Raise e => Raise e end.

Definition outcome_bind {E A B} (o : outcome E A) (k : A -> outcome E B) : outcome E B :=
  match o with Ok a => k a | Raise e => Raise e end.

#[export] Instance outcome_eq_dec {E A} `{EqDecision E, EqDecision A} :
  EqDecision (outcome E A).
Proof. solve_decision. Defined.

(** ** The exception-and-state monad

    [exst E S A] is a computation over a state [S] that returns an [A] or
    raises an [E]; the final state is returned in both cases. *)

Definition exst (E S A : Type) : Type := S -> outcome E A * S.

Definition ret {E S A} (a : A) : exst E S A := fun s => (Ok a, s).

Definition raise {E S A} (e : E) : exst E S A := fun s => (Raise e, s).

Definition bind {E S A B} (m : exst E S A) (k : A -> exst E S B) : exst E S B :=
  fun s => match m s with
           | (Ok a, s') => k a s'
           | (Raise e, s') => (Raise e, s')
           end.

Definition get {E S} : exst E S S := fun s => (Ok s, s).

Definition gets {E S A} (f : S -> A) : exst E S A := fun s => (Ok (f s), s).

Definition put {E S} (s : S) : exst E S unit := fun _ => (Ok tt, s).

Definition modify {E S} (f : S -> S) : exst E S unit := fun s => (Ok tt, f s).

Definition lift_outcome {E S A} (o : outcome E A) : exst E S A := fun s => (o, s).

(** [try: ... finally: ...]: the finaliser runs on both paths; when it raises,
    its exception replaces the pending one, as in Python. *)
Definition finally {E S A} (m : exst E S A) (fin : exst E S unit) : exst E S A :=
  fun s => match m s with
           | (r, s') => match fin s' with
                        | (Ok _, s'') => (r, s'')
                        | (Raise e, s'') => (Raise e, s'')
                        end
           end.

(** [try: ... except ... as e: h(e)]: the handler runs from the state that
    the raise left. *)
Definition catch {E S A} (m : exst E S A) (h : E -> exst E S A) : exst E S A :=
  fun s => match m s with
           | (Ok a, s') => (Ok a, s')
           | (Raise e, s') => h e s'
           end.

(** [for _ in range(n): acc.append(body())] *)
Fixpoint repeat_collect {E S A} (n : nat) (body : exst E S A) : exst E S (list A) :=
  match n with
  | O => ret []
  | S n' => bind body (fun x => bind (repeat_collect n' body) (fun xs => ret (x :: xs)))
  end.

Declare Scope exst_scope.
Delimit Scope exst_scope with exst.
Bind Scope exst_scope with exst.

Notation "x <- m ;; k" := (bind m (fun x => k))
  (at level 100, m at next level, right associativity) : exst_scope.
Notation "m ;;; k" := (bind m (fun _ => k))
  (at level 100, right associativity) : exst_scope.

Definition result_of {E S A} (m : exst E S A) (s : S) : outcome E A := (m s).1.
Definition state_of {E S A} (m : exst E S A) (s : S) : S := (m s).2.

(** ** Specifications of computations

    [preserves I m]: the predicate [I] on states survives [m], whether it
    returns or raises.  [returns m s a s']: from [s], [m] returns [a] and
    leaves [s'].  [raises m s e s']: from [s], [m] raises [e] and leaves [s']. *)

Definition preserves {E S A} (I : S -> Prop) (m : exst E S A) : Prop :=
  forall s, I s -> I (m s).2.

Definition returns {E S A} (m : exst E S A) (s : S) (a : A) (s' : S) : Prop :=
  m s = (Ok a, s').

Definition raises {E S A} (m : exst E S A) (s : S) (e : E) (s' : S) : Prop :=
  m s = (Raise e, s').

(** [mono f m]: the measure [f] of the state never decreases along [m]. *)
Definition mono {E S A} (f : S -> Z) (m : exst E S A) : Prop :=
  forall s, f s <= f (m s).2.

(** [raises_only I P m]: from a state that satisfies [I], every exception
    that [m] raises satisfies [P]. *)
Definition raises_only {E S A} (I : S -> Prop) (P : E -> Prop) (m : exst E S A) : Prop :=
  forall s e s', I s -> raises m s e s' -> P e.

(** ** Slices of lists, indexed by integers

    [slice off n l] is [l[off : off + n]] for non-negative [off] and [n]. *)

Definition zdrop {A} (off : Z) (l : list A) : list A := drop (Z.to_nat off) l.

Definition ztake {A} (n : Z) (l : list A) : list A := take (Z.to_nat n) l.

Definition slice {A} (off n : Z) (l : list A) : list A := ztake n (zdrop off l).

Definition zlength {A} (l : list A) : Z := Z.of_nat (length l).

(** ** Hint databases and tactics *)

Create HintDb exst discriminated.
Create HintDb slice discriminated.
Create Rewrite HintDb slice.

#[export] Hint Unfold ret raise bind get gets put modify lift_outcome finally
  catch result_of state_of returns raises : exst.

(** Unfold the monad and compute; what is left is the case analysis that the
    code itself makes. *)
Ltac exst_unfold :=
  autounfold with exst in *; cbn beta iota in *.

(** Case analysis on the outcome of the computation at the head of a bind. *)
Ltac exst_case m s :=
  let r := fresh "r" in
  let s' := fresh "s'" in
  let E := fresh "Hrun" in
  destruct (m s) as [r s'] eqn:E; destruct r; simpl in *.

(** The comparisons of the code as booleans.  [decide_tests] replaces every
    test of the goal whose answer arithmetic settles by that answer;
    [case_tests] splits on the tests of the goal and [split_tests] on those
    of the hypotheses, closing the cases that arithmetic refutes. *)
Ltac decide_test t :=
  first [replace t with true by lia | replace t with false by lia].

Ltac decide_tests :=
  repeat (match goal with
          | |- context [?a <? ?b] => decide_test (a <? b)
          | |- context [?a <=? ?b] => decide_test (a <=? b)
          | |- context [?a =? ?b] => decide_test (a =? b)
          end; cbn [andb negb]).

Ltac case_tests :=
  repeat (match goal with
          | |- context [?a <? ?b] => destruct (Z.ltb_spec a b)
          | |- context [?a <=? ?b] => destruct (Z.leb_spec a b)
          | |- context [?a =? ?b] => destruct (Z.eqb_spec a b)
          end; cbn [andb negb]; try lia).

Ltac split_tests :=
  repeat match goal with
         | H : context [?a <? ?b] |- _ =>
             destruct (Z.ltb_spec a b); cbn [andb negb] in H; try lia
         | H : context [?a <=? ?b] |- _ =>
             destruct (Z.leb_spec a b); cbn [andb negb] in H; try lia
         | H : context [?a =? ?b] |- _ =>
             destruct (Z.eqb_spec a b); cbn [andb negb] in H; try lia
         end.

(** ** Monad laws *)

Section Laws.
Context {E S : Type}.

Lemma bind_ret_l {A B} (a : A) (k : A -> exst E S B) s :
  bind (ret a) k s = k a s.
Proof. reflexivity. Qed.

Lemma bind_ret_r {A} (m : exst E S A) s : bind m ret s = m s.
Proof. unfold bind, ret. by destruct (m s) as [[]]. Qed.

Lemma bind_assoc {A B C} (m : exst E S A) (k : A -> exst E S B)
    (h : B -> exst E S C) s :
  bind (bind m k) h s = bind m (fun a => bind (k a) h) s.
Proof. unfold bind. by destruct (m s) as [[]]. Qed.

Lemma bind_raise_l {A B} (e : E) (k : A -> exst E S B) s :
  bind (raise e) k s = (Raise e, s).
Proof. reflexivity. Qed.

(** The two equations by which a proof steps through a bind. *)
Lemma bind_returns {A B} (m : exst E S A) (k : A -> exst E S B) s a s' :
  returns m s a s' -> bind m k s = k a s'.
Proof. unfold returns, bind. by intros ->. Qed.

Lemma bind_raises {A B} (m : exst E S A) (k : A -> exst E S B) s e s' :
  raises m s e s' -> bind m k s = (Raise e, s').
Proof. unfold raises, bind. by intros ->. Qed.

Lemma returns_inj {A} (m : exst E S A) s a1 s1 a2 s2 :
  returns m s a1 s1 -> returns m s a2 s2 -> a1 = a2 /\ s1 = s2.
Proof. unfold returns. intros -> [= -> ->]. done. Qed.

Lemma returns_not_raises {A} (m : exst E S A) s a s1 e s2 :
  returns m s a s1 -> raises m s e s2 -> False.
Proof. unfold returns, raises. by intros ->. Qed.

Lemma returns_or_raises {A} (m : exst E S A) s :
  (exists a s', returns m s a s') \/ (exists e s', raises m s e s').
Proof. unfold returns, raises. destruct (m s) as [[a|e] s']; eauto. Qed.

(** A bind returns only if both of its parts did. *)
Lemma returns_bind_inv {A B} (m : exst E S A) (k : A -> exst E S B) s b s' :
  returns (bind m k) s b s' ->
  exists a s1, returns m s a s1 /\ returns (k a) s1 b s'.
Proof.
  unfold returns, bind. destruct (m s) as [[a|e] s1]; [eauto | done].
Qed.

(** A bind raises in its first part or, that having returned, in its second. *)
Lemma raises_bind_inv {A B} (m : exst E S A) (k : A -> exst E S B) s e s' :
  raises (bind m k) s e s' ->
  raises m s e s' \/ exists a s1, returns m s a s1 /\ raises (k a) s1 e s'.
Proof.
  unfold raises, returns, bind. destruct (m s) as [[a|e1] s1]; [eauto|].
  intros [= -> ->]. by left.
Qed.

Lemma returns_ret_inv {A} (a b : A) (s s' : S) :
  returns (ret (E:=E) a) s b s' -> b = a /\ s' = s.
Proof. by intros [= -> ->]. Qed.

Lemma returns_lift_inv {A} (o : outcome E A) (s s' : S) a :
  returns (lift_outcome o) s a s' -> o = Ok a /\ s' = s.
Proof. by intros [= -> ->]. Qed.

(** [catch] leaves a result alone and hands an exception to the handler. *)
Lemma catch_returns {A} (m : exst E S A) (h : E -> exst E S A) s a s' :
  returns m s a s' -> catch m h s = (Ok a, s').
Proof. unfold returns, catch. by intros ->. Qed.

Lemma catch_raises {A} (m : exst E S A) (h : E -> exst E S A) s e s' :
  raises m s e s' -> catch m h s = h e s'.
Proof. unfold raises, catch. by intros ->. Qed.

(** What holds of the body's results and of the handler's outcomes holds of
    the statement. *)
(** The outcome of a [try] statement: that of its body, or that of the
    handler from the state in which the body raised. *)
Lemma catch_outcome {A} (m : exst E S A) (h : E -> exst E S A) s :
  (catch m h s).1 =
    match (m s).1 with Ok a => Ok a | Raise e => (h e (m s).2).1 end.
Proof. unfold catch. by destruct (m s) as [[a|e] s']. Qed.

Lemma catch_all {A} (P : outcome E A * S -> Prop) (m : exst E S A)
    (h : E -> exst E S A) s :
  (forall a s', returns m s a s' -> P (Ok a, s')) ->
  (forall e s', raises m s e s' -> P (h e s')) ->
  P (catch m h s).
Proof.
  intros Hm Hh. unfold catch, returns, raises in *.
  destruct (m s) as [[a|e] s']; [by apply Hm | by apply Hh].
Qed.

(** A loop that returns has collected one value per iteration. *)
Lemma repeat_collect_length {A} n (body : exst E S A) s xs s' :
  returns (repeat_collect n body) s xs s' -> length xs = n.
Proof.
  revert s xs s'. induction n as [|n IH]; intros s xs s'; simpl.
  - by intros [-> _]%returns_ret_inv.
  - intros (x & s1 & _ & (ys & s2 & Hys & [-> _]%returns_ret_inv)%returns_bind_inv)%returns_bind_inv.
    simpl. f_equal. by eapply IH.
Qed.

Lemma repeat_collect_0 {A} (body : exst E S A) s :
  repeat_collect 0 body s = (Ok [], s).
Proof. reflexivity. Qed.

End Laws.

(** ** Composition of [preserves] and [mono] *)

Section Preserves.
Context {E S : Type} (I : S -> Prop).

Lemma preserves_ret {A} (a : A) : preserves I (ret (E:=E) a).
Proof. by intros s. Qed.

Lemma preserves_raise {A} (e : E) : preserves I (raise (A:=A) e).
Proof. by intros s. Qed.

Lemma preserves_gets {A} (f : S -> A) : preserves I (gets (E:=E) f).
Proof. by intros s. Qed.

Lemma preserves_lift {A} (o : outcome E A) : preserves I (lift_outcome o).
Proof. by intros s. Qed.

Lemma preserves_bind {A B} (m : exst E S A) (k : A -> exst E S B) :
  preserves I m -> (forall a, preserves I (k a)) -> preserves I (bind m k).
Proof.
  intros Hm Hk s Hs. unfold bind. specialize (Hm s Hs).
  destruct (m s) as [[a|e] s']; simpl in *; [by apply Hk | done].
Qed.

Lemma preserves_finally {A} (m : exst E S A) (fin : exst E S unit) :
  preserves I m -> preserves I fin -> preserves I (finally m fin).
Proof.
  intros Hm Hf s Hs. unfold finally. specialize (Hm s Hs).
  destruct (m s) as [r s']; simpl in *. specialize (Hf s' Hm).
  by destruct (fin s') as [[]].
Qed.

(** What the body establishes and the handlers keep, holds after the
    statement. *)
Lemma catch_state {A} (m : exst E S A) (h : E -> exst E S A) s :
  I (m s).2 -> (forall e, preserves I (h e)) -> I (catch m h s).2.
Proof.
  intros Hm Hh. unfold catch.
  destruct (m s) as [[a|e] s']; simpl in *; [done | by apply Hh].
Qed.

Lemma preserves_catch {A} (m : exst E S A) (h : E -> exst E S A) :
  preserves I m -> (forall e, preserves I (h e)) -> preserves I (catch m h).
Proof. intros Hm Hh s Hs. apply catch_state; [by apply Hm | done]. Qed.

Lemma preserves_repeat_collect {A} n (body : exst E S A) :
  preserves I body -> preserves I (repeat_collect n body).
Proof.
  intros Hb. induction n as [|n IH]; simpl; [apply preserves_ret|].
  apply preserves_bind; [done|]. intros x.
  apply preserves_bind; [done|]. intros xs. apply preserves_ret.
Qed.

End Preserves.

#[export] Hint Resolve preserves_ret preserves_raise preserves_gets
  preserves_lift preserves_bind preserves_finally preserves_catch
  preserves_repeat_collect : exst.

Lemma preserves_and {E S A} (I J : S -> Prop) (m : exst E S A) :
  preserves I m -> preserves J m -> preserves (fun s => I s /\ J s) m.
Proof. intros HI HJ s [? ?]. split; [by apply HI | by apply HJ]. Qed.

(** ** The exceptions of a computation *)

Section RaisesOnly.
Context {E S : Type} (I : S -> Prop) (P : E -> Prop).

Lemma raises_only_ret {A} (a : A) : raises_only I P (ret a).
Proof. by intros s e s' _ [=]. Qed.

Lemma raises_only_raise {A} (e : E) : P e -> raises_only I P (raise (A:=A) e).
Proof. by intros He s e' s' _ [= <- _]. Qed.

Lemma raises_only_lift {A} (o : outcome E A) :
  (forall e, o = Raise e -> P e) -> raises_only I P (lift_outcome o).
Proof. intros Ho s e s' _ [= -> _]. by apply Ho. Qed.

(** The exceptions of a sequence are those of its parts, provided the
    first part leaves a state from which the second is specified. *)
Lemma raises_only_bind {A B} (m : exst E S A) (k : A -> exst E S B) :
  preserves I m -> raises_only I P m -> (forall a, raises_only I P (k a)) ->
  raises_only I P (bind m k).
Proof.
  intros Hp Hm Hk s e s' Hs [H|(a & s1 & Hr & H)]%raises_bind_inv; [by eapply Hm|].
  eapply Hk; [|done]. specialize (Hp s Hs). unfold returns in Hr. by rewrite Hr in Hp.
Qed.

Lemma raises_only_weaken {A} (Q : E -> Prop) (m : exst E S A) :
  (forall e, Q e -> P e) -> raises_only I Q m -> raises_only I P m.
Proof. intros HQ Hm s e s' Hs Hr. eapply HQ, Hm; done. Qed.

End RaisesOnly.

#[export] Hint Resolve raises_only_ret raises_only_raise raises_only_bind : exst.

Section Mono.
Context {E S : Type} (f : S -> Z).

Lemma mono_ret {A} (a : A) : mono f (ret (E:=E) a).
Proof. intros s. simpl. lia. Qed.

Lemma mono_raise {A} (e : E) : mono f (raise (A:=A) e).
Proof. intros s. simpl. lia. Qed.

Lemma mono_lift {A} (o : outcome E A) : mono f (lift_outcome o).
Proof. intros s. simpl. lia. Qed.

Lemma mono_bind {A B} (m : exst E S A) (k : A -> exst E S B) :
  mono f m -> (forall a, mono f (k a)) -> mono f (bind m k).
Proof.
  intros Hm Hk s. unfold bind. specialize (Hm s).
  destruct (m s) as [[a|e] s']; simpl in *; [|done].
  specialize (Hk a s'). lia.
Qed.

Lemma mono_repeat_collect {A} n (body : exst E S A) :
  mono f body -> mono f (repeat_collect n body).
Proof.
  intros Hb. induction n as [|n IH]; simpl; [apply mono_ret|].
  apply mono_bind; [done|]. intros x.
  apply mono_bind; [done|]. intros xs. apply mono_ret.
Qed.

End Mono.

#[export] Hint Resolve mono_ret mono_raise mono_lift mono_bind
  mono_repeat_collect : exst.

(** ** Lemmas on slices *)

Section Slices.
Context {A : Type}.
Implicit Types (l : list A) (off n : Z).

Lemma zlength_nonneg l : 0 <= zlength l.
Proof. unfold zlength. lia. Qed.

Lemma zlength_app l1 l2 : zlength (l1 ++ l2) = zlength l1 + zlength l2.
Proof. unfold zlength. rewrite length_app. lia. Qed.

Lemma zlength_zdrop off l :
  0 <= off -> zlength (zdrop off l) = Z.max 0 (zlength l - off).
Proof. unfold zlength, zdrop. rewrite length_drop. lia. Qed.

Lemma zlength_ztake n l :
  0 <= n -> zlength (ztake n l) = Z.min n (zlength l).
Proof. unfold zlength, ztake. rewrite length_take. lia. Qed.

Lemma zlength_slice off n l :
  0 <= off -> 0 <= n ->
  zlength (slice off n l) = Z.min n (Z.max 0 (zlength l - off)).
Proof. intros. unfold slice. rewrite zlength_ztake, zlength_zdrop; lia. Qed.

Lemma zlength_slice_le off n l :
  0 <= n -> zlength (slice off n l) <= n.
Proof. unfold zlength, slice, ztake. rewrite length_take. lia. Qed.

Lemma zlength_slice_full off n l :
  0 <= off -> 0 <= n -> off + n <= zlength l -> zlength (slice off n l) = n.
Proof. intros. rewrite zlength_slice; lia. Qed.

Lemma zdrop_zdrop off1 off2 l :
  0 <= off1 -> 0 <= off2 -> zdrop off2 (zdrop off1 l) = zdrop (off1 + off2) l.
Proof.
  intros. unfold zdrop. rewrite drop_drop. f_equal. lia.
Qed.

Lemma zdrop_0 l : zdrop 0 l = l.
Proof. reflexivity. Qed.

Lemma zdrop_ge off l : zlength l <= off -> zdrop off l = [].
Proof. unfold zdrop, zlength. intros. apply drop_ge. lia. Qed.

Lemma slice_past_end off n l : zlength l <= off -> slice off n l = [].
Proof. intros. unfold slice. rewrite zdrop_ge by done. apply take_nil. Qed.

Lemma zdrop_app_length l1 l2 : zdrop (zlength l1) (l1 ++ l2) = l2.
Proof. unfold zdrop, zlength. rewrite Nat2Z.id. apply drop_app_length. Qed.

Lemma ztake_app_length l1 l2 : ztake (zlength l1) (l1 ++ l2) = l1.
Proof. unfold ztake, zlength. rewrite Nat2Z.id. apply take_app_length. Qed.

(** A slice followed by the rest is the suffix it was cut from. *)
Lemma slice_zdrop off n l :
  0 <= off -> 0 <= n -> slice off n l ++ zdrop (off + n) l = zdrop off l.
Proof.
  intros. unfold slice, ztake. rewrite <- zdrop_zdrop by done.
  unfold zdrop at 3. apply take_drop.
Qed.

(** What remains after a slice was consumed, counted by its actual length. *)
Lemma zdrop_slice_consumed off n l :
  0 <= off -> 0 <= n ->
  zdrop (off + zlength (slice off n l)) l = zdrop (off + n) l.
Proof.
  intros. rewrite zlength_slice by done.
  destruct (decide (off + n <= zlength l)) as [Hle|Hgt].
  - f_equal. lia.
  - rewrite !zdrop_ge; [done| lia | lia].
Qed.

Lemma slice_of_app off l1 l2 n :
  off = zlength l1 -> n = zlength l2 ->
  forall l3, slice off n (l1 ++ l2 ++ l3) = l2.
Proof.
  intros -> -> l3. unfold slice. by rewrite zdrop_app_length, ztake_app_length.
Qed.

End Slices.

#[export] Hint Resolve zlength_nonneg zlength_slice_le : slice.
#[export] Hint Rewrite @zlength_app @zdrop_0 @zdrop_app_length
  @ztake_app_length : slice.
