(* ===== verification/Errors.v ===== *)
(** * Exceptions of the program

    The Python exceptions that the reader raises itself or lets through from
    the runtime, the two that the tests of the repository raise, the class
    hierarchy that the [except] clauses of the
    front-ends test, the clauses of a [try] statement as a computation, the
    text [str(e)] that the front-ends print, and the error taxonomy of the
    specification as a classification of the exceptions. *)

From Stdlib Require Import ZArith.
From stdpp Require Import base tactics list strings pretty.
From S2P Require Import Prelude.

#[local] Open Scope string_scope.

(** The exceptions, with the arguments that the handlers read.  The last
    two are raised by the tests of the repository only: by a subscript with
    a key that a dictionary does not have, and by an [assert] statement. *)
Inductive exn : Type :=
| ValueError (msg : string)
| UnicodeDecodeError (encoding : string)
| FileNotFoundError (path : string)
| OSError (errno : Z) (strerror : string)
| StructError (msg : string)
| LookupError (msg : string)
| AttributeError (msg : string)
| TypeError (msg : string)
| OverflowError (msg : string)
| KeyError (key : string)
| AssertionError (msg : string).

#[export] Instance exn_eq_dec : EqDecision exn.
Proof. solve_decision. Defined.

(** The classes named by [except] clauses. *)
Inductive exn_class : Type :=
| CValueError
| CFileNotFoundError
| COSError
| CException.

#[export] Instance exn_class_eq_dec : EqDecision exn_class.
Proof. solve_decision. Defined.

(** [isinstance(e, C)]: [UnicodeDecodeError] derives from [ValueError],
    [FileNotFoundError] from [OSError], everything from [Exception]. *)
Definition exn_isinstance (e : exn) (c : exn_class) : bool :=
  match c, e with
  | CException, _ => true
  | CValueError, (ValueError _ | UnicodeDecodeError _) => true
  | CFileNotFoundError, FileNotFoundError _ => true
  | COSError, (OSError _ _ | FileNotFoundError _) => true
  | _, _ => false
  end.

(** The messages of the exceptions that the program raises by name. *)
Definition msg_not_open : string := "File is not open".
Definition msg_invalid_uasset : string := "Not a valid .uasset file".

(** The messages of the runtime that the program can provoke. *)
Definition msg_read_closed : string := "read of closed file".
Definition msg_read_length : string := "read length must be non-negative or -1".
Definition msg_seek_closed : string := "seek of closed file".
Definition msg_unpack_4 : string := "unpack requires a buffer of 4 bytes".
Definition msg_einval : string := "Invalid argument".

(** What instantiating the abstract class [BinaryReader] raises. *)
Definition msg_abstract : string :=
  "Can't instantiate abstract class BinaryReader without an implementation for abstract methods 'read_header', 'read_metadata'".

(** [str(e)].  An [OSError] prints its number and text, with the file name
    in quotes when it has one; the other exceptions print their argument.
    The text of a [UnicodeDecodeError] also names the offending byte and its
    position, which the model does not keep: no front-end decodes text. *)
Definition exn_str (e : exn) : string :=
  match e with
  | ValueError msg | StructError msg | LookupError msg | AttributeError msg
  | TypeError msg | OverflowError msg | AssertionError msg => msg
  | KeyError key => "'" +:+ key +:+ "'"
  | UnicodeDecodeError encoding => "'" +:+ encoding +:+ "' codec can't decode bytes"
  | FileNotFoundError path =>
      "[Errno 2] No such file or directory: '" +:+ path +:+ "'"
  | OSError errno strerror => "[Errno " +:+ pretty errno +:+ "] " +:+ strerror
  end.

(** The [except] clauses of a [try] statement, tried in order; an exception
    that no clause names propagates. *)
Fixpoint except_clauses {S A} (clauses : list (exn_class * (exn -> exst exn S A)))
    (e : exn) : exst exn S A :=
  match clauses with
  | [] => raise e
  | (c, h) :: rest => if exn_isinstance e c then h e else except_clauses rest e
  end.

(** The taxonomy of the specification. *)
Inductive error_kind : Type :=
| NotFound
| NotOpen
| InvalidFormat
| DecodeError
| OtherError.

#[export] Instance error_kind_eq_dec : EqDecision error_kind.
Proof. solve_decision. Defined.

Definition classify (e : exn) : error_kind :=
  match e with
  | FileNotFoundError _ => NotFound
  | ValueError msg =>
      if decide (msg = msg_invalid_uasset) then InvalidFormat
      else if decide (msg = msg_not_open) then NotOpen
      else if decide (msg = msg_read_closed) then NotOpen
      else if decide (msg = msg_seek_closed) then NotOpen
      else OtherError
  | StructError _ | UnicodeDecodeError _ => DecodeError
  | _ => OtherError
  end.

(** ** Facts on the hierarchy *)

Lemma isinstance_exception e : exn_isinstance e CException = true.
Proof. by destruct e. Qed.

Lemma isinstance_not_found_oserror e :
  exn_isinstance e CFileNotFoundError = true -> exn_isinstance e COSError = true.
Proof. by destruct e. Qed.

Lemma isinstance_value_not_oserror e :
  exn_isinstance e CValueError = true -> exn_isinstance e COSError = false.
Proof. by destruct e. Qed.

Lemma struct_error_not_value_error msg :
  exn_isinstance (StructError msg) CValueError = false.
Proof. reflexivity. Qed.

(** Handlers that keep a predicate on the state make clauses that keep it. *)
Lemma preserves_except_clauses {S A} (I : S -> Prop)
    (clauses : list (exn_class * (exn -> exst exn S A))) (e : exn) :
  Forall (fun ch => forall e, preserves I (ch.2 e)) clauses ->
  preserves I (except_clauses clauses e).
Proof.
  induction 1 as [|[c h] rest Hh Hall IH]; simpl; [apply preserves_raise|].
  destruct (exn_isinstance e c); [apply Hh | done].
Qed.

(** When the last clause of a [try] statement names [Exception], nothing
    propagates: what holds of every handler holds of the statement. *)
Lemma except_clauses_all {S A} (P : outcome exn A * S -> Prop)
    (clauses : list (exn_class * (exn -> exst exn S A))) (e : exn) (s : S) :
  Forall (fun ch => forall e s, P (ch.2 e s)) clauses ->
  last (clauses.*1) = Some CException ->
  P (except_clauses clauses e s).
Proof.
  induction clauses as [|[c h] rest IH]; [done|]. intros Hall Hlast.
  apply Forall_cons in Hall as [Hh Hall]. simpl.
  destruct (exn_isinstance e c) eqn:Hi; [apply Hh|].
  destruct rest as [|ch rest']; [|by apply IH].
  simpl in Hlast. injection Hlast as ->. by rewrite isinstance_exception in Hi.
Qed.

Lemma classify_not_found e : classify e = NotFound <-> exists p, e = FileNotFoundError p.
Proof.
  split; [|by intros [p ->]].
  destruct e; simpl; try done; [|by eauto].
  repeat case_decide; done.
Qed.

Lemma classify_invalid_format e :
  classify e = InvalidFormat <-> e = ValueError msg_invalid_uasset.
Proof.
  split; [|by intros ->].
  destruct e; simpl; try done.
  repeat case_decide; by subst.
Qed.
