(* ===== verification/Bytes.v ===== *)
(** * Bytes and fixed-width integers

    The byte-level functions of the Python runtime that the reader and its
    tests call: [struct.unpack] with the formats ['<I'], ['<i'] and ['<f'],
    [int.to_bytes(n, 'little')] and [bytes.fromhex], and the two's
    complement bytes of a signed number and the bytes of a binary32 number,
    which the writer of [Writer.v] puts for a length prefix and for a
    floating-point field.  Integers are [Z]; the 32-bit width is in the
    definitions, not in the type.  Floating-point numbers are the
    [spec_float] of the Standard Library. *)

From Stdlib Require Import ZArith Lia Strings.Byte Strings.Ascii Floats.SpecFloat.
From stdpp Require Import base tactics option list numbers strings.
From S2P Require Import Prelude Errors.

#[local] Open Scope Z_scope.

(** Division and remainder by constants are linear arithmetic for [lia]. *)
#[local] Ltac Zify.zify_post_hook ::= Z.div_mod_to_equations.

Abbreviation byte := Byte.byte.
Abbreviation bytes := (list Byte.byte).

#[export] Instance byte_eq_dec : EqDecision byte := Byte.byte_eq_dec.

(** ** Bytes as integers *)

Definition byte_to_Z (b : byte) : Z := Z.of_N (Byte.to_N b).

Definition byte_of_Z (z : Z) : byte :=
  default x00 (Byte.of_N (Z.to_N (z mod 256))).

(** ** Little-endian integers *)

(** [int.from_bytes(bs, 'little')], by Horner's rule. *)
Fixpoint le_decode (bs : bytes) : Z :=
  match bs with
  | [] => 0
  | b :: rest => byte_to_Z b + 256 * le_decode rest
  end.

(** The same number assembled with shifts and ors, as the C code behind
    [struct] does. *)
Fixpoint le_decode_bits (bs : bytes) : Z :=
  match bs with
  | [] => 0
  | b :: rest => Z.lor (byte_to_Z b) (Z.shiftl (le_decode_bits rest) 8)
  end.

(** The [n] low bytes of [z], least significant first. *)
Fixpoint le_encode (n : nat) (z : Z) : bytes :=
  match n with
  | O => []
  | S n' => byte_of_Z z :: le_encode n' (z / 256)
  end.

(** Two's complement reading of a [w]-bit unsigned number. *)
Definition to_signed (w : Z) (u : Z) : Z :=
  if u <? 2 ^ (w - 1) then u else u - 2 ^ w.

Definition to_unsigned (w : Z) (i : Z) : Z := i mod 2 ^ w.

(** [struct.unpack('<I', data)[0]] *)
Definition unpack_u32 (data : bytes) : outcome exn Z :=
  if decide (length data = 4%nat) then Ok (le_decode data)
  else Raise (StructError msg_unpack_4).

(** [struct.unpack('<i', data)[0]] *)
Definition unpack_i32 (data : bytes) : outcome exn Z :=
  if decide (length data = 4%nat) then Ok (to_signed 32 (le_decode data))
  else Raise (StructError msg_unpack_4).

(** The IEEE-754 binary32 number with the bit pattern [u]: sign in bit 31,
    biased exponent in bits 30 to 23, fraction in bits 22 to 0.  The Python
    float that [struct] returns is the binary64 number of the same value. *)
Definition f32_of_bits (u : Z) : spec_float :=
  let s := Z.testbit u 31 in
  let e := Z.land (Z.shiftr u 23) 0xFF in
  let m := Z.land u 0x7FFFFF in
  if e =? 0 then
    if m =? 0 then S754_zero s else S754_finite s (Z.to_pos m) (-149)
  else if e =? 255 then
    if m =? 0 then S754_infinity s else S754_nan
  else S754_finite s (Z.to_pos (m + 2 ^ 23)) (e - 150).

(** [struct.unpack('<f', data)[0]] *)
Definition unpack_f32 (data : bytes) : outcome exn spec_float :=
  if decide (length data = 4%nat) then Ok (f32_of_bits (le_decode data))
  else Raise (StructError msg_unpack_4).

(** [int(z).to_bytes(n, 'little')] *)
Definition int_to_bytes (z : Z) (n : nat) : outcome exn bytes :=
  if z <? 0 then Raise (OverflowError "can't convert negative int to unsigned")
  else if 2 ^ (8 * Z.of_nat n) <=? z then Raise (OverflowError "int too big to convert")
  else Ok (le_encode n z).

(** The four bytes that a writer of the format puts for a signed 32-bit
    number: what [struct.pack('<i', z)] returns for [z] in [-2^31, 2^31). *)
Definition i32_bytes (z : Z) : bytes := le_encode 4 (to_unsigned 32 z).

(** The bit pattern of a binary32 number, the inverse of [f32_of_bits]: the
    sign in bit 31, then the biased exponent and the fraction.  A number
    whose mantissa has fewer than twenty-four bits is subnormal and has the
    exponent field zero; not-a-number is written as the quiet pattern. *)
Definition sign_bit (s : bool) : Z := if s then 2 ^ 31 else 0.

Definition bits_of_f32 (x : spec_float) : Z :=
  match x with
  | S754_zero s => sign_bit s
  | S754_infinity s => sign_bit s + 255 * 2 ^ 23
  | S754_nan => 255 * 2 ^ 23 + 2 ^ 22
  | S754_finite s m e =>
      if Z.pos m <? 2 ^ 23 then sign_bit s + Z.pos m
      else sign_bit s + (e + 150) * 2 ^ 23 + (Z.pos m - 2 ^ 23)
  end.

(** The four bytes that a writer of the format puts for a binary32 number:
    what [struct.pack('<f', x)] returns. *)
Definition pack_f32 (x : spec_float) : bytes := le_encode 4 (bits_of_f32 x).

(** ** [bytes.fromhex] *)

Definition hex_digit (c : ascii) : option Z :=
  let n := Z.of_N (N_of_ascii c) in
  if (48 <=? n) && (n <=? 57) then Some (n - 48)
  else if (97 <=? n) && (n <=? 102) then Some (n - 87)
  else if (65 <=? n) && (n <=? 70) then Some (n - 55)
  else None.

Definition is_ascii_space (c : ascii) : bool :=
  let n := Z.of_N (N_of_ascii c) in
  (n =? 32) || ((9 <=? n) && (n <=? 13)).

(** Pairs of hexadecimal digits, with white space allowed between the pairs;
    [None] stands for the [ValueError] of a malformed argument. *)
Fixpoint bytes_fromhex (s : string) : option bytes :=
  match s with
  | EmptyString => Some []
  | String c1 s1 =>
      if is_ascii_space c1 then bytes_fromhex s1
      else match s1 with
           | EmptyString => None
           | String c2 s2 =>
               hi ← hex_digit c1;
               lo ← hex_digit c2;
               rest ← bytes_fromhex s2;
               Some (byte_of_Z (16 * hi + lo) :: rest)
           end
  end.

(** ** Bytes and integers *)

Lemma byte_to_Z_range b : 0 <= byte_to_Z b < 256.
Proof.
  unfold byte_to_Z. pose proof (Byte.to_N_bounded b). lia.
Qed.

Lemma byte_of_N_in_range n : (n <= 255)%N -> is_Some (Byte.of_N n).
Proof.
  intros Hn. destruct (Byte.of_N n) eqn:E; [by eexists|].
  apply Byte.of_N_None_iff in E. lia.
Qed.

Lemma byte_to_of_Z z : byte_to_Z (byte_of_Z z) = z mod 256.
Proof.
  unfold byte_to_Z, byte_of_Z.
  pose proof (Z.mod_pos_bound z 256 ltac:(lia)) as Hb.
  destruct (byte_of_N_in_range (Z.to_N (z mod 256)) ltac:(lia)) as [b Hb'].
  rewrite Hb'. simpl. rewrite (Byte.to_of_N _ Hb'). lia.
Qed.

Lemma byte_to_Z_inj b1 b2 : byte_to_Z b1 = byte_to_Z b2 -> b1 = b2.
Proof.
  unfold byte_to_Z. intros H%N2Z.inj.
  pose proof (Byte.of_to_N b1) as E1. pose proof (Byte.of_to_N b2) as E2.
  congruence.
Qed.

Lemma byte_of_to_Z b : byte_of_Z (byte_to_Z b) = b.
Proof.
  apply byte_to_Z_inj. rewrite byte_to_of_Z.
  apply Z.mod_small, byte_to_Z_range.
Qed.

Lemma byte_to_of_Z_small z : 0 <= z < 256 -> byte_to_Z (byte_of_Z z) = z.
Proof. intros. rewrite byte_to_of_Z. lia. Qed.

Lemma byte_of_Z_eq z b : z = byte_to_Z b -> byte_of_Z z = b.
Proof. intros ->. apply byte_of_to_Z. Qed.

#[export] Hint Rewrite byte_to_of_Z byte_of_to_Z : slice.

(** ** The little-endian decoder *)

Lemma le_decode_range bs : 0 <= le_decode bs < 2 ^ (8 * zlength bs).
Proof.
  unfold zlength. induction bs as [|b bs IH]; [simpl; lia|].
  cbn [le_decode length]. pose proof (byte_to_Z_range b).
  replace (8 * Z.of_nat (S (length bs))) with (8 + 8 * Z.of_nat (length bs)) by lia.
  rewrite Z.pow_add_r by lia. change (2 ^ 8) with 256. lia.
Qed.

Lemma le_decode_app bs1 bs2 :
  le_decode (bs1 ++ bs2) = le_decode bs1 + 2 ^ (8 * zlength bs1) * le_decode bs2.
Proof.
  unfold zlength. induction bs1 as [|b bs1 IH]; [simpl; lia|].
  cbn [le_decode app length]. rewrite IH.
  replace (8 * Z.of_nat (S (length bs1))) with (8 + 8 * Z.of_nat (length bs1)) by lia.
  rewrite Z.pow_add_r by lia. change (2 ^ 8) with 256. lia.
Qed.

Lemma length_le_encode n z : length (le_encode n z) = n.
Proof. revert z. induction n; intros; simpl; [done | by rewrite IHn]. Qed.

Lemma le_decode_encode n z : le_decode (le_encode n z) = z mod 2 ^ (8 * Z.of_nat n).
Proof.
  revert z. induction n as [|n IH]; intros z.
  - simpl. by rewrite Z.mod_1_r.
  - cbn [le_encode le_decode]. rewrite IH, byte_to_of_Z.
    replace (8 * Z.of_nat (S n)) with (8 + 8 * Z.of_nat n) by lia.
    rewrite Z.pow_add_r by lia. change (2 ^ 8) with 256.
    rewrite Z.rem_mul_r by lia. lia.
Qed.

Lemma le_encode_decode bs : le_encode (length bs) (le_decode bs) = bs.
Proof.
  induction bs as [|b bs IH]; [done|].
  cbn [le_encode le_decode length]. pose proof (byte_to_Z_range b). f_equal.
  - apply byte_to_Z_inj. rewrite byte_to_of_Z. lia.
  - etrans; [|exact IH]. f_equal. lia.
Qed.

Lemma le_decode_inj bs1 bs2 :
  length bs1 = length bs2 -> le_decode bs1 = le_decode bs2 -> bs1 = bs2.
Proof.
  intros Hlen Heq. rewrite <- (le_encode_decode bs1), <- (le_encode_decode bs2).
  by rewrite Hlen, Heq.
Qed.

Lemma land_byte_shifted a b : 0 <= a < 256 -> Z.land a (b * 256) = 0.
Proof.
  intros Ha. apply Z.bits_inj'; intros n Hn. rewrite Z.land_spec, Z.bits_0.
  change 256 with (2 ^ 8) in *. destruct (decide (n < 8)).
  - rewrite Z.mul_pow2_bits_low by lia. apply andb_false_r.
  - rewrite <- (Z.mod_small a (2 ^ 8)) by lia.
    by rewrite Z.mod_pow2_bits_high by lia.
Qed.

(** Or-ing a byte under a number shifted by eight bits is adding it. *)
Lemma lor_shiftl_8 a b : 0 <= a < 256 -> Z.lor a (Z.shiftl b 8) = a + 256 * b.
Proof.
  intros Ha. rewrite Z.shiftl_mul_pow2 by lia. change (2 ^ 8) with 256.
  rewrite <- Z.lxor_lor, <- Z.add_nocarry_lxor by (by apply land_byte_shifted).
  lia.
Qed.

(** ** Signed and unsigned readings *)

Lemma to_signed_range w u :
  0 < w -> 0 <= u < 2 ^ w -> - 2 ^ (w - 1) <= to_signed w u < 2 ^ (w - 1).
Proof.
  intros Hw Hu. unfold to_signed.
  assert (2 ^ w = 2 * 2 ^ (w - 1)) as Hp.
  { rewrite <- Z.pow_succ_r by lia. f_equal. lia. }
  case_match; lia.
Qed.

Lemma to_unsigned_signed w u : 0 < w -> 0 <= u < 2 ^ w -> to_unsigned w (to_signed w u) = u.
Proof.
  intros Hw Hu. unfold to_signed, to_unsigned. case_match.
  - by apply Z.mod_small.
  - rewrite <- (Z.mod_small u (2 ^ w)) at 2 by done.
    rewrite <- (Z_mod_plus_full u (-1) (2 ^ w)). f_equal; lia.
Qed.

Lemma to_signed_unsigned w i :
  0 < w -> - 2 ^ (w - 1) <= i < 2 ^ (w - 1) -> to_signed w (to_unsigned w i) = i.
Proof.
  intros Hw Hi. unfold to_signed, to_unsigned.
  assert (2 ^ w = 2 * 2 ^ (w - 1)) as Hp.
  { rewrite <- Z.pow_succ_r by lia. f_equal. lia. }
  destruct (decide (0 <= i)) as [Hpos|Hneg].
  - rewrite Z.mod_small by lia. case_match; lia.
  - replace (i mod 2 ^ w) with (i + 2 ^ w).
    + case_match; lia.
    + rewrite <- (Z_mod_plus_full i 1 (2 ^ w)). rewrite Z.mod_small; lia.
Qed.

(** ** [struct.unpack] *)

Lemma unpack_u32_Ok data v :
  unpack_u32 data = Ok v <-> length data = 4%nat /\ v = le_decode data.
Proof. unfold unpack_u32. case_decide; naive_solver. Qed.

Lemma unpack_u32_Raise data e :
  unpack_u32 data = Raise e <-> length data <> 4%nat /\ e = StructError msg_unpack_4.
Proof. unfold unpack_u32. case_decide; naive_solver. Qed.

Lemma unpack_i32_Ok data v :
  unpack_i32 data = Ok v <-> length data = 4%nat /\ v = to_signed 32 (le_decode data).
Proof. unfold unpack_i32. case_decide; naive_solver. Qed.

Lemma unpack_i32_Raise data e :
  unpack_i32 data = Raise e <-> length data <> 4%nat /\ e = StructError msg_unpack_4.
Proof. unfold unpack_i32. case_decide; naive_solver. Qed.

Lemma le_decode_4_range data : length data = 4%nat -> 0 <= le_decode data < 2 ^ 32.
Proof.
  intros Hlen. pose proof (le_decode_range data) as H.
  unfold zlength in H. by rewrite Hlen in H.
Qed.

(** An unsigned 32-bit read is a number of 32 bits: whatever four bytes
    [struct.unpack('<I', ...)] is given, its result lies in [0, 2^32). *)
Theorem unpack_u32_range data v : unpack_u32 data = Ok v -> 0 <= v < 2 ^ 32.
Proof. intros [Hlen ->]%unpack_u32_Ok. by apply le_decode_4_range. Qed.

Lemma unpack_u32_range_witness :
  unpack_u32 [x9e; x2a; x83; xc1] = Ok 3246598814 /\ 0 <= 3246598814 < 2 ^ 32.
Proof.
  split; [reflexivity|].
  apply (unpack_u32_range [x9e; x2a; x83; xc1]). reflexivity.
Defined.

(** A signed 32-bit read lies in [-2^31, 2^31). *)
Theorem unpack_i32_range data v : unpack_i32 data = Ok v -> - 2 ^ 31 <= v < 2 ^ 31.
Proof.
  intros [Hlen ->]%unpack_i32_Ok.
  apply (to_signed_range 32); [lia | by apply le_decode_4_range].
Qed.

Lemma unpack_i32_range_witness :
  unpack_i32 [xff; xff; xff; xff] = Ok (-1) /\ - 2 ^ 31 <= -1 < 2 ^ 31.
Proof.
  split; [reflexivity|].
  apply (unpack_i32_range [xff; xff; xff; xff]). reflexivity.
Defined.



(** Both formats fail on the same buffers, those that are not four bytes
    long, and with the same exception. *)
Theorem unpack_short_buffer data :
  length data <> 4%nat ->
  unpack_u32 data = Raise (StructError msg_unpack_4) /\
  unpack_i32 data = Raise (StructError msg_unpack_4).
Proof. intros. split; [by apply unpack_u32_Raise | by apply unpack_i32_Raise]. Qed.

Lemma unpack_short_buffer_witness :
  unpack_u32 [x01; x02] = Raise (StructError msg_unpack_4) /\
  unpack_i32 [x01; x02] = Raise (StructError msg_unpack_4).
Proof. apply unpack_short_buffer. simpl. lia. Defined.

(** The arithmetic decoder and the shift-and-or decoder agree. *)
Theorem le_decode_bits_eq bs : le_decode_bits bs = le_decode bs.
Proof.
  induction bs as [|b bs IH]; [done|]. cbn [le_decode le_decode_bits].
  rewrite IH. apply lor_shiftl_8, byte_to_Z_range.
Qed.

(** ** Round trips with [int.to_bytes] *)

Lemma int_to_bytes_Ok z n bs :
  int_to_bytes z n = Ok bs <-> 0 <= z < 2 ^ (8 * Z.of_nat n) /\ bs = le_encode n z.
Proof. unfold int_to_bytes. repeat case_match; naive_solver lia. Qed.

Lemma unpack_u32_le_encode z : 0 <= z < 2 ^ 32 -> unpack_u32 (le_encode 4 z) = Ok z.
Proof.
  intros Hz. apply unpack_u32_Ok.
  rewrite length_le_encode, le_decode_encode. split; [done|].
  by rewrite Z.mod_small.
Qed.

(** Writing a number with [to_bytes(4, 'little')] and unpacking it as ['<I']
    gives the number back. *)
Theorem unpack_u32_int_to_bytes z bs :
  int_to_bytes z 4 = Ok bs -> unpack_u32 bs = Ok z.
Proof. intros [Hz ->]%int_to_bytes_Ok. by apply unpack_u32_le_encode. Qed.

Lemma unpack_u32_int_to_bytes_witness :
  int_to_bytes 1000 4 = Ok [xe8; x03; x00; x00] /\
  unpack_u32 [xe8; x03; x00; x00] = Ok 1000.
Proof.
  split; [reflexivity|].
  apply (unpack_u32_int_to_bytes 1000). reflexivity.
Defined.

(** Conversely the four bytes are determined by the number read from them. *)
Theorem int_to_bytes_unpack_u32 data v :
  unpack_u32 data = Ok v -> int_to_bytes v 4 = Ok data.
Proof.
  intros [Hlen ->]%unpack_u32_Ok. apply int_to_bytes_Ok.
  split; [by apply le_decode_4_range|].
  by rewrite <- Hlen, le_encode_decode.
Qed.

Lemma int_to_bytes_unpack_u32_witness :
  int_to_bytes 3246598814 4 = Ok [x9e; x2a; x83; xc1].
Proof. apply int_to_bytes_unpack_u32. reflexivity. Defined.

(** A signed number written in two's complement is read back by ['<i']. *)
Lemma unpack_i32_bytes z : - 2 ^ 31 <= z < 2 ^ 31 -> unpack_i32 (i32_bytes z) = Ok z.
Proof.
  intros Hz. apply unpack_i32_Ok. unfold i32_bytes.
  rewrite length_le_encode, le_decode_encode. split; [done|].
  change (2 ^ (8 * Z.of_nat 4)) with (2 ^ 32). unfold to_unsigned.
  rewrite Z.mod_mod by lia. symmetry. by apply (to_signed_unsigned 32).
Qed.

Lemma zlength_i32_bytes z : zlength (i32_bytes z) = 4.
Proof. unfold zlength, i32_bytes. by rewrite length_le_encode. Qed.

Lemma unpack_u32_inj d1 d2 v :
  unpack_u32 d1 = Ok v -> unpack_u32 d2 = Ok v -> d1 = d2.
Proof.
  intros H1%int_to_bytes_unpack_u32 H2%int_to_bytes_unpack_u32. congruence.
Qed.

(** ** The floating-point format *)

Lemma digits2_pos_size p : digits2_pos p = Pos.size p.
Proof. induction p; simpl; congruence. Qed.

Lemma digits2_pos_log2 p : Z.pos (digits2_pos p) = Z.log2 (Z.pos p) + 1.
Proof.
  rewrite digits2_pos_size. destruct p; simpl; lia.
Qed.

(** The number of binary digits of a positive number below [2^n]. *)
Lemma digits2_pos_le m n : 0 < m < 2 ^ n -> Z.pos (digits2_pos (Z.to_pos m)) <= n.
Proof.
  intros Hm. rewrite digits2_pos_log2, Z2Pos.id by lia.
  assert (0 <= n) by (destruct n; [lia | lia | rewrite Z.pow_neg_r in Hm; lia]).
  pose proof (proj1 (Z.log2_lt_pow2 m n ltac:(lia)) ltac:(lia)). lia.
Qed.

Lemma digits2_pos_eq m n :
  0 <= n -> 2 ^ n <= m < 2 ^ (n + 1) -> Z.pos (digits2_pos (Z.to_pos m)) = n + 1.
Proof.
  intros Hn Hm. assert (0 < 2 ^ n) by (apply Z.pow_pos_nonneg; lia).
  rewrite digits2_pos_log2, Z2Pos.id by lia. f_equal.
  apply Z.log2_unique; [done|]. by rewrite <- Z.add_1_r.
Qed.

Lemma f32_fields u :
  0 <= Z.land (Z.shiftr u 23) 0xFF < 256 /\ 0 <= Z.land u 0x7FFFFF < 2 ^ 23.
Proof.
  change 0xFF with (Z.ones 8). change 0x7FFFFF with (Z.ones 23).
  rewrite !Z.land_ones by lia. split; apply Z.mod_pos_bound; lia.
Qed.

Lemma f32_of_bits_valid u : valid_binary 24 128 (f32_of_bits u) = true.
Proof.
  unfold f32_of_bits. destruct (f32_fields u) as [He Hm].
  set (e := Z.land (Z.shiftr u 23) 0xFF) in *. set (m := Z.land u 0x7FFFFF) in *.
  destruct (Z.eqb_spec e 0) as [He0|He0]; [destruct (Z.eqb_spec m 0); [done|]|].
  - pose proof (digits2_pos_le m 23 ltac:(lia)) as Hd.
    unfold valid_binary, bounded, canonical_mantissa, fexp, emin.
    apply andb_true_iff. split; [apply Z.eqb_eq | apply Z.leb_le]; lia.
  - destruct (Z.eqb_spec e 255); [by destruct (m =? 0)|].
    pose proof (digits2_pos_eq (m + 2 ^ 23) 23 ltac:(lia) ltac:(lia)) as Hd.
    unfold valid_binary, bounded, canonical_mantissa, fexp, emin.
    apply andb_true_iff. split; [apply Z.eqb_eq | apply Z.leb_le]; lia.
Qed.

Lemma unpack_f32_Ok data x :
  unpack_f32 data = Ok x <-> length data = 4%nat /\ x = f32_of_bits (le_decode data).
Proof. unfold unpack_f32. case_decide; naive_solver. Qed.

Lemma unpack_f32_Raise data e :
  unpack_f32 data = Raise e <-> length data <> 4%nat /\ e = StructError msg_unpack_4.
Proof. unfold unpack_f32. case_decide; naive_solver. Qed.

(** Whatever four bytes are read, the result is a number of the binary32
    format: zero, an infinity, not-a-number, or a finite number whose
    mantissa and exponent are canonical for 24 bits of precision. *)
Theorem unpack_f32_valid data x :
  unpack_f32 data = Ok x -> valid_binary 24 128 x = true.
Proof. intros [_ ->]%unpack_f32_Ok. apply f32_of_bits_valid. Qed.

Lemma unpack_f32_valid_witness :
  valid_binary 24 128 (S754_finite false 8388608 (-23)) = true.
Proof. apply (unpack_f32_valid [x00; x00; x80; x3f]). reflexivity. Defined.

(** One, minus two and a half, the smallest subnormal, infinity and a
    not-a-number. *)
Example unpack_f32_one :
  unpack_f32 [x00; x00; x80; x3f] = Ok (S754_finite false (2 ^ 23) (-23)).
Proof. reflexivity. Qed.

Example unpack_f32_neg :
  unpack_f32 [x00; x00; x20; xc0] = Ok (S754_finite true (5 * 2 ^ 21) (-22)).
Proof. reflexivity. Qed.

Example unpack_f32_subnormal :
  unpack_f32 [x01; x00; x00; x00] = Ok (S754_finite false 1 (-149)).
Proof. reflexivity. Qed.

Example unpack_f32_inf : unpack_f32 [x00; x00; x80; x7f] = Ok (S754_infinity false).
Proof. reflexivity. Qed.

Example unpack_f32_nan : unpack_f32 [x00; x00; xc0; x7f] = Ok S754_nan.
Proof. reflexivity. Qed.

(** ** The encoder of the floating-point format *)

(** The three fields of a pattern that is given by its fields. *)
Lemma f32_fields_of s e m :
  0 <= e < 256 -> 0 <= m < 2 ^ 23 ->
  let u := sign_bit s + e * 2 ^ 23 + m in
  Z.testbit u 31 = s /\ Z.land (Z.shiftr u 23) 0xFF = e /\ Z.land u 0x7FFFFF = m.
Proof.
  intros He Hm u. change 0xFF with (Z.ones 8). change 0x7FFFFF with (Z.ones 23).
  rewrite !Z.land_ones, Z.shiftr_div_pow2 by lia. subst u. unfold sign_bit. split_and!.
  - apply eq_true_iff_eq. rewrite Z.testbit_true by lia.
    destruct s; split; intros; try done; lia.
  - destruct s; lia.
  - destruct s; lia.
Qed.

(** A pattern of thirty-two bits is the sum of its three fields. *)
Lemma f32_fields_sum u :
  0 <= u < 2 ^ 32 ->
  u = sign_bit (Z.testbit u 31) + Z.land (Z.shiftr u 23) 0xFF * 2 ^ 23 + Z.land u 0x7FFFFF.
Proof.
  intros Hu. change 0xFF with (Z.ones 8). change 0x7FFFFF with (Z.ones 23).
  rewrite !Z.land_ones, Z.shiftr_div_pow2 by lia. unfold sign_bit.
  destruct (Z.testbit u 31) eqn:Hb.
  - apply Z.testbit_true in Hb; lia.
  - apply Z.testbit_false in Hb; lia.
Qed.

(** The finite numbers of the format: subnormal, with the least exponent
    and a mantissa of fewer than twenty-four bits, or normal, with a
    mantissa of exactly twenty-four bits. *)
Lemma valid_binary32_finite s m e :
  valid_binary 24 128 (S754_finite s m e) = true ->
  Z.pos m < 2 ^ 23 /\ e = -149 \/ 2 ^ 23 <= Z.pos m < 2 ^ 24 /\ -149 <= e <= 104.
Proof.
  unfold valid_binary, bounded, canonical_mantissa, fexp, emin.
  intros [Hc%Z.eqb_eq Hb%Z.leb_le]%andb_true_iff.
  rewrite digits2_pos_log2 in Hc.
  pose proof (Z.log2_spec (Z.pos m) ltac:(lia)) as [Hlo Hhi].
  destruct (Z.max_spec (Z.log2 (Z.pos m) + 1 + e - 24) (3 - 128 - 24))
    as [[Hlt Hmax]|[Hge Hmax]]; rewrite Hmax in Hc.
  - left. split; [|lia]. assert (Z.log2 (Z.pos m) < 23) by lia.
    eapply Z.lt_le_trans; [exact Hhi|]. apply Z.pow_le_mono_r; lia.
  - right. assert (Z.log2 (Z.pos m) = 23) as Hl by lia. rewrite Hl in Hlo, Hhi.
    change (Z.succ 23) with 24 in Hhi. lia.
Qed.

Lemma bits_of_f32_range x :
  valid_binary 24 128 x = true -> 0 <= bits_of_f32 x < 2 ^ 32.
Proof.
  destruct x as [s|s| |s m e]; intros Hv; unfold bits_of_f32, sign_bit.
  - destruct s; lia.
  - destruct s; lia.
  - lia.
  - destruct (valid_binary32_finite _ _ _ Hv) as [[Hm ->]|[Hm He]];
      destruct (Z.ltb_spec (Z.pos m) (2 ^ 23)); destruct s; lia.
Qed.

(** Decoding the pattern of a number of the format gives the number back. *)
Lemma f32_of_bits_of x :
  valid_binary 24 128 x = true -> f32_of_bits (bits_of_f32 x) = x.
Proof.
  destruct x as [s|s| |s m e]; intros Hv; [by destruct s..|done|].
  unfold bits_of_f32, f32_of_bits.
  destruct (valid_binary32_finite _ _ _ Hv) as [[Hm ->]|[Hm He]].
  - decide_tests.
    destruct (f32_fields_of s 0 (Z.pos m) ltac:(lia) ltac:(lia)) as (Hs & Hx & Hf).
    rewrite Z.mul_0_l, Z.add_0_r in Hs, Hx, Hf. rewrite Hs, Hx, Hf.
    decide_tests. by rewrite Pos2Z.id.
  - decide_tests.
    destruct (f32_fields_of s (e + 150) (Z.pos m - 2 ^ 23) ltac:(lia) ltac:(lia))
      as (Hs & Hx & Hf).
    rewrite Hs, Hx, Hf. decide_tests. f_equal; lia.
Qed.

(** Encoding what a pattern decodes to gives the pattern back, unless the
    pattern is one of the not-a-numbers, which all decode to the same
    value. *)
Lemma bits_of_f32_of u :
  0 <= u < 2 ^ 32 -> f32_of_bits u <> S754_nan -> bits_of_f32 (f32_of_bits u) = u.
Proof.
  intros Hu Hnan. rewrite (f32_fields_sum u Hu) at 2. revert Hnan.
  unfold f32_of_bits. destruct (f32_fields u) as [He Hm].
  set (e := Z.land (Z.shiftr u 23) 0xFF) in *. set (m := Z.land u 0x7FFFFF) in *.
  destruct (Z.eqb_spec e 0) as [->|He0]; [destruct (Z.eqb_spec m 0) as [->|Hm0]|].
  - intros _. simpl. lia.
  - intros _. unfold bits_of_f32. rewrite Z2Pos.id by lia. decide_tests. lia.
  - destruct (Z.eqb_spec e 255) as [->|He1]; [destruct (Z.eqb_spec m 0) as [->|Hm0]|].
    + intros _. simpl. lia.
    + done.
    + intros _. unfold bits_of_f32. rewrite Z2Pos.id by lia. decide_tests. lia.
Qed.

Lemma length_pack_f32 x : length (pack_f32 x) = 4%nat.
Proof. apply length_le_encode. Qed.

Lemma unpack_pack_f32 x :
  valid_binary 24 128 x = true -> unpack_f32 (pack_f32 x) = Ok x.
Proof.
  intros Hv. apply unpack_f32_Ok. unfold pack_f32.
  rewrite length_le_encode, le_decode_encode. split; [done|].
  change (2 ^ (8 * Z.of_nat 4)) with (2 ^ 32).
  rewrite Z.mod_small by by apply bits_of_f32_range. by rewrite f32_of_bits_of.
Qed.

(** Minus two and a half, and the two not-a-numbers with the least and the
    greatest payload, which are written back as the quiet one. *)
Example pack_f32_neg : pack_f32 (S754_finite true (5 * 2 ^ 21) (-22)) = [x00; x00; x20; xc0].
Proof. reflexivity. Qed.

Example nan_payload_lost :
  bits_of_f32 (f32_of_bits 0x7F800001) = 0x7FC00000 /\
  bits_of_f32 (f32_of_bits 0xFFFFFFFF) = 0x7FC00000.
Proof. split; reflexivity. Qed.

(** ** [bytes.fromhex] on the constants of the program *)

Example fromhex_magic : bytes_fromhex "C1832A9E" = Some [xc1; x83; x2a; x9e].
Proof. reflexivity. Qed.

Example fromhex_spaces : bytes_fromhex "c1 83 2a 9e" = Some [xc1; x83; x2a; x9e].
Proof. reflexivity. Qed.

Example fromhex_odd : bytes_fromhex "C18" = None.
Proof. reflexivity. Qed.
