(* ===== verification/FileIO.v ===== *)
(** * Files of the Python runtime

    The file system as a finite map from paths to contents, and the binary
    file object that [open(path, 'rb')] returns, with the four methods that
    the program calls on it: [read], [seek], [tell], [close].  A file object
    is its content (a snapshot: nothing in the program writes), its offset
    and whether it was closed. *)

From Stdlib Require Import ZArith Lia Strings.Byte.
From stdpp Require Import base tactics option list numbers strings gmap.
From S2P Require Import Prelude Errors Bytes.

#[local] Open Scope Z_scope.

Record file_obj : Type := mk_file {
  f_content : bytes;
  f_offset : Z;
  f_closed : bool
}.

#[export] Instance file_obj_eq_dec : EqDecision file_obj.
Proof. solve_decision. Defined.

Definition set_offset (off : Z) (f : file_obj) : file_obj :=
  mk_file (f_content f) off (f_closed f).

(** The regular files of the file system, by path. *)
Abbreviation filesystem := (gmap string bytes).

(** [open(path, 'rb')] *)
Definition open_rb (fs : filesystem) (path : string) : outcome exn file_obj :=
  match fs !! path with
  | Some content => Ok (mk_file content 0 false)
  | None => Raise (FileNotFoundError path)
  end.

(** [os.path.getsize(path)] *)
Definition getsize (fs : filesystem) (path : string) : outcome exn Z :=
  match fs !! path with
  | Some content => Ok (zlength content)
  | None => Raise (FileNotFoundError path)
  end.

(** What is left of the file after the offset. *)
Definition remaining (f : file_obj) : bytes := zdrop (f_offset f) (f_content f).

(** [f.read(size)]: at most [size] bytes from the offset, all that is left
    when [size] is [-1]; the offset moves by what was read.  A size below
    [-1] is refused, before the file is looked at. *)
Definition file_read (size : Z) : exst exn file_obj bytes := fun f =>
  if size <? -1 then (Raise (ValueError msg_read_length), f)
  else if f_closed f then (Raise (ValueError msg_read_closed), f)
  else
    let data := if size =? -1 then remaining f
                else slice (f_offset f) size (f_content f) in
    (Ok data, set_offset (f_offset f + zlength data) f).

(** [f.seek(pos)], from the start of the file; the new offset is returned. *)
Definition file_seek (pos : Z) : exst exn file_obj Z := fun f =>
  if f_closed f then (Raise (ValueError msg_seek_closed), f)
  else if pos <? 0 then (Raise (OSError 22 msg_einval), f)
  else (Ok pos, set_offset pos f).

(** [f.tell()] *)
Definition file_tell : exst exn file_obj Z := fun f =>
  if f_closed f then (Raise (ValueError "I/O operation on closed file"%string), f)
  else (Ok (f_offset f), f).

(** [f.close()]: closing twice is allowed. *)
Definition file_close : exst exn file_obj unit := fun f =>
  (Ok tt, mk_file (f_content f) (f_offset f) true).

(** The offset of a file object is never negative. *)
Definition file_wf (f : file_obj) : Prop := 0 <= f_offset f.

#[export] Hint Unfold file_read file_seek file_tell file_close set_offset
  remaining : exst.

(** ** Opening *)

Lemma open_rb_Ok fs path f :
  open_rb fs path = Ok f <-> exists c, fs !! path = Some c /\ f = mk_file c 0 false.
Proof. unfold open_rb. destruct (fs !! path); naive_solver. Qed.

Lemma open_rb_Raise fs path e :
  open_rb fs path = Raise e <-> fs !! path = None /\ e = FileNotFoundError path.
Proof. unfold open_rb. destruct (fs !! path); naive_solver. Qed.

Lemma open_rb_wf fs path f : open_rb fs path = Ok f -> file_wf f.
Proof. intros (c & _ & ->)%open_rb_Ok. by unfold file_wf. Qed.

(** ** Preservation of [file_wf] *)

Lemma file_read_wf size : preserves file_wf (file_read size).
Proof.
  intros f Hf. unfold file_wf, file_read in *.
  destruct (size <? -1); [done|]. destruct (f_closed f); simpl; [done|].
  pose proof (zlength_nonneg (if size =? -1 then remaining f
    else slice (f_offset f) size (f_content f))). lia.
Qed.

Lemma file_seek_wf pos : preserves file_wf (file_seek pos).
Proof.
  intros f Hf. unfold file_wf, file_seek in *.
  destruct (f_closed f); simpl; [done|]. case_match; simpl; lia.
Qed.

Lemma file_tell_wf : preserves file_wf file_tell.
Proof. intros f Hf. unfold file_tell. by destruct (f_closed f). Qed.

Lemma file_close_wf : preserves file_wf file_close.
Proof. by intros f Hf. Qed.

#[export] Hint Resolve file_read_wf file_seek_wf file_tell_wf file_close_wf : exst.

(** ** [read] *)

Section Read.
Context (f : file_obj) (Hopen : f_closed f = false) (Hwf : file_wf f).

Lemma file_read_open size :
  0 <= size ->
  file_read size f =
    (Ok (slice (f_offset f) size (f_content f)),
     set_offset (f_offset f + zlength (slice (f_offset f) size (f_content f))) f).
Proof.
  intros Hs. unfold file_read. rewrite Hopen.
  replace (size <? -1) with false by lia. by replace (size =? -1) with false by lia.
Qed.

Lemma file_read_all :
  file_read (-1) f =
    (Ok (remaining f), set_offset (Z.max (f_offset f) (zlength (f_content f))) f).
Proof.
  unfold file_read. rewrite Hopen. change (-1 <? -1) with false.
  change (-1 =? -1) with true. cbv iota. do 2 f_equal.
  unfold remaining. rewrite zlength_zdrop by done. lia.
Qed.

(** A size below [-1] is an error of the argument; nothing is read. *)
Lemma file_read_bad_size size :
  size < -1 -> file_read size f = (Raise (ValueError msg_read_length), f).
Proof. intros Hs. unfold file_read. by replace (size <? -1) with true by lia. Qed.

(** A read returns at most what was asked for and at most what is left. *)
Lemma file_read_length size data f' :
  0 <= size -> file_read size f = (Ok data, f') ->
  zlength data = Z.min size (Z.max 0 (zlength (f_content f) - f_offset f)).
Proof.
  intros Hs. rewrite file_read_open by done. intros [= <- <-].
  by apply zlength_slice.
Qed.

(** With enough bytes left, a read is exact. *)
Lemma file_read_exact size :
  0 <= size -> f_offset f + size <= zlength (f_content f) ->
  exists data, file_read size f = (Ok data, set_offset (f_offset f + size) f) /\
               zlength data = size /\ data = slice (f_offset f) size (f_content f).
Proof.
  intros Hs Hle. exists (slice (f_offset f) size (f_content f)).
  rewrite file_read_open, !zlength_slice_full by done. done.
Qed.

(** At or past the end of the file, a read returns nothing and is no error. *)
Lemma file_read_eof size :
  -1 <= size -> zlength (f_content f) <= f_offset f -> file_read size f = (Ok [], f).
Proof.
  intros Hs Hge. unfold file_read. rewrite Hopen.
  replace (size <? -1) with false by lia.
  assert ((if size =? -1 then remaining f
           else slice (f_offset f) size (f_content f)) = []) as ->.
  { case_match; [by apply zdrop_ge | by apply slice_past_end]. }
  destruct f as [c off cl]. unfold set_offset, zlength. simpl.
  do 2 f_equal. lia.
Qed.

End Read.

(** A read on a closed file raises and changes nothing. *)
Lemma file_read_closed size f :
  -1 <= size -> f_closed f = true ->
  file_read size f = (Raise (ValueError msg_read_closed), f).
Proof.
  intros Hs Hcl. unfold file_read. rewrite Hcl.
  by replace (size <? -1) with false by lia.
Qed.

(** ** [seek] *)

Lemma file_seek_open pos f :
  f_closed f = false -> 0 <= pos -> file_seek pos f = (Ok pos, set_offset pos f).
Proof.
  intros Hopen Hpos. unfold file_seek. rewrite Hopen.
  by replace (pos <? 0) with false by lia.
Qed.

Lemma file_seek_negative pos f :
  f_closed f = false -> pos < 0 -> file_seek pos f = (Raise (OSError 22 msg_einval), f).
Proof.
  intros Hopen Hpos. unfold file_seek. rewrite Hopen.
  by replace (pos <? 0) with true by lia.
Qed.

Lemma file_seek_closed pos f :
  f_closed f = true -> file_seek pos f = (Raise (ValueError msg_seek_closed), f).
Proof. unfold file_seek. by intros ->. Qed.

(** No method of a file object changes its content or reopens it. *)
Lemma file_read_content size f : f_content (file_read size f).2 = f_content f.
Proof. unfold file_read. destruct (size <? -1); [done|]. by destruct (f_closed f). Qed.

Lemma file_seek_content pos f : f_content (file_seek pos f).2 = f_content f.
Proof. unfold file_seek. destruct (f_closed f); [done|]. by case_match. Qed.

Lemma file_read_closed_flag size f : f_closed (file_read size f).2 = f_closed f.
Proof.
  unfold file_read. destruct (size <? -1); [done|]. by destruct (f_closed f) eqn:E.
Qed.

Lemma file_seek_closed_flag pos f : f_closed (file_seek pos f).2 = f_closed f.
Proof. unfold file_seek. destruct (f_closed f) eqn:E; [done|]. by case_match. Qed.

(** Seeking past the end is allowed; the next read is then empty. *)
Theorem seek_past_end_reads_nothing pos size f :
  f_closed f = false -> zlength (f_content f) <= pos -> -1 <= size ->
  (bind (file_seek pos) (fun _ => file_read size)) f = (Ok [], set_offset pos f).
Proof.
  intros Hopen Hpos Hs. pose proof (zlength_nonneg (f_content f)).
  unfold bind. rewrite file_seek_open by (done || lia).
  apply file_read_eof; unfold file_wf; simpl; (done || lia).
Qed.

Lemma seek_past_end_reads_nothing_witness :
  (bind (file_seek 10) (fun _ => file_read 4)) (mk_file [x01; x02; x03] 0 false)
  = (Ok [], mk_file [x01; x02; x03] 10 false).
Proof.
  apply (seek_past_end_reads_nothing 10 4 (mk_file [x01; x02; x03] 0 false)).
  - reflexivity.
  - unfold zlength. simpl. lia.
  - lia.
Defined.
