(* ===== verification/Text.v ===== *)
(** * Text: strings of code points, [rstrip] and the codecs of [read_string]

    A Python [str] is a sequence of Unicode code points, here a list of
    integers.  [bytes.decode(encoding)] is modelled with the strict error
    handler (the default) for the encodings that [read_string] can be given:
    UTF-16-LE (hard-wired for negative length prefixes), UTF-8 (the default
    for positive ones), Latin-1 and ASCII.  A failed decoding is
    [UnicodeDecodeError] with the name of the codec; the position and the
    reason that Python reports are not modelled.

    The encoders ([str.encode]) are the reference for the decoders: each
    decoder is proved to accept exactly what its encoder writes and to
    return the string that was written. *)

From Stdlib Require Import ZArith Lia Strings.Byte.
From stdpp Require Import base tactics option list numbers strings.
From S2P Require Import Prelude Errors Bytes.

#[local] Open Scope Z_scope.

(** Division and remainder by constants are linear arithmetic for [lia]. *)
#[local] Ltac Zify.zify_post_hook ::= Z.div_mod_to_equations.

Abbreviation ustring := (list Z).

(** ** [str.rstrip(chars)] *)

Fixpoint rstrip (chars : list Z) (s : ustring) : ustring :=
  match s with
  | [] => []
  | c :: rest =>
      match rstrip chars rest with
      | [] => if bool_decide (c ∈ chars) then [] else [c]
      | rest' => c :: rest'
      end
  end.

(** ** UTF-16, little-endian *)

(** The 16-bit code units of a byte string; [None] on an odd length. *)
Fixpoint code_units (bs : bytes) : option (list Z) :=
  match bs with
  | [] => Some []
  | [_] => None
  | b0 :: b1 :: rest => cons (byte_to_Z b0 + 256 * byte_to_Z b1) <$> code_units rest
  end.

Definition is_high_surrogate (u : Z) : bool := (55296 <=? u) && (u <=? 56319).
Definition is_low_surrogate (u : Z) : bool := (56320 <=? u) && (u <=? 57343).

(** Surrogate pairs become one code point; a surrogate on its own is an error. *)
Fixpoint join_surrogates (us : list Z) : option ustring :=
  match us with
  | [] => Some []
  | u :: rest =>
      if is_high_surrogate u then
        match rest with
        | l :: rest' =>
            if is_low_surrogate l
            then cons (65536 + (u - 55296) * 1024 + (l - 56320)) <$> join_surrogates rest'
            else None
        | [] => None
        end
      else if is_low_surrogate u then None
      else cons u <$> join_surrogates rest
  end.

Definition decode_utf16le (bs : bytes) : option ustring :=
  code_units bs ≫= join_surrogates.

(** ** UTF-8 *)

Definition is_cont (c : Z) : bool := (128 <=? c) && (c <=? 191).

(** The decoder accepts exactly the well-formed sequences of the Unicode
    standard: no overlong forms, no surrogates, nothing above U+10FFFF. *)
Fixpoint decode_utf8 (bs : bytes) : option ustring :=
  match bs with
  | [] => Some []
  | b0 :: t0 =>
      let c0 := byte_to_Z b0 in
      if c0 <? 128 then cons c0 <$> decode_utf8 t0
      else if (194 <=? c0) && (c0 <=? 223) then
        match t0 with
        | b1 :: t1 =>
            let c1 := byte_to_Z b1 in
            if is_cont c1
            then cons ((c0 - 192) * 64 + (c1 - 128)) <$> decode_utf8 t1
            else None
        | _ => None
        end
      else if (224 <=? c0) && (c0 <=? 239) then
        match t0 with
        | b1 :: b2 :: t2 =>
            let c1 := byte_to_Z b1 in
            let c2 := byte_to_Z b2 in
            let lo := if c0 =? 224 then 160 else 128 in
            let hi := if c0 =? 237 then 159 else 191 in
            if (lo <=? c1) && (c1 <=? hi) && is_cont c2
            then cons ((c0 - 224) * 4096 + (c1 - 128) * 64 + (c2 - 128)) <$> decode_utf8 t2
            else None
        | _ => None
        end
      else if (240 <=? c0) && (c0 <=? 244) then
        match t0 with
        | b1 :: b2 :: b3 :: t3 =>
            let c1 := byte_to_Z b1 in
            let c2 := byte_to_Z b2 in
            let c3 := byte_to_Z b3 in
            let lo := if c0 =? 240 then 144 else 128 in
            let hi := if c0 =? 244 then 143 else 191 in
            if (lo <=? c1) && (c1 <=? hi) && is_cont c2 && is_cont c3
            then cons ((c0 - 240) * 262144 + (c1 - 128) * 4096 + (c2 - 128) * 64 + (c3 - 128))
                   <$> decode_utf8 t3
            else None
        | _ => None
        end
      else None
  end.

(** ** One byte per character *)

Definition decode_latin1 (bs : bytes) : option ustring := Some (byte_to_Z <$> bs).

Definition decode_ascii (bs : bytes) : option ustring :=
  if forallb (fun b => byte_to_Z b <? 128) bs then Some (byte_to_Z <$> bs) else None.

(** ** [bytes.decode(encoding)] *)

Inductive codec : Type := Utf8 | Utf16le | Latin1 | Ascii.

#[export] Instance codec_eq_dec : EqDecision codec.
Proof. solve_decision. Defined.

(** The spellings of the encoding names that the model knows. *)
Definition lookup_codec (encoding : string) : option codec :=
  if bool_decide (encoding ∈ ["utf-8"; "utf8"; "utf_8"; "UTF-8"]%string) then Some Utf8
  else if bool_decide (encoding ∈ ["utf-16-le"; "utf_16_le"; "utf-16le"; "UTF-16LE"]%string) then Some Utf16le
  else if bool_decide (encoding ∈ ["latin-1"; "latin1"; "iso-8859-1"]%string) then Some Latin1
  else if bool_decide (encoding ∈ ["ascii"; "us-ascii"]%string) then Some Ascii
  else None.

Definition codec_name (c : codec) : string :=
  match c with
  | Utf8 => "utf-8"
  | Utf16le => "utf-16-le"
  | Latin1 => "latin-1"
  | Ascii => "ascii"
  end.

Definition codec_decode (c : codec) : bytes -> option ustring :=
  match c with
  | Utf8 => decode_utf8
  | Utf16le => decode_utf16le
  | Latin1 => decode_latin1
  | Ascii => decode_ascii
  end.

Definition bytes_decode (encoding : string) (data : bytes) : outcome exn ustring :=
  match lookup_codec encoding with
  | None => Raise (LookupError ("unknown encoding: " +:+ encoding))
  | Some c =>
      match codec_decode c data with
      | Some s => Ok s
      | None => Raise (UnicodeDecodeError (codec_name c))
      end
  end.

(** ** [str.encode]: what a writer of the format puts

    The encoders are the reference that the decoders are proved against.
    They are defined on every list of integers; Python refuses to encode a
    surrogate, and the theorems are about strings of scalar values. *)

(** The code points that a string read from well-formed bytes can hold. *)
Definition is_scalar (c : Z) : bool :=
  (0 <=? c) && (c <=? 1114111) && negb ((55296 <=? c) && (c <=? 57343)).

Definition encode_utf8_char (c : Z) : bytes :=
  if c <? 128 then [byte_of_Z c]
  else if c <? 2048 then [byte_of_Z (192 + c / 64); byte_of_Z (128 + c mod 64)]
  else if c <? 65536 then
    [byte_of_Z (224 + c / 4096); byte_of_Z (128 + (c / 64) mod 64);
     byte_of_Z (128 + c mod 64)]
  else
    [byte_of_Z (240 + c / 262144); byte_of_Z (128 + (c / 4096) mod 64);
     byte_of_Z (128 + (c / 64) mod 64); byte_of_Z (128 + c mod 64)].

Definition encode_utf8 (s : ustring) : bytes := s ≫= encode_utf8_char.

(** The 16-bit code units of a code point: itself, or a surrogate pair. *)
Definition utf16_units (c : Z) : list Z :=
  if c <? 65536 then [c]
  else [55296 + (c - 65536) / 1024; 56320 + (c - 65536) mod 1024].

Definition unit_bytes (u : Z) : bytes := [byte_of_Z (u mod 256); byte_of_Z (u / 256)].

Definition encode_utf16le (s : ustring) : bytes := (s ≫= utf16_units) ≫= unit_bytes.

Definition is_unit (u : Z) : Prop := 0 <= u < 65536.

Definition codec_encode (c : codec) : ustring -> bytes :=
  match c with
  | Utf8 => encode_utf8
  | Utf16le => encode_utf16le
  | Latin1 | Ascii => fmap byte_of_Z
  end.

(** The strings that a codec can write. *)
Definition encodable (c : codec) (s : ustring) : Prop :=
  match c with
  | Utf8 | Utf16le => Forall (fun c => is_scalar c = true) s
  | Latin1 => Forall (fun c => 0 <= c < 256) s
  | Ascii => Forall (fun c => 0 <= c < 128) s
  end.

(** ** [rstrip] *)

Section Rstrip.
Context (chars : list Z).
Implicit Types (s : ustring).

Lemma rstrip_nil_iff s : rstrip chars s = [] <-> Forall (fun c => c ∈ chars) s.
Proof.
  induction s as [|c s IH]; simpl; [done|].
  destruct (rstrip chars s) as [|c' s'] eqn:E.
  - case_bool_decide; split; try done.
    + intros _. constructor; [done | by apply IH].
    + by intros [? ?]%Forall_cons.
  - split; [done|]. intros [_ H]%Forall_cons. by apply IH in H.
Qed.

(** What [rstrip] removes is a suffix made of the characters to strip. *)
Lemma rstrip_split s :
  exists k, s = rstrip chars s ++ k /\ Forall (fun c => c ∈ chars) k.
Proof.
  induction s as [|c s (k & Hs & Hk)]; [by exists []|]. simpl.
  destruct (rstrip chars s) as [|c' s'] eqn:E.
  - case_bool_decide.
    + exists (c :: s). split; [done|]. constructor; [done|]. by apply rstrip_nil_iff.
    + exists k. split; [simpl in *; congruence | done].
  - exists k. split; [simpl in *; congruence | done].
Qed.

(** What [rstrip] leaves does not end in a character to strip. *)
Lemma rstrip_last s c : last (rstrip chars s) = Some c -> c ∉ chars.
Proof.
  revert c. induction s as [|c0 s IH]; intros c; simpl; [done|].
  destruct (rstrip chars s) as [|c' s'] eqn:E.
  - case_bool_decide; simpl; [done|]. by intros [= <-].
  - rewrite last_cons. destruct (last (c' :: s')) eqn:El; [|by apply last_None in El].
    intros [= <-]. by apply IH.
Qed.

Lemma rstrip_idemp s : rstrip chars (rstrip chars s) = rstrip chars s.
Proof.
  induction s as [|c s IH]; simpl; [done|].
  destruct (rstrip chars s) as [|c' s'] eqn:E.
  - case_bool_decide as Hc; simpl; [done|]. by rewrite bool_decide_eq_false_2.
  - cbn [rstrip] in *. by rewrite IH.
Qed.

Lemma rstrip_length s : (length (rstrip chars s) <= length s)%nat.
Proof.
  destruct (rstrip_split s) as (k & Hs & _).
  rewrite Hs at 2. rewrite length_app. lia.
Qed.

(** A string that does not end in a character to strip is left as it is. *)
Lemma rstrip_id s c : last s = Some c -> c ∉ chars -> rstrip chars s = s.
Proof.
  revert c. induction s as [|c0 s IH]; intros c; simpl; [done|].
  destruct s as [|c1 s].
  - simpl. intros [= ->] Hc. by rewrite bool_decide_eq_false_2.
  - rewrite last_cons. simpl last. intros Hl Hc.
    assert (last (c1 :: s) = Some c) as Hl'.
    { destruct (last (c1 :: s)) eqn:El; [done|]. by apply last_None in El. }
    by rewrite (IH c Hl' Hc).
Qed.

(** Characters to strip that are appended are stripped again. *)
Lemma rstrip_app s k :
  Forall (fun c => c ∈ chars) k -> rstrip chars (s ++ k) = rstrip chars s.
Proof.
  intros Hk. induction s as [|c s IH]; simpl; [by apply rstrip_nil_iff | by rewrite IH].
Qed.

Lemma rstrip_unterminated s :
  (forall c, last s = Some c -> c ∉ chars) -> rstrip chars s = s.
Proof.
  destruct (last s) as [c|] eqn:E; [by eauto using rstrip_id|].
  by apply last_None in E as ->.
Qed.

End Rstrip.

(** ** The decoders on plain ASCII *)

Lemma decode_utf8_ascii bs :
  Forall (fun b => byte_to_Z b < 128) bs -> decode_utf8 bs = Some (byte_to_Z <$> bs).
Proof.
  induction 1 as [|b bs Hb _ IH]; [done|]. cbn [decode_utf8].
  replace (byte_to_Z b <? 128) with true by lia. by rewrite IH.
Qed.

Lemma forallb_below_128 bs :
  forallb (fun b => byte_to_Z b <? 128) bs = true <->
  Forall (fun b => byte_to_Z b < 128) bs.
Proof.
  induction bs as [|b bs IH]; simpl; [done|].
  by rewrite andb_true_iff, Forall_cons, IH, Z.ltb_lt.
Qed.

Lemma decode_ascii_Some bs s :
  decode_ascii bs = Some s <-> Forall (fun b => byte_to_Z b < 128) bs /\ s = byte_to_Z <$> bs.
Proof.
  unfold decode_ascii. destruct (forallb _ bs) eqn:E.
  - apply forallb_below_128 in E. naive_solver.
  - split; [done|]. intros [H%forallb_below_128 _]. congruence.
Qed.

(** On bytes below 128 the one-byte codecs and UTF-8 agree. *)
Lemma decode_ascii_utf8 bs s : decode_ascii bs = Some s -> decode_utf8 bs = Some s.
Proof. intros [H ->]%decode_ascii_Some. by apply decode_utf8_ascii. Qed.

(** ** The length of what UTF-16 decodes *)

Lemma code_units_length bs us :
  code_units bs = Some us -> length bs = (2 * length us)%nat.
Proof.
  revert us. induction bs as [bs IH] using (induction_ltof1 _ length).
  unfold ltof in IH. intros us.
  destruct bs as [|b0 [|b1 rest]]; simpl; [by intros [= <-] | done |].
  destruct (code_units rest) as [us'|] eqn:E; simpl; [|done].
  intros [= <-]. simpl. specialize (IH rest ltac:(simpl; lia) us' E). lia.
Qed.

Lemma code_units_odd bs : Nat.Odd (length bs) -> code_units bs = None.
Proof.
  intros [k Hk]. destruct (code_units bs) as [us|] eqn:E; [|done].
  apply code_units_length in E. lia.
Qed.

Lemma join_surrogates_length us s :
  join_surrogates us = Some s -> (length s <= length us)%nat.
Proof.
  revert s. induction us as [us IH] using (induction_ltof1 _ length).
  unfold ltof in IH. intros s. destruct us as [|u rest]; simpl; [by intros [= <-]|].
  destruct (is_high_surrogate u).
  - destruct rest as [|l rest']; [done|]. destruct (is_low_surrogate l); [|done].
    destruct (join_surrogates rest') as [s'|] eqn:E; simpl; [|done].
    intros [= <-]. simpl. specialize (IH rest' ltac:(simpl; lia) s' E). lia.
  - destruct (is_low_surrogate u); [done|].
    destruct (join_surrogates rest) as [s'|] eqn:E; simpl; [|done].
    intros [= <-]. simpl. specialize (IH rest ltac:(simpl; lia) s' E). lia.
Qed.

(** A UTF-16 string has at most half as many characters as bytes. *)
Lemma decode_utf16le_length bs s :
  decode_utf16le bs = Some s -> (2 * length s <= length bs)%nat.
Proof.
  unfold decode_utf16le. destruct (code_units bs) as [us|] eqn:E; simpl; [|done].
  intros H%join_surrogates_length. apply code_units_length in E. lia.
Qed.

(** ** Decoding what was encoded: UTF-8 *)

Lemma is_scalar_spec c :
  is_scalar c = true <-> 0 <= c <= 1114111 /\ ~ (55296 <= c <= 57343).
Proof. unfold is_scalar. lia. Qed.

Lemma encode_utf8_cons c s : encode_utf8 (c :: s) = encode_utf8_char c ++ encode_utf8 s.
Proof. done. Qed.

Lemma encode_utf8_app s1 s2 : encode_utf8 (s1 ++ s2) = encode_utf8 s1 ++ encode_utf8 s2.
Proof. apply bind_app. Qed.

(** One character: the decoder undoes the encoder in each of the four
    lengths. *)
Lemma decode_utf8_char c bs :
  is_scalar c = true ->
  decode_utf8 (encode_utf8_char c ++ bs) = cons c <$> decode_utf8 bs.
Proof.
  intros [Hr Hs]%is_scalar_spec. unfold encode_utf8_char.
  destruct (Z.ltb_spec c 128);
    [|destruct (Z.ltb_spec c 2048); [|destruct (Z.ltb_spec c 65536)]];
    cbn [app decode_utf8]; unfold is_cont;
    rewrite !byte_to_of_Z_small by lia; decide_tests;
    repeat (match goal with |- context [?a =? ?b] => destruct (Z.eqb_spec a b) end);
    decide_tests; do 2 f_equal; lia.
Qed.

Lemma decode_utf8_encode s :
  Forall (fun c => is_scalar c = true) s -> decode_utf8 (encode_utf8 s) = Some s.
Proof.
  induction 1 as [|c s Hc _ IH]; [done|].
  by rewrite encode_utf8_cons, decode_utf8_char, IH.
Qed.

(** One step of a decoder that is the inverse of an encoder: the character
    it produces is a scalar value whose encoding is what was consumed. *)
Lemma decoder_step {U} (dec : list U -> option ustring) (enc : Z -> list U)
    c rest us s :
  (forall s', dec rest = Some s' ->
     Forall (fun c => is_scalar c = true) s' /\ s' ≫= enc = rest) ->
  is_scalar c = true -> enc c ++ rest = us ->
  cons c <$> dec rest = Some s ->
  Forall (fun c => is_scalar c = true) s /\ s ≫= enc = us.
Proof.
  intros IH Hc Hpre. destruct (dec rest) as [s'|]; [|done].
  intros [= <-]. destruct (IH s' eq_refl) as [Hs <-].
  split; [by constructor | done].
Qed.

(** The case analysis of a decoder on its input, from the hypothesis [H]
    that it succeeded. *)
Ltac decoder_cases H :=
  repeat first
    [ progress split_tests
    | match type of H with
      | context [match ?t with [] => _ | _ :: _ => _ end] =>
          is_var t; destruct t as [|? t]
      end ]; try done.

Lemma decode_utf8_inv bs s :
  decode_utf8 bs = Some s ->
  Forall (fun c => is_scalar c = true) s /\ encode_utf8 s = bs.
Proof.
  revert s. induction bs as [bs IH] using (induction_ltof1 _ length).
  unfold ltof in IH. intros s.
  destruct bs as [|b0 t0]; cbn [decode_utf8]; [by intros [= <-]|].
  pose proof (byte_to_Z_range b0).
  intros Hd. unfold is_cont in Hd. decoder_cases Hd.
  all: match type of Hd with cons ?v <$> decode_utf8 ?t = Some _ =>
         refine (decoder_step decode_utf8 encode_utf8_char v t _ _ _ _ _ Hd);
           [ apply IH; simpl; lia
           | apply is_scalar_spec; lia
           | unfold encode_utf8_char; decide_tests; cbn [app]; repeat f_equal;
             apply byte_of_Z_eq; lia ]
       end.
Qed.

(** The UTF-8 decoder accepts exactly the encodings of the strings of scalar
    values, and returns the string that was encoded: no overlong form, no
    surrogate and nothing above U+10FFFF gets through. *)
Theorem decode_utf8_iff bs s :
  decode_utf8 bs = Some s <->
  Forall (fun c => is_scalar c = true) s /\ bs = encode_utf8 s.
Proof.
  split; [by intros [? <-]%decode_utf8_inv|].
  intros [Hs ->]. by apply decode_utf8_encode.
Qed.

(** ** Decoding what was encoded: UTF-16 *)

Lemma code_units_bytes us :
  Forall is_unit us -> code_units (us ≫= unit_bytes) = Some us.
Proof.
  induction 1 as [|u us Hu _ IH]; [done|]. unfold is_unit in Hu.
  cbn [mbind list_bind unit_bytes app code_units] in *. rewrite IH.
  rewrite !byte_to_of_Z_small by lia. simpl. do 2 f_equal. lia.
Qed.

Lemma code_units_inv bs us :
  code_units bs = Some us -> Forall is_unit us /\ us ≫= unit_bytes = bs.
Proof.
  revert us. induction bs as [bs IH] using (induction_ltof1 _ length).
  unfold ltof in IH. intros us.
  destruct bs as [|b0 [|b1 rest]]; cbn [code_units]; [by intros [= <-] | done |].
  destruct (code_units rest) as [us'|] eqn:E; [|done]. intros [= <-].
  destruct (IH rest ltac:(simpl; lia) us' E) as [Hus <-].
  pose proof (byte_to_Z_range b0). pose proof (byte_to_Z_range b1).
  split; [constructor; [unfold is_unit; lia | done]|].
  cbn [mbind list_bind unit_bytes app]. repeat f_equal; apply byte_of_Z_eq; lia.
Qed.

Lemma utf16_units_range c : is_scalar c = true -> Forall is_unit (utf16_units c).
Proof.
  intros [Hr Hs]%is_scalar_spec. unfold utf16_units, is_unit.
  destruct (Z.ltb_spec c 65536); repeat constructor; lia.
Qed.

Lemma utf16_units_all s :
  Forall (fun c => is_scalar c = true) s -> Forall is_unit (s ≫= utf16_units).
Proof.
  induction 1 as [|c s Hc _ IH]; [done|]. cbn [mbind list_bind].
  apply Forall_app. split; [by apply utf16_units_range | done].
Qed.

Lemma join_surrogates_units c us :
  is_scalar c = true ->
  join_surrogates (utf16_units c ++ us) = cons c <$> join_surrogates us.
Proof.
  intros [Hr Hs]%is_scalar_spec. unfold utf16_units.
  destruct (Z.ltb_spec c 65536); cbn [app join_surrogates];
    unfold is_high_surrogate, is_low_surrogate; case_tests; try done;
    do 2 f_equal; lia.
Qed.

Lemma join_surrogates_encode s :
  Forall (fun c => is_scalar c = true) s -> join_surrogates (s ≫= utf16_units) = Some s.
Proof.
  induction 1 as [|c s Hc _ IH]; [done|]. cbn [mbind list_bind] in *.
  by rewrite join_surrogates_units, IH.
Qed.

Lemma join_surrogates_inv us s :
  Forall is_unit us -> join_surrogates us = Some s ->
  Forall (fun c => is_scalar c = true) s /\ s ≫= utf16_units = us.
Proof.
  revert s. induction us as [us IH] using (induction_ltof1 _ length).
  unfold ltof in IH. intros s Hus.
  destruct us as [|u rest]; cbn [join_surrogates]; [by intros [= <-]|].
  apply Forall_cons in Hus as [Hu Hrest]. unfold is_unit in Hu.
  unfold is_high_surrogate, is_low_surrogate. intros Hd. decoder_cases Hd.
  all: match type of Hd with cons ?v <$> join_surrogates ?t = Some _ =>
         refine (decoder_step join_surrogates utf16_units v t _ _ _ _ _ Hd);
           [ intros s'; apply IH; [simpl; lia | by eauto using Forall_inv_tail]
           | apply is_scalar_spec; lia
           | unfold utf16_units; decide_tests; cbn [app]; repeat f_equal; lia ]
       end.
Qed.

Lemma decode_utf16le_encode s :
  Forall (fun c => is_scalar c = true) s -> decode_utf16le (encode_utf16le s) = Some s.
Proof.
  intros Hs. unfold decode_utf16le, encode_utf16le.
  rewrite code_units_bytes by by apply utf16_units_all.
  by apply join_surrogates_encode.
Qed.

(** The UTF-16 decoder accepts exactly the encodings of the strings of
    scalar values: an odd number of bytes and a surrogate without its
    partner are refused. *)
Theorem decode_utf16le_iff bs s :
  decode_utf16le bs = Some s <->
  Forall (fun c => is_scalar c = true) s /\ bs = encode_utf16le s.
Proof.
  split; [|intros [Hs ->]; by apply decode_utf16le_encode].
  unfold decode_utf16le, encode_utf16le.
  destruct (code_units bs) as [us|] eqn:E; [|done]. simpl.
  apply code_units_inv in E as [Hus <-].
  by intros [? <-]%join_surrogates_inv.
Qed.

(** The number of bytes of a string in UTF-16 is twice its number of code
    units. *)
Lemma zlength_encode_utf16le s :
  zlength (encode_utf16le s) = 2 * zlength (s ≫= utf16_units).
Proof.
  unfold encode_utf16le, zlength. induction (s ≫= utf16_units) as [|u us IH]; [done|].
  cbn [mbind list_bind unit_bytes app length] in *. lia.
Qed.

(** ** Decoding what was encoded: every codec *)

Lemma bytes_of_to_Z (bs : bytes) : byte_of_Z <$> (byte_to_Z <$> bs) = bs.
Proof. induction bs as [|b bs IH]; [done|]. cbn. by rewrite byte_of_to_Z, IH. Qed.

Lemma bytes_to_of_Z (s : ustring) :
  Forall (fun c => 0 <= c < 256) s -> byte_to_Z <$> (byte_of_Z <$> s) = s.
Proof.
  induction 1 as [|c s Hc _ IH]; [done|]. cbn. by rewrite byte_to_of_Z_small, IH.
Qed.

(** Every codec of the model decodes exactly what its encoder writes. *)
Theorem codec_decode_iff c bs s :
  codec_decode c bs = Some s <-> encodable c s /\ bs = codec_encode c s.
Proof.
  destruct c; simpl.
  - apply decode_utf8_iff.
  - apply decode_utf16le_iff.
  - unfold decode_latin1. split.
    + intros [= <-]. split; [|by rewrite bytes_of_to_Z].
      apply Forall_fmap, Forall_true. intros b. apply byte_to_Z_range.
    + intros [Hs ->]. by rewrite bytes_to_of_Z.
  - rewrite decode_ascii_Some. split.
    + intros [Hb ->]. split; [|by rewrite bytes_of_to_Z].
      apply Forall_fmap. eapply Forall_impl; [exact Hb|]. simpl. intros b Hlt.
      pose proof (byte_to_Z_range b). lia.
    + intros [Hs ->]. rewrite bytes_to_of_Z by (eapply Forall_impl; [exact Hs|]; simpl; lia).
      split; [|done]. apply Forall_fmap. eapply Forall_impl; [exact Hs|].
      simpl. intros c Hc. rewrite byte_to_of_Z_small; lia.
Qed.



(** [bytes.decode] on what the codec of that name wrote. *)
Lemma bytes_decode_encode encoding c s :
  lookup_codec encoding = Some c -> encodable c s ->
  bytes_decode encoding (codec_encode c s) = Ok s.
Proof.
  intros Hc Hs. unfold bytes_decode. rewrite Hc.
  by rewrite (proj2 (codec_decode_iff c _ s) (conj Hs eq_refl)).
Qed.

(** ** Examples *)

Example encode_utf8_euro : encode_utf8 [8364; 0] = [xe2; x82; xac; x00].
Proof. reflexivity. Qed.

Example encode_utf16le_pair : encode_utf16le [128512] = [x3d; xd8; x00; xde].
Proof. reflexivity. Qed.

Example decode_utf16le_hi :
  bytes_decode "utf-16-le" [x48; x00; x69; x00; x00; x00] = Ok [72; 105; 0].
Proof. reflexivity. Qed.

Example decode_utf16le_pair :
  bytes_decode "utf-16-le" [x3d; xd8; x00; xde] = Ok [128512].
Proof. reflexivity. Qed.

Example decode_utf16le_lone :
  bytes_decode "utf-16-le" [x00; xdc] = Raise (UnicodeDecodeError "utf-16-le").
Proof. reflexivity. Qed.

Example decode_utf8_euro :
  bytes_decode "utf-8" [xe2; x82; xac; x00] = Ok [8364; 0].
Proof. reflexivity. Qed.

Example decode_utf8_overlong :
  bytes_decode "utf-8" [xc0; x80] = Raise (UnicodeDecodeError "utf-8").
Proof. reflexivity. Qed.

Example decode_unknown :
  bytes_decode "klingon" [] = Raise (LookupError "unknown encoding: klingon").
Proof. reflexivity. Qed.

Example rstrip_example : rstrip [0] [72; 0; 105; 0; 0] = [72; 0; 105].
Proof. reflexivity. Qed.
