(* ===== verification/Values.v ===== *)
(** * Python values of the decoded records

    The header and the metadata are Python dictionaries from field names to
    integers or strings.  A dictionary keeps the order in which its keys were
    inserted, and the front-ends print it in that order, so it is modelled as
    an association list.  [hex] is the builtin of that name; [pyval_str] and
    [pydict_repr] are what an f-string prints for a value and for a
    dictionary. *)

From Stdlib Require Import ZArith Lia HexString.
From stdpp Require Import base tactics option list numbers strings pretty.
From S2P Require Import Prelude.

#[local] Open Scope Z_scope.

Inductive pyval : Type :=
| PInt (n : Z)
| PStr (s : string).

#[export] Instance pyval_eq_dec : EqDecision pyval.
Proof. solve_decision. Defined.

Abbreviation pydict := (list (string * pyval)).

(** [d.get(key)], [None] when the key is absent. *)
Fixpoint dict_get {V} (key : string) (d : list (string * V)) : option V :=
  match d with
  | [] => None
  | (k, v) :: d' => if decide (k = key) then Some v else dict_get key d'
  end.

Definition dict_keys (d : pydict) : list string := d.*1.

(** [hex(n)]: ["0x"] and the lower-case hexadecimal digits, with a leading
    minus sign for a negative number. *)
Definition hex (n : Z) : string := HexString.of_Z n.

(** [d.get(key, default)] *)
Definition dict_get_default {V} (key : string) (default : V) (d : list (string * V)) : V :=
  match dict_get key d with Some v => v | None => default end.

(** [str(v)], which is what an f-string inserts. *)
Definition pyval_str (v : pyval) : string :=
  match v with
  | PInt n => pretty n
  | PStr s => s
  end.

(** [repr(v)].  A string is put between single quotes; this is what Python
    prints for a string without quotes, backslashes or control characters,
    which is what the decoder produces. *)
Definition pyval_repr (v : pyval) : string :=
  match v with
  | PInt n => pretty n
  | PStr s => "'" +:+ s +:+ "'"
  end.

Definition item_repr (kv : string * pyval) : string :=
  pyval_repr (PStr kv.1) +:+ ": " +:+ pyval_repr kv.2.

(** [repr(d)], as an f-string prints a dictionary: the items in insertion
    order, separated by a comma and a space, between braces. *)
Definition pydict_repr (d : pydict) : string :=
  "{" +:+ String.concat ", " (item_repr <$> d) +:+ "}".

(** [bool(d)]: a dictionary is true when it is not empty. *)
Definition pydict_truthy (d : pydict) : bool :=
  match d with [] => false | _ => true end.

(** ** Facts *)

Lemma hex_inj n m : hex n = hex m -> n = m.
Proof.
  unfold hex. intros H. apply (f_equal HexString.to_Z) in H.
  by rewrite !HexString.to_Z_of_Z in H.
Qed.

Lemma dict_get_keys key (d : pydict) : is_Some (dict_get key d) <-> key ∈ dict_keys d.
Proof.
  unfold dict_keys. induction d as [|[k v] d IH]; simpl.
  - split; [by intros [? ?] | by intros ?%elem_of_nil].
  - rewrite elem_of_cons. case_decide; [naive_solver|].
    rewrite IH. naive_solver.
Qed.

Example hex_magic : hex 0xC1832A9E = "0xc1832a9e"%string.
Proof. reflexivity. Qed.

Example hex_zero : hex 0 = "0x0"%string.
Proof. reflexivity. Qed.
