(* ===== verification/Cursor.v ===== *)
(** * The contract of the cursor reader

    The specification describes the reader as one cursor over a byte source:
    primitive reads return the bytes at the cursor and advance it by what
    was read, [seek] sets it, and failures are named by kind ([NotOpen],
    [DecodeError], ...), not by exception class.  This file states that
    contract as computations over a [cursor], in the monad of the prelude
    with [error_kind] as the type of errors.  [Reader.v] proves that the
    methods of [BinaryReader], which keep two cursors (the tracked position
    and the offset of the file object), implement it.

    The contract is silent on two arguments that the code accepts: a
    negative size for a read and a negative offset for a seek.  Here a read
    of a negative size returns nothing and a seek sets the cursor whatever
    the offset; the refinement theorems exclude those arguments, and
    [Reader.v] states what the code does with them. *)

From Stdlib Require Import ZArith Lia Strings.Byte Floats.SpecFloat.
From stdpp Require Import base tactics option list numbers strings.
From S2P Require Import Prelude Errors Bytes Text.

#[local] Open Scope Z_scope.
#[local] Open Scope exst_scope.

Record cursor : Type := mk_cursor {
  c_data : bytes;
  c_pos : Z
}.

#[export] Instance cursor_eq_dec : EqDecision cursor.
Proof. solve_decision. Defined.

Definition c_rest (c : cursor) : bytes := zdrop (c_pos c) (c_data c).

(** An outcome of the code, seen through the taxonomy of the specification. *)
Definition classified {A} (o : outcome exn A) : outcome error_kind A :=
  match o with
  | Ok a => Ok a
  | Raise e => Raise (classify e)
  end.

Definition c_read_bytes (n : Z) : exst error_kind cursor bytes := fun c =>
  let data := slice (c_pos c) n (c_data c) in
  (Ok data, mk_cursor (c_data c) (c_pos c + zlength data)).

Definition c_read_u32 : exst error_kind cursor Z :=
  data <- c_read_bytes 4 ;;
  lift_outcome (classified (unpack_u32 data)).

Definition c_read_i32 : exst error_kind cursor Z :=
  data <- c_read_bytes 4 ;;
  lift_outcome (classified (unpack_i32 data)).

Definition c_read_f32 : exst error_kind cursor spec_float :=
  data <- c_read_bytes 4 ;;
  lift_outcome (classified (unpack_f32 data)).

Definition c_read_string (encoding : string) : exst error_kind cursor ustring :=
  len <- c_read_i32 ;;
  if len =? 0 then ret []
  else if len <? 0 then
    (data <- c_read_bytes (2 * - len) ;;
     s <- lift_outcome (classified (bytes_decode "utf-16-le" data)) ;;
     ret (rstrip [0] s))
  else
    (data <- c_read_bytes len ;;
     s <- lift_outcome (classified (bytes_decode encoding data)) ;;
     ret (rstrip [0] s)).

Definition c_seek (offset : Z) : exst error_kind cursor unit :=
  modify (fun c => mk_cursor (c_data c) offset).

Definition c_position : exst error_kind cursor Z := gets c_pos.

#[export] Hint Unfold c_read_bytes c_read_u32 c_read_i32 c_read_f32 c_seek c_position : exst.

(** ** What the contract implies *)

Lemma classified_Ok {A} (o : outcome exn A) a : classified o = Ok a <-> o = Ok a.
Proof. destruct o; naive_solver. Qed.

Lemma classified_struct_error {A} msg :
  classified (A:=A) (Raise (StructError msg)) = Raise DecodeError.
Proof. reflexivity. Qed.

(** No operation of the contract changes the byte source. *)
Lemma c_read_bytes_data n c : c_data (c_read_bytes n c).2 = c_data c.
Proof. reflexivity. Qed.

(** Reads advance the cursor and never move it back. *)
Lemma c_read_bytes_mono n : mono c_pos (c_read_bytes n).
Proof.
  intros c. simpl. pose proof (zlength_nonneg (slice (c_pos c) n (c_data c))). lia.
Qed.

#[export] Hint Resolve c_read_bytes_mono : exst.

Lemma c_read_u32_mono : mono c_pos c_read_u32.
Proof. unfold c_read_u32. eauto with exst. Qed.

Lemma c_read_i32_mono : mono c_pos c_read_i32.
Proof. unfold c_read_i32. eauto with exst. Qed.

#[export] Hint Resolve c_read_u32_mono c_read_i32_mono : exst.

Lemma c_read_string_mono encoding : mono c_pos (c_read_string encoding).
Proof.
  unfold c_read_string. apply mono_bind; [eauto with exst|].
  intros len. repeat case_match; eauto 10 with exst.
Qed.

(** A read never returns more than was asked for. *)
Lemma c_read_bytes_at_most n c data c' :
  0 <= n -> c_read_bytes n c = (Ok data, c') -> zlength data <= n.
Proof. intros Hn [= <- <-]. by apply zlength_slice_le. Qed.

(** Reads do not raise: at the end of the source they return less. *)
Lemma c_read_bytes_total n c : exists data c', c_read_bytes n c = (Ok data, c').
Proof. by eexists _, _. Qed.

(** After [seek], the position is the offset that was given. *)
Lemma c_seek_position offset c :
  (bind (c_seek offset) (fun _ => c_position)) c = (Ok offset, mk_cursor (c_data c) offset).
Proof. reflexivity. Qed.
