(* ===== verification/Reader.v ===== *)
(** * The cursor reader: class [BinaryReader]

    The state of a reader is the record [BinaryReader] with the three
    attributes that [__init__] sets.  Each method is a computation over that
    record; the file system is an argument of [__enter__] only, the one
    method that consults it.  [with_reader] is the [with] statement around a
    body: [__enter__], the body, and [__exit__] on every path out of the
    body.

    The first part holds the definitions, the second the behaviour of each
    method on each of its branches, the third the cursor invariant and the
    sessions in which it holds, the fourth the abstract cursor that the
    reader implements. *)

From Stdlib Require Import ZArith Lia Strings.Byte Floats.SpecFloat.
From stdpp Require Import base tactics option list numbers strings gmap.
From S2P Require Import Prelude Errors Bytes FileIO Text Cursor.

#[local] Open Scope Z_scope.
#[local] Open Scope exst_scope.

(** ** State *)

Record BinaryReader : Type := mk_reader {
  file_path : string;
  _file : option file_obj;
  _position : Z
}.

#[export] Instance BinaryReader_eq_dec : EqDecision BinaryReader.
Proof. solve_decision. Defined.

Definition set_file (f : option file_obj) (r : BinaryReader) : BinaryReader :=
  mk_reader (file_path r) f (_position r).

Definition set_position (p : Z) (r : BinaryReader) : BinaryReader :=
  mk_reader (file_path r) (_file r) p.

(** A method call on the object held in [self._file]. *)
Definition call_file {A} (m : exst exn file_obj A) : exst exn BinaryReader A := fun r =>
  match _file r with
  | Some f => let '(res, f') := m f in (res, set_file (Some f') r)
  | None => (Raise (AttributeError "'NoneType' object has no such attribute"), r)
  end.

(** ** Methods *)

Definition __init__ (path : string) : BinaryReader := mk_reader path None 0.

Definition __enter__ (fs : filesystem) : exst exn BinaryReader unit :=
  path <- gets file_path ;;
  f <- lift_outcome (open_rb fs path) ;;
  modify (set_file (Some f)).

Definition __exit__ : exst exn BinaryReader unit :=
  f <- gets _file ;;
  match f with
  | Some _ => call_file file_close
  | None => ret tt
  end.

Definition read_bytes (size : Z) : exst exn BinaryReader bytes :=
  f <- gets _file ;;
  match f with
  | None => raise (ValueError msg_not_open)
  | Some _ =>
      data <- call_file (file_read size) ;;
      (modify (fun r => set_position (_position r + zlength data) r) ;;;
       ret data)
  end.

Definition read_uint32 : exst exn BinaryReader Z :=
  data <- read_bytes 4 ;;
  lift_outcome (unpack_u32 data).

Definition read_int32 : exst exn BinaryReader Z :=
  data <- read_bytes 4 ;;
  lift_outcome (unpack_i32 data).

Definition read_float : exst exn BinaryReader spec_float :=
  data <- read_bytes 4 ;;
  lift_outcome (unpack_f32 data).

Definition read_string (encoding : string) : exst exn BinaryReader ustring :=
  length <- read_int32 ;;
  if length =? 0 then ret []
  else if length <? 0 then
    (data <- read_bytes (Z.abs length * 2) ;;
     s <- lift_outcome (bytes_decode "utf-16-le" data) ;;
     ret (rstrip [0] s))
  else
    (data <- read_bytes length ;;
     s <- lift_outcome (bytes_decode encoding data) ;;
     ret (rstrip [0] s)).

Definition seek (position : Z) : exst exn BinaryReader unit :=
  f <- gets _file ;;
  match f with
  | None => raise (ValueError msg_not_open)
  | Some _ =>
      call_file (file_seek position) ;;;
      modify (set_position position)
  end.

Definition position : exst exn BinaryReader Z := gets _position.

(** [with <reader> as r: body] *)
Definition with_reader {A} (fs : filesystem) (body : exst exn BinaryReader A) :
    exst exn BinaryReader A :=
  __enter__ fs ;;; finally body __exit__.

(** ** Calls as data, for statements about every sequence of calls *)

Inductive call : Type :=
| CEnter
| CExit
| CReadBytes (size : Z)
| CReadUint32
| CReadInt32
| CReadFloat
| CReadString (encoding : string)
| CSeek (position : Z).

(** The state that a call leaves, whether it returns or raises. *)
Definition exec (fs : filesystem) (c : call) (r : BinaryReader) : BinaryReader :=
  match c with
  | CEnter => (__enter__ fs r).2
  | CExit => (__exit__ r).2
  | CReadBytes size => (read_bytes size r).2
  | CReadUint32 => (read_uint32 r).2
  | CReadInt32 => (read_int32 r).2
  | CReadFloat => (read_float r).2
  | CReadString encoding => (read_string encoding r).2
  | CSeek p => (seek p r).2
  end.

(** The state after a sequence of calls, each of them made whether the one
    before it returned or raised. *)
Definition exec_all (fs : filesystem) (cs : list call) (r : BinaryReader) : BinaryReader :=
  foldl (fun r c => exec fs c r) r cs.

(** The states of a reader made with [path] after any calls whatever. *)
Inductive reachable (fs : filesystem) (path : string) : BinaryReader -> Prop :=
| reach_init : reachable fs path (__init__ path)
| reach_call r c : reachable fs path r -> reachable fs path (exec fs c r).

(** The states of a reader that is entered at most once with success: the
    discipline of the [with] statement. *)
Inductive in_session (fs : filesystem) (path : string) : BinaryReader -> Prop :=
| sess_init : in_session fs path (__init__ path)
| sess_enter r :
    in_session fs path r -> _file r = None ->
    in_session fs path (exec fs CEnter r)
| sess_call r c :
    in_session fs path r -> c <> CEnter ->
    in_session fs path (exec fs c r).

(** ** Predicates on states *)

(** The cursor invariant: the tracked position is the offset of the file
    object, and zero as long as there is none. *)
Definition reader_wf (r : BinaryReader) : Prop :=
  match _file r with
  | None => _position r = 0
  | Some f => _position r = f_offset f /\ 0 <= f_offset f
  end.

Definition is_open (r : BinaryReader) : Prop :=
  exists f, _file r = Some f /\ f_closed f = false.

(** The readers inside a [with] block: open, with the cursor invariant. *)
Definition ready (r : BinaryReader) : Prop := is_open r /\ reader_wf r.

Definition is_released (r : BinaryReader) : Prop :=
  match _file r with
  | None => True
  | Some f => f_closed f = true
  end.

(** The bytes of the open file, and the part of them after the cursor. *)
Definition content (r : BinaryReader) : bytes :=
  match _file r with Some f => f_content f | None => [] end.

Definition rest (r : BinaryReader) : bytes := zdrop (_position r) (content r).

(** The reader after [n] more bytes were consumed. *)
Definition advance (n : Z) (r : BinaryReader) : BinaryReader :=
  mk_reader (file_path r)
            (set_offset (_position r + n) <$> _file r)
            (_position r + n).

(** ** The reader as an implementation of the contract of [Cursor.v] *)

(** The one cursor that an open reader stands for. *)
Definition abs (r : BinaryReader) : cursor := mk_cursor (content r) (_position r).

(** [refines m a]: from an open reader that satisfies the invariant, the
    method [m] and the operation [a] of the contract give the same value or
    the same kind of error, and [m] leaves an open reader that satisfies the
    invariant and stands for the cursor that [a] leaves. *)
Definition refines {A} (m : exst exn BinaryReader A) (a : exst error_kind cursor A) : Prop :=
  forall r, is_open r -> reader_wf r ->
    classified (m r).1 = (a (abs r)).1 /\
    abs (m r).2 = (a (abs r)).2 /\
    is_open (m r).2 /\ reader_wf (m r).2.

(** ** Sample states *)

(** The calls that read. *)
Definition is_read (c : call) : bool :=
  match c with
  | CReadBytes _ | CReadUint32 | CReadInt32 | CReadFloat | CReadString _ => true
  | _ => false
  end.

(** A file system with one file of nine bytes, and an open reader on it. *)
Definition demo_fs : filesystem :=
  {[ "a.bin"%string := [x01; x00; x00; x00; x02; x00; x00; x00; xff] ]}.

Definition demo_reader : BinaryReader :=
  mk_reader "a.bin" (Some (mk_file [x01; x00; x00; x00; x02; x00; x00; x00; xff] 0 false)) 0.

(** The reader that [__enter__] leaves: made with [path], just opened on a
    file with the content [c]. *)
Definition opened (path : string) (c : bytes) : BinaryReader :=
  mk_reader path (Some (mk_file c 0 false)) 0.

Definition reader_on (c : bytes) : BinaryReader := opened "a.bin" c.

#[export] Hint Unfold call_file __enter__ __exit__ read_bytes read_uint32
  read_int32 read_float seek position with_reader set_file set_position : exst.

(** ** Shapes of states *)

Lemma is_open_inv r :
  is_open r -> exists c off, _file r = Some (mk_file c off false).
Proof. intros ([c off cl] & Hf & Hcl). simpl in Hcl. subst. eauto. Qed.

(** An open reader that satisfies the invariant, taken apart. *)
Lemma open_wf_inv r :
  is_open r -> reader_wf r ->
  exists path c off, r = mk_reader path (Some (mk_file c off false)) off /\ 0 <= off.
Proof.
  intros (c & off & Hf)%is_open_inv Hwf. unfold reader_wf in Hwf.
  destruct r as [path f pos]. simpl in *. subst f. simpl in Hwf.
  destruct Hwf as [-> ?]. eauto.
Qed.

(** Take an open, well-formed reader apart in the goal and the context. *)
Ltac open_reader r :=
  let path := fresh "path" in
  let c := fresh "c" in
  let off := fresh "off" in
  let Hoff := fresh "Hoff" in
  match goal with
  | Ho : is_open r, Hw : reader_wf r |- _ =>
      destruct (open_wf_inv r Ho Hw) as (path & c & off & -> & Hoff);
      clear Ho Hw
  end.

Lemma advance_open_wf n r :
  is_open r -> reader_wf r -> 0 <= n -> is_open (advance n r) /\ reader_wf (advance n r).
Proof.
  intros Ho Hw Hn. open_reader r. split.
  - eexists. split; [reflexivity | done].
  - unfold reader_wf. simpl. lia.
Qed.

Lemma advance_advance n m r : advance m (advance n r) = advance (n + m) r.
Proof.
  destruct r as [path [f|] pos]; unfold advance; simpl; f_equal; try lia.
  unfold set_offset. simpl. do 2 f_equal. lia.
Qed.

Lemma advance_0 r : reader_wf r -> advance 0 r = r.
Proof.
  destruct r as [path [[c off cl]|] pos]; unfold reader_wf, advance, set_offset; simpl.
  - intros [-> _]. rewrite Z.add_0_r. done.
  - intros ->. done.
Qed.

Lemma content_advance n r : content (advance n r) = content r.
Proof. by destruct r as [path [f|] pos]. Qed.

Lemma position_advance n r : _position (advance n r) = _position r + n.
Proof. done. Qed.

Lemma rest_advance n r :
  0 <= _position r -> 0 <= n -> rest (advance n r) = zdrop n (rest r).
Proof.
  intros. unfold rest. rewrite content_advance, position_advance.
  by rewrite zdrop_zdrop.
Qed.

(** ** [read_bytes] *)

Lemma read_bytes_closed size r f :
  -1 <= size -> _file r = Some f -> f_closed f = true ->
  raises (read_bytes size) r (ValueError msg_read_closed) r.
Proof.
  intros Hs Hf Hcl. destruct r as [path f' pos]. simpl in Hf. subst f'.
  destruct f as [c off cl]. simpl in Hcl. subst cl.
  exst_unfold. simpl. by replace (size <? -1) with false by lia.
Qed.

(** On an open reader, [read_bytes] returns the slice at the cursor and
    advances by the number of bytes returned. *)
Lemma read_bytes_open size r :
  is_open r -> reader_wf r -> 0 <= size ->
  returns (read_bytes size) r
    (ztake size (rest r)) (advance (zlength (ztake size (rest r))) r).
Proof.
  intros Ho Hw Hs. open_reader r. exst_unfold. simpl.
  replace (size <? -1) with false by lia. by replace (size =? -1) with false by lia.
Qed.

(** The size [-1] reads everything that is left. *)
Lemma read_bytes_all r :
  is_open r -> reader_wf r ->
  returns (read_bytes (-1)) r (rest r) (advance (zlength (rest r)) r).
Proof. intros Ho Hw. open_reader r. by exst_unfold. Qed.

(** A size below [-1] is refused by the file object, open or closed, and
    the reader is left as it was. *)
Lemma read_bytes_bad_size size r f :
  size < -1 -> _file r = Some f ->
  raises (read_bytes size) r (ValueError msg_read_length) r.
Proof.
  intros Hs Hf. destruct r as [path f' pos]. simpl in Hf. subst f'.
  destruct f as [c off cl]. exst_unfold. simpl.
  by replace (size <? -1) with true by lia.
Qed.

(** When the bytes after the cursor start with [pre], reading [|pre|] bytes
    returns [pre] and leaves the cursor after it. *)
Lemma read_bytes_prefix r pre tail :
  is_open r -> reader_wf r -> rest r = pre ++ tail ->
  returns (read_bytes (zlength pre)) r pre (advance (zlength pre) r).
Proof.
  intros Ho Hw Hr. pose proof (read_bytes_open (zlength pre) r Ho Hw
    (zlength_nonneg pre)) as H.
  by rewrite Hr, ztake_app_length in H.
Qed.

(** A short read: with fewer than [size] bytes left, all of them are
    returned and no exception is raised. *)
Lemma read_bytes_short size r :
  is_open r -> reader_wf r -> zlength (rest r) <= size ->
  returns (read_bytes size) r (rest r) (advance (zlength (rest r)) r).
Proof.
  intros Ho Hw Hs. pose proof (zlength_nonneg (rest r)) as Hn.
  pose proof (read_bytes_open size r Ho Hw ltac:(lia)) as Hb.
  assert (ztake size (rest r) = rest r) as Ht.
  { unfold ztake. apply take_ge. unfold zlength in *. lia. }
  by rewrite Ht in Hb.
Qed.

(** ** [read_uint32] and [read_int32] *)

Section FixedWidth.
Context (r : BinaryReader) (Ho : is_open r) (Hw : reader_wf r).

Lemma read_uint32_prefix word tail v :
  rest r = word ++ tail -> unpack_u32 word = Ok v ->
  returns read_uint32 r v (advance 4 r).
Proof using Ho Hw.
  intros Hr Hv. pose proof Hv as [Hlen _]%unpack_u32_Ok.
  unfold returns, read_uint32.
  assert (zlength word = 4) as Hz by (unfold zlength; lia).
  pose proof (read_bytes_prefix r word tail Ho Hw Hr) as Hb. rewrite Hz in Hb.
  rewrite (bind_returns _ _ _ _ _ Hb). unfold lift_outcome. by rewrite Hv.
Qed.

Lemma read_int32_prefix word tail v :
  rest r = word ++ tail -> unpack_i32 word = Ok v ->
  returns read_int32 r v (advance 4 r).
Proof using Ho Hw.
  intros Hr Hv. pose proof Hv as [Hlen _]%unpack_i32_Ok.
  unfold returns, read_int32.
  assert (zlength word = 4) as Hz by (unfold zlength; lia).
  pose proof (read_bytes_prefix r word tail Ho Hw Hr) as Hb. rewrite Hz in Hb.
  rewrite (bind_returns _ _ _ _ _ Hb). unfold lift_outcome. by rewrite Hv.
Qed.

Lemma read_float_prefix word tail :
  rest r = word ++ tail -> length word = 4%nat ->
  returns read_float r (f32_of_bits (le_decode word)) (advance 4 r).
Proof using Ho Hw.
  intros Hr Hlen. unfold returns, read_float.
  assert (zlength word = 4) as Hz by (unfold zlength; lia).
  pose proof (read_bytes_prefix r word tail Ho Hw Hr) as Hb. rewrite Hz in Hb.
  rewrite (bind_returns _ _ _ _ _ Hb). unfold lift_outcome.
  by rewrite (proj2 (unpack_f32_Ok word _) (conj Hlen eq_refl)).
Qed.

(** With fewer than four bytes left the read fails in [struct.unpack], after
    the cursor has moved over the bytes that were there. *)
Lemma read_uint32_short :
  zlength (rest r) < 4 ->
  raises read_uint32 r (StructError msg_unpack_4) (advance (zlength (rest r)) r).
Proof using Ho Hw.
  intros Hlt. unfold raises, read_uint32.
  rewrite (bind_returns _ _ _ _ _ (read_bytes_short 4 r Ho Hw ltac:(lia))).
  unfold lift_outcome.
  rewrite (proj2 (unpack_u32_Raise (rest r) (StructError msg_unpack_4))); [done|].
  split; [|done]. unfold zlength in Hlt. lia.
Qed.

Lemma read_int32_short :
  zlength (rest r) < 4 ->
  raises read_int32 r (StructError msg_unpack_4) (advance (zlength (rest r)) r).
Proof using Ho Hw.
  intros Hlt. unfold raises, read_int32.
  rewrite (bind_returns _ _ _ _ _ (read_bytes_short 4 r Ho Hw ltac:(lia))).
  unfold lift_outcome.
  rewrite (proj2 (unpack_i32_Raise (rest r) (StructError msg_unpack_4))); [done|].
  split; [|done]. unfold zlength in Hlt. lia.
Qed.

End FixedWidth.

(** ** [seek] *)

Lemma seek_open p r :
  is_open r -> 0 <= p ->
  returns (seek p) r tt
    (mk_reader (file_path r) (set_offset p <$> _file r) p).
Proof.
  intros (c & off & Hf)%is_open_inv Hp. destruct r as [path f pos].
  simpl in Hf. subst f. exst_unfold. simpl.
  by replace (p <? 0) with false by lia.
Qed.

(** ** [__enter__] and [__exit__] *)

Lemma enter_found fs r c :
  fs !! file_path r = Some c ->
  returns (__enter__ fs) r tt (set_file (Some (mk_file c 0 false)) r).
Proof. intros Hc. exst_unfold. unfold open_rb. by rewrite Hc. Qed.

Lemma enter_not_found fs r :
  fs !! file_path r = None ->
  raises (__enter__ fs) r (FileNotFoundError (file_path r)) r.
Proof. intros Hc. exst_unfold. unfold open_rb. by rewrite Hc. Qed.

Lemma exit_returns r : exists r', returns __exit__ r tt r' /\ is_released r'.
Proof.
  destruct r as [path [[c off cl]|] pos]; eexists; split; try reflexivity; done.
Qed.

Lemma exit_released r : is_released (__exit__ r).2.
Proof. destruct (exit_returns r) as (r' & -> & H). done. Qed.

(** ** The cursor invariant is kept by every method but [__enter__] *)

Lemma read_bytes_wf size : preserves reader_wf (read_bytes size).
Proof.
  intros [path [[c off cl]|] pos]; unfold reader_wf; simpl; [|done].
  intros [-> Hoff]. exst_unfold. simpl.
  destruct (size <? -1); [done|]. destruct cl; simpl; [done|].
  match goal with |- context [zlength ?d] => pose proof (zlength_nonneg d) end.
  lia.
Qed.

Lemma seek_wf p : preserves reader_wf (seek p).
Proof.
  intros [path [[c off cl]|] pos]; unfold reader_wf; simpl; [|done].
  intros [-> Hoff]. exst_unfold. simpl. destruct cl; simpl; [done|].
  destruct (Z.ltb_spec p 0); simpl; lia.
Qed.

Lemma exit_wf : preserves reader_wf __exit__.
Proof. by intros [path [[c off cl]|] pos]. Qed.

#[export] Hint Resolve read_bytes_wf seek_wf exit_wf : exst.

Lemma read_uint32_wf : preserves reader_wf read_uint32.
Proof. unfold read_uint32. eauto with exst. Qed.

Lemma read_int32_wf : preserves reader_wf read_int32.
Proof. unfold read_int32. eauto with exst. Qed.

Lemma read_float_wf : preserves reader_wf read_float.
Proof. unfold read_float. eauto with exst. Qed.

#[export] Hint Resolve read_uint32_wf read_int32_wf read_float_wf : exst.

Lemma read_string_wf encoding : preserves reader_wf (read_string encoding).
Proof.
  unfold read_string. apply preserves_bind; [eauto with exst|].
  intros len. repeat case_match; eauto 10 with exst.
Qed.

#[export] Hint Resolve read_string_wf : exst.

(** [__enter__] keeps the invariant of a reader that has no file yet. *)
Lemma enter_wf fs r :
  _file r = None -> reader_wf r -> reader_wf (__enter__ fs r).2.
Proof.
  destruct r as [path f pos]. simpl. intros -> Hw. unfold reader_wf in *.
  exst_unfold. unfold open_rb. simpl in *. by destruct (fs !! path).
Qed.

Lemma exec_wf fs c r : c <> CEnter -> reader_wf r -> reader_wf (exec fs c r).
Proof.
  intros Hc Hw. destruct c; simpl; [done|..].
  - by apply exit_wf.
  - by apply read_bytes_wf.
  - by apply read_uint32_wf.
  - by apply read_int32_wf.
  - by apply read_float_wf.
  - by apply read_string_wf.
  - by apply seek_wf.
Qed.

(** ** The tracked position never moves backwards in a read *)

Lemma read_bytes_mono size : mono _position (read_bytes size).
Proof.
  intros [path [[c off cl]|] pos]; exst_unfold; simpl; [|lia].
  destruct (size <? -1); simpl; [lia|]. destruct cl; simpl; [lia|].
  match goal with |- context [zlength ?d] => pose proof (zlength_nonneg d) end.
  lia.
Qed.

#[export] Hint Resolve read_bytes_mono : exst.

Lemma read_uint32_mono : mono _position read_uint32.
Proof. unfold read_uint32. eauto with exst. Qed.

Lemma read_int32_mono : mono _position read_int32.
Proof. unfold read_int32. eauto with exst. Qed.

Lemma read_float_mono : mono _position read_float.
Proof. unfold read_float. eauto with exst. Qed.

#[export] Hint Resolve read_uint32_mono read_int32_mono read_float_mono : exst.

Lemma read_string_mono encoding : mono _position (read_string encoding).
Proof.
  unfold read_string. apply mono_bind; [eauto with exst|].
  intros len. repeat case_match; eauto 10 with exst.
Qed.

#[export] Hint Resolve read_string_mono : exst.

(** ** Refinement of the contract *)

Section Refinement.

Lemma refines_ret {A} (a : A) : refines (ret a) (ret a).
Proof. by intros r Ho Hw. Qed.

Lemma refines_lift {A} (o : outcome exn A) :
  refines (lift_outcome o) (lift_outcome (classified o)).
Proof. by intros r Ho Hw. Qed.

Lemma refines_raise {A} (e : exn) : refines (raise (A:=A) e) (raise (classify e)).
Proof. by intros r Ho Hw. Qed.

Lemma refines_bind {A B} m a (k : A -> exst exn BinaryReader B) h :
  refines m a -> (forall x, refines (k x) (h x)) -> refines (bind m k) (bind a h).
Proof.
  intros Hm Hk r Ho Hw. destruct (Hm r Ho Hw) as (H1 & H2 & H3 & H4).
  unfold bind. destruct (m r) as [[x|e] r'], (a (abs r)) as [[y|e'] c'];
    simpl in *; simplify_eq; [|done].
  by apply Hk.
Qed.

Lemma refines_read_bytes n : 0 <= n -> refines (read_bytes n) (c_read_bytes n).
Proof.
  intros Hn r Ho Hw. pose proof (read_bytes_open n r Ho Hw Hn) as Hr.
  unfold returns in Hr. rewrite Hr. simpl.
  pose proof (zlength_nonneg (ztake n (rest r))) as Hz.
  destruct (advance_open_wf (zlength (ztake n (rest r))) r Ho Hw Hz) as [Ho' Hw'].
  repeat split; try done.
  unfold abs. by rewrite content_advance.
Qed.

Lemma refines_seek p : 0 <= p -> refines (seek p) (c_seek p).
Proof.
  intros Hp r Ho Hw. pose proof (seek_open p r Ho Hp) as Hr.
  unfold returns in Hr. rewrite Hr. open_reader r. simpl.
  repeat split; try done. by eexists.
Qed.

Lemma refines_read_uint32 : refines read_uint32 c_read_u32.
Proof.
  apply refines_bind; [by apply refines_read_bytes | intros; apply refines_lift].
Qed.

Lemma refines_read_int32 : refines read_int32 c_read_i32.
Proof.
  apply refines_bind; [by apply refines_read_bytes | intros; apply refines_lift].
Qed.

Lemma refines_read_float : refines read_float c_read_f32.
Proof.
  apply refines_bind; [by apply refines_read_bytes | intros; apply refines_lift].
Qed.

Lemma refines_decoded encoding n :
  0 <= n ->
  refines (data <- read_bytes n ;;
           s <- lift_outcome (bytes_decode encoding data) ;;
           ret (rstrip [0] s))
          (data <- c_read_bytes n ;;
           s <- lift_outcome (classified (bytes_decode encoding data)) ;;
           ret (rstrip [0] s)).
Proof.
  intros Hn. apply refines_bind; [by apply refines_read_bytes|]. intros data.
  apply refines_bind; [apply refines_lift|]. intros s. apply refines_ret.
Qed.

Lemma refines_read_string encoding :
  refines (read_string encoding) (c_read_string encoding).
Proof.
  apply refines_bind; [apply refines_read_int32|]. intros len.
  destruct (len =? 0); [apply refines_ret|].
  destruct (Z.ltb_spec len 0).
  - replace (Z.abs len * 2) with (2 * - len) by lia. apply refines_decoded. lia.
  - apply refines_decoded. lia.
Qed.

End Refinement.

(** ** Sessions *)

Lemma in_session_reachable fs path r : in_session fs path r -> reachable fs path r.
Proof. induction 1; by constructor. Qed.

(** C2. The cursor invariant of the specification ("the cursor equals the
    bytes consumed so far, unless overridden by seek") holds in every state of
    a reader that is used as the [with] statement uses it: whatever methods
    are called, in whatever order and whether they return or raise, the
    tracked [_position] equals the offset of the file object. *)
Theorem session_cursor_invariant fs path r : in_session fs path r -> reader_wf r.
Proof.
  induction 1 as [|r Hs IH Hf|r c Hs IH Hc].
  - reflexivity.
  - by apply enter_wf.
  - by apply exec_wf.
Qed.

Lemma session_cursor_invariant_witness :
  reader_wf (exec demo_fs CReadUint32
              (exec demo_fs (CSeek 3)
                (exec demo_fs CReadUint32
                  (exec demo_fs CEnter (__init__ "a.bin"))))).
Proof.
  apply (session_cursor_invariant demo_fs "a.bin").
  repeat (apply sess_call; [|done]).
  apply sess_enter; [apply sess_init | reflexivity].
Defined.

(** C35. Outside that discipline the invariant is lost: [__exit__] leaves the
    closed file object in [_file] and [__enter__] does not reset [_position],
    so a reader that is entered a second time tracks the position of the
    first session while its new file object is at offset zero. *)
Theorem reentry_breaks_cursor_invariant :
  exists fs path r, reachable fs path r /\ is_open r /\
    _position r = 4 /\ (exists f, _file r = Some f /\ f_offset f = 0) /\
    ~ reader_wf r.
Proof.
  exists demo_fs, "a.bin"%string,
    (exec demo_fs CEnter (exec demo_fs CExit (exec demo_fs CReadUint32
      (exec demo_fs CEnter (__init__ "a.bin"))))).
  split; [repeat constructor|].
  vm_compute. repeat split; eauto. by intros [[=] _].
Qed.

(** ** The methods, branch by branch *)

Lemma demo_reader_open : is_open demo_reader.
Proof. eexists. split; reflexivity. Defined.

Lemma demo_reader_wf : reader_wf demo_reader.
Proof. split; [reflexivity | apply Z.le_refl]. Defined.

Lemma opened_open path c : is_open (opened path c).
Proof. eexists. split; reflexivity. Defined.

Lemma opened_wf path c : reader_wf (opened path c).
Proof. split; [reflexivity | apply Z.le_refl]. Defined.

Lemma rest_opened path c : rest (opened path c) = c.
Proof. reflexivity. Qed.

Lemma reader_on_open c : is_open (reader_on c).
Proof. eexists. split; reflexivity. Defined.

Lemma reader_on_wf c : reader_wf (reader_on c).
Proof. split; [reflexivity | apply Z.le_refl]. Defined.

Lemma rest_reader_on c : rest (reader_on c) = c.
Proof. reflexivity. Qed.

(** What a consumed prefix leaves behind. *)
Lemma step_prefix r pre tail :
  is_open r -> reader_wf r -> rest r = pre ++ tail ->
  is_open (advance (zlength pre) r) /\ reader_wf (advance (zlength pre) r) /\
  rest (advance (zlength pre) r) = tail.
Proof.
  intros Ho Hw Hr. pose proof (zlength_nonneg pre) as Hn.
  destruct (advance_open_wf _ r Ho Hw Hn) as [Ho' Hw']. repeat split; try done.
  rewrite rest_advance, Hr, zdrop_app_length; [done| |done].
  open_reader r. done.
Qed.

(** C4. [read_bytes(size)] on an open reader returns the bytes of the file
    from the cursor on, [size] of them or all that are left when fewer
    remain, advances [_position] by the number of bytes returned, and leaves
    the rest of the file to be read next; a short read is not an error. *)
Theorem read_bytes_spec size r :
  is_open r -> reader_wf r -> 0 <= size ->
  exists data r',
    returns (read_bytes size) r data r' /\
    data = slice (_position r) size (content r) /\
    zlength data = Z.min size (zlength (rest r)) /\
    _position r' = _position r + zlength data /\
    rest r' = zdrop (zlength data) (rest r) /\
    is_open r' /\ reader_wf r'.
Proof.
  intros Ho Hw Hs. pose proof (zlength_nonneg (ztake size (rest r))) as Hn.
  destruct (advance_open_wf _ r Ho Hw Hn) as [Ho' Hw'].
  eexists _, _. split; [by apply read_bytes_open|].
  repeat split; try done.
  - by apply zlength_ztake.
  - apply rest_advance; [|done]. open_reader r. done.
Qed.

Lemma read_bytes_spec_witness :
  exists data r',
    returns (read_bytes 4) demo_reader data r' /\
    data = slice (_position demo_reader) 4 (content demo_reader) /\
    zlength data = Z.min 4 (zlength (rest demo_reader)) /\
    _position r' = _position demo_reader + zlength data /\
    rest r' = zdrop (zlength data) (rest demo_reader) /\
    is_open r' /\ reader_wf r'.
Proof.
  apply read_bytes_spec; [apply demo_reader_open | apply demo_reader_wf | lia].
Defined.

(** In a reader whose [_file] is [None] the guard of [read_bytes] and of
    [seek] fires, whatever the position is, and nothing changes. *)
Lemma guard_fires r size p :
  _file r = None ->
  raises (read_bytes size) r (ValueError msg_not_open) r /\
  raises (seek p) r (ValueError msg_not_open) r.
Proof.
  intros Hf. unfold raises, read_bytes, seek, bind, gets, raise.
  by rewrite Hf.
Qed.

(** [__exit__] closes the file and keeps the closed file object in [_file]:
    the guard does not fire any more, and the read is refused by the
    runtime. *)
Lemma read_after_exit size r :
  is_open r -> -1 <= size ->
  exists r', returns __exit__ r tt r' /\
    raises (read_bytes size) r' (ValueError msg_read_closed) r'.
Proof.
  intros (c & off & Hf)%is_open_inv Hs. destruct r as [path f pos].
  simpl in Hf. subst f. eexists. split; [reflexivity|].
  by eapply read_bytes_closed.
Qed.

(** C32. A reader that holds no open file refuses to read, with two different
    errors.  Before [__enter__], and in every reader whose [_file] is
    [None], [read_bytes] and [seek] raise [ValueError("File is not open")]
    and change nothing.  After [__exit__] the guard does not fire, because
    [_file] still holds the closed file object, which is truthy: the
    [ValueError] comes from the runtime and says "read of closed file".  The
    specification's kind of both errors, [NotOpen], is the same. *)
Theorem not_open_errors r0 r size p :
  _file r0 = None -> is_open r -> -1 <= size ->
  (raises (read_bytes size) r0 (ValueError msg_not_open) r0 /\
   raises (seek p) r0 (ValueError msg_not_open) r0) /\
  (exists r', returns __exit__ r tt r' /\
     raises (read_bytes size) r' (ValueError msg_read_closed) r') /\
  msg_read_closed <> msg_not_open /\
  classify (ValueError msg_not_open) = NotOpen /\
  classify (ValueError msg_read_closed) = NotOpen.
Proof.
  intros Hf Ho Hs. split; [by apply guard_fires|]. split; [by apply read_after_exit | done].
Qed.

Lemma not_open_errors_witness :
  (raises (read_bytes 4) (__init__ "a.bin") (ValueError msg_not_open) (__init__ "a.bin") /\
   raises (seek 0) (__init__ "a.bin") (ValueError msg_not_open) (__init__ "a.bin")) /\
  (exists r', returns __exit__ demo_reader tt r' /\
     raises (read_bytes 4) r' (ValueError msg_read_closed) r') /\
  msg_read_closed <> msg_not_open /\
  classify (ValueError msg_not_open) = NotOpen /\
  classify (ValueError msg_read_closed) = NotOpen.
Proof.
  apply (not_open_errors (__init__ "a.bin") demo_reader 4 0);
    [reflexivity | apply demo_reader_open | lia].
Defined.

(** C33. With fewer than four bytes left, [read_uint32] raises [struct.error]
    (a decoding error, not a [ValueError]) and the failed call has consumed
    the bytes that were left: the cursor is at the end of the file. *)
Theorem read_uint32_short_read r :
  is_open r -> reader_wf r -> zlength (rest r) < 4 ->
  exists r',
    raises read_uint32 r (StructError msg_unpack_4) r' /\
    _position r' = _position r + zlength (rest r) /\
    rest r' = [] /\ reader_wf r'.
Proof.
  intros Ho Hw Hlt. pose proof (zlength_nonneg (rest r)) as Hn.
  destruct (step_prefix r (rest r) [] Ho Hw) as (Ho' & Hw' & Hr');
    [by rewrite app_nil_r|].
  eexists. split; [by apply read_uint32_short|]. done.
Qed.

Lemma read_uint32_short_read_witness :
  exists r',
    raises read_uint32 (advance 8 demo_reader) (StructError msg_unpack_4) r' /\
    _position r' = _position (advance 8 demo_reader) + zlength (rest (advance 8 demo_reader)) /\
    rest r' = [] /\ reader_wf r'.
Proof.
  apply read_uint32_short_read.
  - eexists. split; reflexivity.
  - split; [reflexivity | simpl; lia].
  - reflexivity.
Defined.

(** [read_uint32] inverts [int.to_bytes(4, 'little')]: when the bytes at
    the cursor are the four bytes written for [v], the call returns [v],
    advances the cursor by four and leaves what followed them. *)
Theorem read_uint32_roundtrip r v word tail :
  is_open r -> reader_wf r ->
  int_to_bytes v 4 = Ok word -> rest r = word ++ tail ->
  returns read_uint32 r v (advance 4 r) /\ rest (advance 4 r) = tail.
Proof.
  intros Ho Hw [Hv ->]%int_to_bytes_Ok Hr.
  destruct (step_prefix r _ tail Ho Hw Hr) as (_ & _ & Hr').
  replace (zlength (le_encode 4 v)) with 4 in Hr'
    by (unfold zlength; by rewrite length_le_encode).
  split; [|done].
  eapply read_uint32_prefix; [done..|]. by apply unpack_u32_le_encode.
Qed.

Lemma read_uint32_roundtrip_witness :
  returns read_uint32 demo_reader 1 (advance 4 demo_reader) /\
  rest (advance 4 demo_reader) = [x02; x00; x00; x00; xff].
Proof.
  apply (read_uint32_roundtrip demo_reader 1 [x01; x00; x00; x00]).
  - apply demo_reader_open.
  - apply demo_reader_wf.
  - reflexivity.
  - reflexivity.
Defined.

(** [read_float] decodes the four bytes at the cursor as a little-endian
    IEEE-754 binary32 number, which is always a number of that format, and
    advances the cursor by four. *)
Theorem read_float_spec r word tail :
  is_open r -> reader_wf r -> rest r = word ++ tail -> length word = 4%nat ->
  exists x,
    returns read_float r x (advance 4 r) /\
    x = f32_of_bits (le_decode word) /\ valid_binary 24 128 x = true /\
    rest (advance 4 r) = tail.
Proof.
  intros Ho Hw Hr Hlen. destruct (step_prefix r word tail Ho Hw Hr) as (_ & _ & Hr').
  replace (zlength word) with 4 in Hr' by (unfold zlength; lia).
  eexists. split; [by eapply read_float_prefix|].
  split; [done|]. split; [apply f32_of_bits_valid | done].
Qed.

Lemma read_float_spec_witness :
  exists x,
    returns read_float (reader_on [x00; x00; x20; xc0; xff]) x
      (advance 4 (reader_on [x00; x00; x20; xc0; xff])) /\
    x = f32_of_bits (le_decode [x00; x00; x20; xc0]) /\
    valid_binary 24 128 x = true /\
    rest (advance 4 (reader_on [x00; x00; x20; xc0; xff])) = [xff].
Proof.
  apply (read_float_spec _ [x00; x00; x20; xc0] [xff]);
    [apply reader_on_open | apply reader_on_wf | reflexivity | reflexivity].
Defined.

(** ** [read_string] *)

Section ReadString.
Context (r : BinaryReader) (Ho : is_open r) (Hw : reader_wf r).
Context (encoding : string) (hdr : bytes).

(** The length prefix was read; what is left to do is the branch. *)
Lemma read_string_after_prefix tail len :
  rest r = hdr ++ tail -> unpack_i32 hdr = Ok len ->
  read_string encoding r =
    (if len =? 0 then ret []
     else if len <? 0 then
       (data <- read_bytes (Z.abs len * 2) ;;
        s <- lift_outcome (bytes_decode "utf-16-le" data) ;;
        ret (rstrip [0] s))
     else
       (data <- read_bytes len ;;
        s <- lift_outcome (bytes_decode encoding data) ;;
        ret (rstrip [0] s))) (advance 4 r).
Proof using Ho Hw.
  intros Hr Hlen. unfold read_string.
  by rewrite (bind_returns _ _ _ _ _ (read_int32_prefix r Ho Hw hdr tail len Hr Hlen)).
Qed.

(** Reading and decoding a payload of [n] bytes: the payload is there in
    full, or the file ends before its last byte and what is there is read. *)
Lemma read_payload enc n (r1 : BinaryReader) payload tail s :
  is_open r1 -> reader_wf r1 -> rest r1 = payload ++ tail ->
  zlength payload = n \/ tail = [] /\ zlength payload < n ->
  bytes_decode enc payload = Ok s ->
  returns (data <- read_bytes n ;;
           s <- lift_outcome (bytes_decode enc data) ;;
           ret (rstrip [0] s)) r1 (rstrip [0] s) (advance (zlength payload) r1).
Proof.
  intros Ho1 Hw1 Hr1 Hn Hs. unfold returns.
  assert (returns (read_bytes n) r1 payload (advance (zlength payload) r1)) as Hb.
  { destruct Hn as [<-|[-> Hlt]]; [by apply (read_bytes_prefix r1 payload tail)|].
    rewrite app_nil_r in Hr1. rewrite <- Hr1 at 1 2.
    apply read_bytes_short; [done..|]. rewrite Hr1. lia. }
  rewrite (bind_returns _ _ _ _ _ Hb). unfold bind, lift_outcome, ret. by rewrite Hs.
Qed.

Lemma hdr_length len : unpack_i32 hdr = Ok len -> zlength hdr = 4.
Proof. intros [Hl _]%unpack_i32_Ok. unfold zlength. lia. Qed.

(** The branches at once: the length prefix selects the number of bytes of
    the payload and the codec; a prefix of zero has no payload and decodes
    nothing; a payload that the end of the file cuts short is decoded as it
    is. *)
Lemma read_string_branches payload tail len s :
  rest r = hdr ++ payload ++ tail -> unpack_i32 hdr = Ok len ->
  zlength payload = (if len <? 0 then Z.abs len * 2 else len) \/
    tail = [] /\ zlength payload < (if len <? 0 then Z.abs len * 2 else len) ->
  (if len =? 0 then s = []
   else bytes_decode (if len <? 0 then "utf-16-le"%string else encoding) payload = Ok s) ->
  returns (read_string encoding) r (rstrip [0] s) (advance (4 + zlength payload) r) /\
  rest (advance (4 + zlength payload) r) = tail.
Proof using Ho Hw.
  intros Hr Hlen Hp Hs. pose proof (zlength_nonneg payload) as Hnn.
  destruct (step_prefix r hdr _ Ho Hw Hr) as (Ho1 & Hw1 & Hr1).
  destruct (step_prefix _ payload tail Ho1 Hw1 Hr1) as (_ & _ & Hr2).
  rewrite (hdr_length _ Hlen) in *. rewrite advance_advance in Hr2.
  split; [|done]. unfold returns.
  rewrite (read_string_after_prefix _ _ Hr Hlen). revert Hp Hs.
  destruct (Z.eqb_spec len 0) as [->|Hnz]; [intros Hp ->|].
  - by destruct payload; [|unfold zlength in *; cbn in Hp; lia].
  - destruct (len <? 0); intros Hp Hs;
      by rewrite (read_payload _ _ _ payload tail s Ho1 Hw1 Hr1 Hp Hs), advance_advance.
Qed.

(** C11. [read_string] reads a signed length prefix and then the text that
    it announces.  A prefix of zero gives the empty string.  A negative
    prefix [-L] selects UTF-16-LE whatever encoding was asked for and
    announces [2 * L] bytes; a positive prefix [L] announces [L] bytes in
    the encoding that was asked for.  The bytes are decoded, trailing null
    characters are stripped, and the cursor is left behind the bytes that
    were read.  The announced length is not checked against what the file
    holds: when the file ends first, what is there is decoded and returned
    without an error. *)
Theorem read_string_spec payload tail len s :
  rest r = hdr ++ payload ++ tail -> unpack_i32 hdr = Ok len ->
  zlength payload = (if len <? 0 then Z.abs len * 2 else len) \/
    tail = [] /\ zlength payload < (if len <? 0 then Z.abs len * 2 else len) ->
  (if len =? 0 then s = []
   else bytes_decode (if len <? 0 then "utf-16-le"%string else encoding) payload = Ok s) ->
  returns (read_string encoding) r (rstrip [0] s) (advance (4 + zlength payload) r) /\
  _position (advance (4 + zlength payload) r) = _position r + 4 + zlength payload /\
  rest (advance (4 + zlength payload) r) = tail /\
  ready (advance (4 + zlength payload) r).
Proof using Ho Hw.
  intros Hr Hlen Hp Hs. pose proof (zlength_nonneg payload) as Hnn.
  destruct (read_string_branches payload tail len s Hr Hlen Hp Hs) as [Hret Hrest].
  split_and!; [done | rewrite position_advance; lia | done |].
  apply advance_open_wf; [done..|lia].
Qed.

(** A length prefix of zero gives the empty string, and exactly the four
    bytes of the prefix are consumed. *)
Theorem read_string_zero tail :
  rest r = hdr ++ tail -> unpack_i32 hdr = Ok 0 ->
  returns (read_string encoding) r [] (advance 4 r) /\ rest (advance 4 r) = tail.
Proof using Ho Hw.
  intros Hr Hlen. by apply (read_string_branches [] tail 0 []); [..|left|].
Qed.

(** A negative length prefix [-L] selects UTF-16-LE whatever encoding
    was asked for: [2 * L] bytes are read and decoded, trailing null
    characters are stripped, and [4 + 2 * L] bytes are consumed in all. *)
Theorem read_string_utf16 payload tail L s :
  rest r = hdr ++ payload ++ tail -> unpack_i32 hdr = Ok (- L) -> 0 < L ->
  zlength payload = 2 * L -> bytes_decode "utf-16-le" payload = Ok s ->
  returns (read_string encoding) r (rstrip [0] s) (advance (4 + 2 * L) r) /\
  rest (advance (4 + 2 * L) r) = tail.
Proof using Ho Hw.
  intros Hr Hlen HL Hp Hs. rewrite <- Hp.
  apply (read_string_branches payload tail (- L) s); [done | done | left |];
    decide_tests; (lia || done).
Qed.

(** A positive length prefix [L] reads [L] bytes, decodes them with the
    encoding that was asked for and strips trailing null characters;
    [4 + L] bytes are consumed in all. *)
Theorem read_string_encoded payload tail L s :
  rest r = hdr ++ payload ++ tail -> unpack_i32 hdr = Ok L -> 0 < L ->
  zlength payload = L -> bytes_decode encoding payload = Ok s ->
  returns (read_string encoding) r (rstrip [0] s) (advance (4 + L) r) /\
  rest (advance (4 + L) r) = tail.
Proof using Ho Hw.
  intros Hr Hlen HL Hp Hs. rewrite <- Hp in *.
  apply (read_string_branches payload tail (zlength payload) s); [done | done | left |];
    by decide_tests.
Qed.

(** The declared length is not checked against what the file holds: when
    fewer than [L] bytes follow the prefix, the read is short, whatever is
    there is decoded, and the string is returned without any error. *)
Theorem read_string_truncated payload L s :
  rest r = hdr ++ payload -> unpack_i32 hdr = Ok L -> 0 < L ->
  zlength payload < L -> bytes_decode encoding payload = Ok s ->
  returns (read_string encoding) r (rstrip [0] s) (advance (4 + zlength payload) r).
Proof using Ho Hw.
  intros Hr Hlen HL Hp Hs. rewrite <- (app_nil_r payload) in Hr.
  apply (read_string_branches payload [] L s); [done | done | right |];
    by decide_tests.
Qed.

End ReadString.

Lemma read_string_spec_witness :
  returns (read_string "utf-8")
    (reader_on [xfe; xff; xff; xff; x48; x00; x00; x00; xff]) (rstrip [0] [72; 0])
    (advance (4 + zlength [x48; x00; x00; x00])
       (reader_on [xfe; xff; xff; xff; x48; x00; x00; x00; xff])) /\
  _position (advance (4 + zlength [x48; x00; x00; x00])
               (reader_on [xfe; xff; xff; xff; x48; x00; x00; x00; xff])) =
    _position (reader_on [xfe; xff; xff; xff; x48; x00; x00; x00; xff]) + 4 +
    zlength [x48; x00; x00; x00] /\
  rest (advance (4 + zlength [x48; x00; x00; x00])
          (reader_on [xfe; xff; xff; xff; x48; x00; x00; x00; xff])) = [xff] /\
  ready (advance (4 + zlength [x48; x00; x00; x00])
           (reader_on [xfe; xff; xff; xff; x48; x00; x00; x00; xff])).
Proof.
  apply (read_string_spec _ (reader_on_open _) (reader_on_wf _) "utf-8"
           [xfe; xff; xff; xff] [x48; x00; x00; x00] [xff] (-2) [72; 0]);
    [reflexivity | reflexivity | by left | reflexivity].
Defined.

Lemma read_string_zero_witness :
  returns (read_string "utf-8") (reader_on [x00; x00; x00; x00; xff]) []
    (advance 4 (reader_on [x00; x00; x00; x00; xff])) /\
  rest (advance 4 (reader_on [x00; x00; x00; x00; xff])) = [xff].
Proof.
  apply (read_string_zero _ (reader_on_open _) (reader_on_wf _) "utf-8"
           [x00; x00; x00; x00] [xff]); reflexivity.
Defined.

Lemma read_string_utf16_witness :
  returns (read_string "utf-8")
    (reader_on [xfe; xff; xff; xff; x48; x00; x00; x00; xff]) [72]
    (advance (4 + 2 * 2) (reader_on [xfe; xff; xff; xff; x48; x00; x00; x00; xff])) /\
  rest (advance (4 + 2 * 2) (reader_on [xfe; xff; xff; xff; x48; x00; x00; x00; xff]))
    = [xff].
Proof.
  apply (read_string_utf16 _ (reader_on_open _) (reader_on_wf _) "utf-8"
           [xfe; xff; xff; xff] [x48; x00; x00; x00] [xff] 2 [72; 0]);
    (reflexivity || lia).
Defined.

Lemma read_string_encoded_witness :
  returns (read_string "utf-8")
    (reader_on [x03; x00; x00; x00; x61; x62; x00; xff]) [97; 98]
    (advance (4 + 3) (reader_on [x03; x00; x00; x00; x61; x62; x00; xff])) /\
  rest (advance (4 + 3) (reader_on [x03; x00; x00; x00; x61; x62; x00; xff])) = [xff].
Proof.
  apply (read_string_encoded _ (reader_on_open _) (reader_on_wf _) "utf-8"
           [x03; x00; x00; x00] [x61; x62; x00] [xff] 3 [97; 98; 0]);
    (reflexivity || lia).
Defined.

Lemma read_string_truncated_witness :
  returns (read_string "utf-8")
    (reader_on [x05; x00; x00; x00; x61; x62]) [97; 98]
    (advance (4 + zlength [x61; x62]) (reader_on [x05; x00; x00; x00; x61; x62])).
Proof.
  apply (read_string_truncated _ (reader_on_open _) (reader_on_wf _) "utf-8"
           [x05; x00; x00; x00] [x61; x62] 5 [97; 98]);
    (reflexivity || lia).
Defined.

(** ** [seek] *)

(** [seek(p)] with [p >= 0] on an open reader sets the tracked position
    and the offset of the file to [p], inside the file or past its end; the
    next read starts there.  It restores the cursor invariant even in a
    reader that had lost it. *)
Theorem seek_sets_cursor p r :
  is_open r -> 0 <= p ->
  exists r', returns (seek p) r tt r' /\
    _position r' = p /\ rest r' = zdrop p (content r) /\
    is_open r' /\ reader_wf r'.
Proof.
  intros Ho Hp. eexists. split; [by apply seek_open|].
  destruct Ho as ([c off cl] & Hf & Hcl). destruct r as [path f pos].
  simpl in *. subst. repeat split; try done. by eexists.
Qed.

Lemma seek_sets_cursor_witness :
  exists r', returns (seek 8) demo_reader tt r' /\
    _position r' = 8 /\ rest r' = zdrop 8 (content demo_reader) /\
    is_open r' /\ reader_wf r'.
Proof. apply seek_sets_cursor; [apply demo_reader_open | lia]. Defined.

(** A read after a seek to the end of the file or past it returns no byte
    and leaves the cursor where [seek] put it. *)
Lemma seek_past_end p n r :
  is_open r -> zlength (content r) <= p -> 0 <= n ->
  exists r', returns (seek p ;;; read_bytes n) r [] r' /\
    _position r' = p /\ rest r' = [] /\ ready r'.
Proof.
  intros Ho Hp Hn. pose proof (zlength_nonneg (content r)) as Hc.
  destruct (seek_sets_cursor p r Ho ltac:(lia)) as (r1 & Hs & Hpos & Hrest & Ho1 & Hw1).
  rewrite zdrop_ge in Hrest by done. exists r1. unfold returns.
  rewrite (bind_returns _ _ _ _ _ Hs).
  pose proof (read_bytes_open n r1 Ho1 Hw1 Hn) as Hb. rewrite Hrest in Hb.
  replace (ztake n []) with (@nil byte) in Hb by (unfold ztake; by rewrite take_nil).
  by rewrite advance_0 in Hb.
Qed.

(** A negative offset makes the runtime raise before the tracked position
    is assigned. *)
Lemma seek_negative q r :
  is_open r -> q < 0 -> raises (seek q) r (OSError 22 msg_einval) r.
Proof.
  intros (c & off & Hf)%is_open_inv Hq. destruct r as [path f pos].
  simpl in Hf. subst f. exst_unfold. simpl. by decide_tests.
Qed.

(** C31. [seek] does not check its target against the file.  In a reader that
    is open, seeking to the end of the file or past it is accepted, and the
    read that follows is a short read and no error: it returns no byte at
    all and leaves the cursor where [seek] put it.  A negative offset is
    refused by the runtime with [OSError], and the reader is left as it
    was.  The specification says that [seek] does not validate its argument,
    and does not name this error, which is none of its kinds. *)
Theorem seek_outside_file p q n r :
  is_open r -> zlength (content r) <= p -> 0 <= n -> q < 0 ->
  (exists r', returns (seek p ;;; read_bytes n) r [] r' /\
     _position r' = p /\ rest r' = [] /\ ready r') /\
  raises (seek q) r (OSError 22 msg_einval) r /\
  classify (OSError 22 msg_einval) = OtherError.
Proof.
  intros Ho Hp Hn Hq. split; [by apply seek_past_end|]. split; [by apply seek_negative | done].
Qed.

Lemma seek_outside_file_witness :
  (exists r', returns (seek 100 ;;; read_bytes 4) demo_reader [] r' /\
     _position r' = 100 /\ rest r' = [] /\ ready r') /\
  raises (seek (-1)) demo_reader (OSError 22 msg_einval) demo_reader /\
  classify (OSError 22 msg_einval) = OtherError.
Proof.
  apply (seek_outside_file 100 (-1) 4 demo_reader);
    [apply demo_reader_open | by vm_compute | lia | lia].
Defined.

(** ** The [with] statement *)

Lemma finally_state {E S A} (m : exst E S A) (fin : exst E S unit) s :
  (finally m fin s).2 = (fin (m s).2).2.
Proof.
  unfold finally. destruct (m s) as [o s']. simpl. by destruct (fin s') as [[]].
Qed.

Lemma with_reader_found {A} fs (body : exst exn BinaryReader A) r c :
  fs !! file_path r = Some c ->
  with_reader fs body r =
    finally body __exit__ (set_file (Some (mk_file c 0 false)) r).
Proof.
  intros Hc. unfold with_reader. by rewrite (bind_returns _ _ _ _ _ (enter_found fs r c Hc)).
Qed.

(** The block from the reader that [__enter__] leaves on a file that exists. *)
Lemma with_reader_opened {A} fs path (body : exst exn BinaryReader A) c :
  fs !! path = Some c ->
  with_reader fs body (__init__ path) = finally body __exit__ (opened path c).
Proof. intros Hc. by rewrite (with_reader_found _ _ _ c). Qed.

Lemma with_reader_missing {A} fs path (body : exst exn BinaryReader A) :
  fs !! path = None ->
  with_reader fs body (__init__ path) = (Raise (FileNotFoundError path), __init__ path).
Proof.
  intros Hc. unfold with_reader.
  by rewrite (bind_raises _ _ _ _ _ (enter_not_found fs (__init__ path) Hc)).
Qed.

(** A block whose body returns, returns the same; one whose body raises,
    raises the same: [__exit__] never raises and its result is not used. *)
Lemma finally_exit_returns {A} (body : exst exn BinaryReader A) r a r' :
  returns body r a r' -> returns (finally body __exit__) r a (__exit__ r').2.
Proof.
  unfold returns, finally. intros ->. destruct (exit_returns r') as (r'' & -> & _). done.
Qed.

Lemma finally_exit_raises {A} (body : exst exn BinaryReader A) r e r' :
  raises body r e r' -> raises (finally body __exit__) r e (__exit__ r').2.
Proof.
  unfold raises, finally. intros ->. destruct (exit_returns r') as (r'' & -> & _). done.
Qed.

(** The block on a file that exists does what its body does from the
    reader just opened, and then closes the file. *)
Lemma with_reader_returns {A} fs path c (body : exst exn BinaryReader A) a r' :
  fs !! path = Some c -> returns body (opened path c) a r' ->
  returns (with_reader fs body) (__init__ path) a (__exit__ r').2.
Proof.
  intros Hc Hb. unfold returns at 1. rewrite (with_reader_opened _ _ _ _ Hc).
  by apply finally_exit_returns.
Qed.

Lemma with_reader_raises {A} fs path c (body : exst exn BinaryReader A) e r' :
  fs !! path = Some c -> raises body (opened path c) e r' ->
  raises (with_reader fs body) (__init__ path) e (__exit__ r').2.
Proof.
  intros Hc Hb. unfold raises at 1. rewrite (with_reader_opened _ _ _ _ Hc).
  by apply finally_exit_raises.
Qed.

Lemma with_reader_released {A} fs path (body : exst exn BinaryReader A) :
  is_released (with_reader fs body (__init__ path)).2.
Proof.
  destruct (fs !! path) as [c|] eqn:Hc.
  - rewrite (with_reader_opened _ _ _ c) by done. rewrite finally_state.
    apply exit_released.
  - by rewrite with_reader_missing.
Qed.

(** The outcome of a block is the outcome of its body from the reader just
    opened, or the failure to open. *)
Lemma with_reader_outcome {A} fs path (body : exst exn BinaryReader A) :
  (with_reader fs body (__init__ path)).1 =
    match fs !! path with
    | Some c => (body (opened path c)).1
    | None => Raise (FileNotFoundError path)
    end.
Proof.
  destruct (fs !! path) as [c|] eqn:Hc; [|by rewrite with_reader_missing].
  rewrite (with_reader_opened _ _ _ c Hc).
  destruct (returns_or_raises body (opened path c)) as [(a & r' & Hb)|(e & r' & Hb)].
  - by rewrite (finally_exit_returns _ _ _ _ Hb), Hb.
  - by rewrite (finally_exit_raises _ _ _ _ Hb), Hb.
Qed.

(** C6. Scoped acquisition: whatever the body of a [with] block does, and
    whether it returns or raises, the reader that comes out of the block
    holds no open file; and the block is transparent: on a file that
    exists its outcome is the outcome of its body from the reader just
    opened, on any other path it is [FileNotFoundError]. *)
Theorem with_reader_releases {A} fs path (body : exst exn BinaryReader A) :
  is_released (with_reader fs body (__init__ path)).2 /\
  (with_reader fs body (__init__ path)).1 =
    match fs !! path with
    | Some c => (body (opened path c)).1
    | None => Raise (FileNotFoundError path)
    end.
Proof. split; [apply with_reader_released | apply with_reader_outcome]. Qed.

(** A path that names no file makes [__enter__] raise
    [FileNotFoundError] with that path; the body of the [with] block does not
    run and nothing was opened. *)
Theorem with_reader_not_found {A} fs path (body : exst exn BinaryReader A) :
  fs !! path = None ->
  raises (with_reader fs body) (__init__ path) (FileNotFoundError path) (__init__ path) /\
  classify (FileNotFoundError path) = NotFound.
Proof.
  intros Hc. split; [|done]. unfold raises, with_reader.
  by rewrite (bind_raises _ _ _ _ _ (enter_not_found fs (__init__ path) Hc)).
Qed.

Lemma with_reader_not_found_witness :
  raises (with_reader demo_fs read_uint32) (__init__ "nonexistent.uasset")
    (FileNotFoundError "nonexistent.uasset") (__init__ "nonexistent.uasset") /\
  classify (FileNotFoundError "nonexistent.uasset") = NotFound.
Proof. apply with_reader_not_found. reflexivity. Defined.

(** A reader that holds no open file cannot be read or repositioned. *)
Lemma released_no_access size p r :
  is_released r -> is_ok (read_bytes size r).1 = false /\ is_ok (seek p r).1 = false.
Proof.
  destruct r as [path [[c off cl]|] pos]; simpl; [intros ->|done].
  exst_unfold. simpl. by destruct (size <? -1).
Qed.

(** C7. After the block every read and every seek fails, whatever the body did
    and whatever is asked for: nothing can be read without entering the
    reader again. *)
Theorem no_read_after_with {A} fs path (body : exst exn BinaryReader A) size p :
  is_ok (read_bytes size (with_reader fs body (__init__ path)).2).1 = false /\
  is_ok (seek p (with_reader fs body (__init__ path)).2).1 = false.
Proof. apply released_no_access, with_reader_released. Qed.

Example no_read_after_with_demo :
  (read_bytes 4 (with_reader demo_fs read_uint32 (__init__ "a.bin")).2).1 =
    Raise (ValueError msg_read_closed).
Proof. reflexivity. Qed.

(** ** The contract *)

(** C5. The methods of the reader implement the contract of the cursor
    reader: from an open reader that satisfies the invariant, each method
    returns what the operation of the contract returns on the cursor that
    the reader stands for, or fails with the same kind of error, and leaves
    a reader that stands for the cursor that the operation leaves. *)
Theorem reader_implements_cursor :
  (forall n, 0 <= n -> refines (read_bytes n) (c_read_bytes n)) /\
  refines read_uint32 c_read_u32 /\
  refines read_int32 c_read_i32 /\
  refines read_float c_read_f32 /\
  (forall encoding, refines (read_string encoding) (c_read_string encoding)) /\
  (forall p, 0 <= p -> refines (seek p) (c_seek p)).
Proof.
  split_and!; auto using refines_read_bytes, refines_read_uint32,
    refines_read_int32, refines_read_float, refines_read_string, refines_seek.
Qed.

(** ** Monotonicity *)

Lemma read_call_mono fs c r :
  is_read c = true -> _position r <= _position (exec fs c r).
Proof.
  destruct c; try done; intros _; simpl.
  - apply read_bytes_mono.
  - apply read_uint32_mono.
  - apply read_int32_mono.
  - apply read_float_mono.
  - apply read_string_mono.
Qed.

(** C12. Reads only move the cursor forward: after any sequence of read calls,
    successful or not, on any reader, open or not, [_position] is at least
    what it was. *)
Theorem reads_never_rewind fs cs r :
  Forall (fun c => is_read c = true) cs -> _position r <= _position (exec_all fs cs r).
Proof.
  intros Hcs. revert r. induction Hcs as [|c cs Hc _ IH]; intros r; [done|].
  etrans; [by apply (read_call_mono fs c)|]. apply IH.
Qed.

Lemma reads_never_rewind_witness :
  _position demo_reader <=
  _position (exec_all demo_fs [CReadUint32; CReadString "utf-8"; CReadFloat] demo_reader).
Proof. apply reads_never_rewind. by repeat constructor. Defined.
