(* ===== verification/Unreal.v ===== *)
(** * The Unreal asset decoder: class [UnrealAssetReader]

    [read_header] checks the magic number and reads four more unsigned
    32-bit fields; [read_metadata] reads three from wherever the cursor is;
    [read_name_table] reads a signed count and that many strings.  The
    abstract methods of [BinaryReader] are the interface [Decoder], of which
    [UnrealAssetReader] is the instance: inside a [with] block the two
    methods leave the reader open with its invariant, and they raise the
    [ValueError] of the magic check or the error of [struct.unpack] and
    nothing else.

    The layout of a file is stated with [layout], the little-endian words
    one after the other, which is how the tests write their fixture. *)

From Stdlib Require Import ZArith Lia Strings.Byte.
From stdpp Require Import base tactics option list numbers strings gmap.
From S2P Require Import Prelude Errors Bytes FileIO Text Values Cursor Reader.

#[local] Open Scope string_scope.
#[local] Open Scope list_scope.
#[local] Open Scope Z_scope.
#[local] Open Scope exst_scope.

(** ** The decoder *)

Definition MAGIC : Z := 0xC1832A9E.

Definition read_header : exst exn BinaryReader pydict :=
  magic <- read_uint32 ;;
  if negb (magic =? MAGIC) then raise (ValueError msg_invalid_uasset)
  else
    legacy_version <- read_uint32 ;;
    legacy_ue3_version <- read_uint32 ;;
    file_version_ue4 <- read_uint32 ;;
    file_size <- read_uint32 ;;
    ret [("magic", PStr (hex magic));
         ("legacy_version", PInt legacy_version);
         ("legacy_ue3_version", PInt legacy_ue3_version);
         ("file_version_ue4", PInt file_version_ue4);
         ("file_size", PInt file_size)].

Definition read_metadata : exst exn BinaryReader pydict :=
  flags <- read_uint32 ;;
  element_count <- read_uint32 ;;
  bulk_data_size <- read_uint32 ;;
  ret [("flags", PInt flags);
       ("element_count", PInt element_count);
       ("bulk_data_size", PInt bulk_data_size)].

Definition read_name_table : exst exn BinaryReader (list ustring) :=
  names_count <- read_int32 ;;
  repeat_collect (Z.to_nat names_count) (read_string "utf-8").

(** ** The interface of a concrete reader

    What [BinaryReader] declares abstract, with what the front-ends rely on:
    inside a [with] block both methods leave the file open and keep the
    cursor invariant, and when they fail they fail as decoders do, on the
    format or on the bytes. *)

(** The failures of decoding, in the taxonomy of the specification. *)
Definition decode_failure (e : exn) : Prop :=
  classify e = InvalidFormat \/ classify e = DecodeError.

Class Decoder : Type := {
  dec_read_header : exst exn BinaryReader pydict;
  dec_read_metadata : exst exn BinaryReader pydict;
  dec_header_ready : preserves ready dec_read_header;
  dec_metadata_ready : preserves ready dec_read_metadata;
  dec_header_errors : raises_only ready decode_failure dec_read_header;
  dec_metadata_errors : raises_only ready decode_failure dec_read_metadata
}.

(** The two exceptions of the Unreal decoder. *)
Definition unreal_failure (e : exn) : Prop :=
  e = ValueError msg_invalid_uasset \/ e = StructError msg_unpack_4.

(** ** The layout of a file *)

(** Unsigned 32-bit words, little-endian, one after the other. *)
Definition layout (ws : list Z) : bytes := mjoin (le_encode 4 <$> ws).

Definition word_ok (w : Z) : Prop := 0 <= w < 2 ^ 32.

(** The fixture of [tests/test_binary_reader.py]. *)
Definition test_unreal_asset_file : bytes :=
  default [] (bytes_fromhex "C1832A9E") ++ layout [1; 2; 3; 100; 1; 10; 1000].

(** A table of two names: three bytes of UTF-8 with a trailing null, then
    one UTF-16 character. *)
Definition demo_name_table : bytes :=
  [x02; x00; x00; x00;
   x03; x00; x00; x00; x61; x62; x00;
   xff; xff; xff; xff; x48; x00].

(** The dictionaries that the two methods build. *)
Definition header_dict (lv l3 fv fs : Z) : pydict :=
  [("magic", PStr (hex MAGIC));
   ("legacy_version", PInt lv);
   ("legacy_ue3_version", PInt l3);
   ("file_version_ue4", PInt fv);
   ("file_size", PInt fs)].

Definition metadata_dict (fl ec bs : Z) : pydict :=
  [("flags", PInt fl);
   ("element_count", PInt ec);
   ("bulk_data_size", PInt bs)].

(** ** The decoder in the terms of the contract *)

Definition c_read_header : exst error_kind cursor pydict :=
  magic <- c_read_u32 ;;
  if negb (magic =? MAGIC) then raise InvalidFormat
  else
    lv <- c_read_u32 ;;
    l3 <- c_read_u32 ;;
    fv <- c_read_u32 ;;
    fs <- c_read_u32 ;;
    ret [("magic", PStr (hex magic));
         ("legacy_version", PInt lv);
         ("legacy_ue3_version", PInt l3);
         ("file_version_ue4", PInt fv);
         ("file_size", PInt fs)].

Definition c_read_metadata : exst error_kind cursor pydict :=
  fl <- c_read_u32 ;;
  ec <- c_read_u32 ;;
  bs <- c_read_u32 ;;
  ret (metadata_dict fl ec bs).

#[export] Hint Unfold read_header read_metadata read_name_table : exst.

(** ** Invariants of the decoder *)

Lemma read_header_wf : preserves reader_wf read_header.
Proof.
  unfold read_header. apply preserves_bind; [eauto with exst|].
  intros m. destruct (negb (m =? MAGIC)); eauto 10 with exst.
Qed.

Lemma read_metadata_wf : preserves reader_wf read_metadata.
Proof. unfold read_metadata. eauto 10 with exst. Qed.

Lemma read_name_table_wf : preserves reader_wf read_name_table.
Proof. unfold read_name_table. eauto 10 with exst. Qed.

#[export] Hint Resolve read_header_wf read_metadata_wf read_name_table_wf : exst.

(** Reads leave an open file open. *)
Lemma read_bytes_keeps_open size : preserves is_open (read_bytes size).
Proof.
  intros r ([c off cl] & Hf & Hcl). destruct r as [path f pos].
  simpl in *. subst. exst_unfold. simpl. destruct (size <? -1); by eexists.
Qed.

#[export] Hint Resolve read_bytes_keeps_open : exst.

Lemma read_uint32_keeps_open : preserves is_open read_uint32.
Proof. unfold read_uint32. eauto with exst. Qed.

Lemma read_int32_keeps_open : preserves is_open read_int32.
Proof. unfold read_int32. eauto with exst. Qed.

#[export] Hint Resolve read_uint32_keeps_open read_int32_keeps_open : exst.

Lemma read_string_keeps_open encoding : preserves is_open (read_string encoding).
Proof.
  unfold read_string. apply preserves_bind; [eauto with exst|].
  intros len. repeat case_match; eauto 10 with exst.
Qed.

#[export] Hint Resolve read_string_keeps_open : exst.

Lemma read_header_keeps_open : preserves is_open read_header.
Proof.
  unfold read_header. apply preserves_bind; [eauto with exst|].
  intros m. destruct (negb (m =? MAGIC)); eauto 10 with exst.
Qed.

Lemma read_metadata_keeps_open : preserves is_open read_metadata.
Proof. unfold read_metadata. eauto 10 with exst. Qed.

Lemma read_name_table_keeps_open : preserves is_open read_name_table.
Proof. unfold read_name_table. eauto 10 with exst. Qed.

(** ** What the decoder raises *)

Lemma preserves_ready {A} (m : exst exn BinaryReader A) :
  preserves is_open m -> preserves reader_wf m -> preserves ready m.
Proof. apply preserves_and. Qed.

#[export] Hint Resolve preserves_ready : exst.

(** Inside a block a fixed-width read fails in one way only: too few bytes
    were left for [struct.unpack]. *)
Lemma read_uint32_raises_only :
  raises_only ready (fun e => e = StructError msg_unpack_4) read_uint32.
Proof.
  intros r e r' [Ho Hw] [Hb|(data & r1 & _ & Hu)]%raises_bind_inv.
  - destruct (returns_not_raises _ _ _ _ _ _ (read_bytes_open 4 r Ho Hw ltac:(lia)) Hb).
  - injection Hu as Hu _. by apply unpack_u32_Raise in Hu as [_ ->].
Qed.

Lemma unreal_failure_decode e : unreal_failure e -> decode_failure e.
Proof. intros [->| ->]; [by left | by right]. Qed.

(** A sequence of unsigned reads raises what one of them raises. *)
Ltac raises_only_words :=
  repeat (apply raises_only_bind;
          [ eauto with exst
          | apply (raises_only_weaken _ _ _ _ (fun e H => or_intror H)
                     read_uint32_raises_only)
          | intros ? ]).

Lemma read_header_failures : raises_only ready unreal_failure read_header.
Proof.
  unfold read_header. raises_only_words.
  destruct (negb (_ =? MAGIC)); [by apply raises_only_raise; left|].
  raises_only_words. apply raises_only_ret.
Qed.

Lemma read_metadata_failures : raises_only ready unreal_failure read_metadata.
Proof. unfold read_metadata. raises_only_words. apply raises_only_ret. Qed.

#[export] Instance UnrealAssetReader : Decoder := {|
  dec_read_header := read_header;
  dec_read_metadata := read_metadata;
  dec_header_ready := preserves_ready _ read_header_keeps_open read_header_wf;
  dec_metadata_ready := preserves_ready _ read_metadata_keeps_open read_metadata_wf;
  dec_header_errors :=
    raises_only_weaken _ _ _ _ unreal_failure_decode read_header_failures;
  dec_metadata_errors :=
    raises_only_weaken _ _ _ _ unreal_failure_decode read_metadata_failures
|}.

(** ** Reading the words of a layout *)

Lemma magic_word_ok : word_ok MAGIC.
Proof. unfold word_ok, MAGIC. lia. Qed.

Lemma layout_cons w ws : layout (w :: ws) = le_encode 4 w ++ layout ws.
Proof. reflexivity. Qed.

Lemma zlength_layout ws : zlength (layout ws) = 4 * zlength ws.
Proof.
  unfold zlength. induction ws as [|w ws IH]; [done|].
  rewrite layout_cons, length_app, length_le_encode. simpl length. lia.
Qed.

Section Words.
Context (r : BinaryReader) (Ho : is_open r) (Hw : reader_wf r).
Context (w : Z) (ws : list Z) (tail : bytes).
Context (Hok : word_ok w) (Hr : rest r = layout (w :: ws) ++ tail).

Lemma read_word : returns read_uint32 r w (advance 4 r).
Proof using Ho Hw Hok Hr.
  rewrite layout_cons, <- app_assoc in Hr.
  eapply read_uint32_prefix; [done..|]. by apply unpack_u32_le_encode.
Qed.

Lemma bind_read_word {B} (k : Z -> exst exn BinaryReader B) :
  bind read_uint32 k r = k w (advance 4 r).
Proof using Ho Hw Hok Hr. by rewrite (bind_returns _ _ _ _ _ read_word). Qed.

Lemma after_word :
  is_open (advance 4 r) /\ reader_wf (advance 4 r) /\
  rest (advance 4 r) = layout ws ++ tail.
Proof using Ho Hw Hr.
  rewrite layout_cons, <- app_assoc in Hr.
  destruct (step_prefix r _ _ Ho Hw Hr) as (Ho' & Hw' & Hr').
  replace (zlength (le_encode 4 w)) with 4 in *
    by (unfold zlength; by rewrite length_le_encode).
  done.
Qed.

End Words.

(** Step over the [read_uint32] at the head of the goal, when the bytes at
    the cursor are known to be a layout. *)
Ltac read_word :=
  match goal with
  | Ho : is_open ?r, Hw : reader_wf ?r,
    Hr : rest ?r = layout (?w :: ?ws) ++ ?tail |- context [bind read_uint32 _ ?r] =>
      let Hok := fresh "Hok" in
      assert (word_ok w) as Hok by (done || apply magic_word_ok);
      let Ho' := fresh "Ho" in
      let Hw' := fresh "Hw" in
      let Hr' := fresh "Hr" in
      destruct (after_word r Ho Hw w ws tail Hr) as (Ho' & Hw' & Hr');
      rewrite (bind_read_word r Ho Hw w ws tail Hok Hr);
      clear Ho Hw Hr Hok
  end.

(** [read_header] and [read_metadata] at the head of a computation, on the
    bytes that they accept: the continuation runs on the dictionary, from
    the reader advanced over the fields. *)
Lemma bind_read_header {B} (k : pydict -> exst exn BinaryReader B) r lv l3 fv fs ws tail :
  is_open r -> reader_wf r -> Forall word_ok [lv; l3; fv; fs] ->
  rest r = layout (MAGIC :: lv :: l3 :: fv :: fs :: ws) ++ tail ->
  bind read_header k r = k (header_dict lv l3 fv fs) (advance 20 r) /\
  is_open (advance 20 r) /\ reader_wf (advance 20 r) /\
  rest (advance 20 r) = layout ws ++ tail.
Proof.
  intros Ho Hw Hall Hr. rewrite !Forall_cons in Hall.
  destruct Hall as (Hlv & Hl3 & Hfv & Hfs & _).
  unfold read_header. rewrite !bind_assoc.
  read_word. rewrite Z.eqb_refl. cbn [negb]. rewrite !bind_assoc.
  do 4 (read_word; rewrite ?bind_assoc). rewrite bind_ret_l.
  rewrite !advance_advance in *. done.
Qed.

Lemma bind_read_metadata {B} (k : pydict -> exst exn BinaryReader B) r fl ec bs ws tail :
  is_open r -> reader_wf r -> Forall word_ok [fl; ec; bs] ->
  rest r = layout (fl :: ec :: bs :: ws) ++ tail ->
  bind read_metadata k r = k (metadata_dict fl ec bs) (advance 12 r) /\
  is_open (advance 12 r) /\ reader_wf (advance 12 r) /\
  rest (advance 12 r) = layout ws ++ tail.
Proof.
  intros Ho Hw Hall Hr. rewrite !Forall_cons in Hall.
  destruct Hall as (Hfl & Hec & Hbs & _).
  unfold read_metadata. rewrite !bind_assoc.
  do 3 (read_word; rewrite ?bind_assoc). rewrite bind_ret_l.
  rewrite !advance_advance in *. done.
Qed.

(** A read of a word from fewer than four bytes, at the head of a
    computation. *)
Lemma bind_read_short {B} (k : Z -> exst exn BinaryReader B) r extra :
  is_open r -> reader_wf r -> rest r = layout [] ++ extra -> zlength extra < 4 ->
  exists r', raises (bind read_uint32 k) r (StructError msg_unpack_4) r'.
Proof.
  intros Ho Hw Hr Hlt. eexists. apply bind_raises, read_uint32_short; [done..|].
  by rewrite Hr.
Qed.

(** A file that ends before the eighth word: decoding the header and the
    metadata fails in [struct.unpack], wherever the end is. *)
Lemma decode_truncated {B} (k : pydict -> pydict -> exst exn BinaryReader B) r ws extra :
  is_open r -> reader_wf r ->
  Forall word_ok ws -> (length ws < 7)%nat -> zlength extra < 4 ->
  rest r = layout (MAGIC :: ws) ++ extra ->
  exists r',
    raises (h <- read_header ;; m <- read_metadata ;; k h m) r (StructError msg_unpack_4) r'.
Proof.
  intros Ho Hw Hall Hlen Hlt Hr. unfold raises, read_header, read_metadata.
  rewrite !bind_assoc. read_word. rewrite Z.eqb_refl. cbn [negb].
  do 7 (rewrite ?bind_assoc, ?bind_ret_l, ?bind_assoc;
        destruct ws as [|? ws];
        [by eapply bind_read_short|];
        apply Forall_cons in Hall as [? Hall]; read_word).
  simpl in Hlen. lia.
Qed.

(** What [read_uint32] returns is a number of 32 bits. *)
Lemma read_uint32_word_ok r v r' : returns read_uint32 r v r' -> word_ok v.
Proof.
  intros (data & r1 & _ & [Hv _]%returns_lift_inv)%returns_bind_inv.
  apply unpack_u32_Ok in Hv as [Hlen ->]. by apply le_decode_4_range.
Qed.

(** ** [read_header] *)

Lemma read_header_bad_magic r word tail m :
  is_open r -> reader_wf r -> rest r = word ++ tail ->
  unpack_u32 word = Ok m -> m <> MAGIC ->
  raises read_header r (ValueError msg_invalid_uasset) (advance 4 r).
Proof.
  intros Ho Hw Hr Hm Hne. unfold raises, read_header.
  rewrite (bind_returns _ _ _ _ _ (read_uint32_prefix r Ho Hw word tail m Hr Hm)).
  by destruct (Z.eqb_spec m MAGIC).
Qed.

(** C3. When the first four bytes do not read as the magic number,
    [read_header] raises [ValueError("Not a valid .uasset file")], which the
    specification calls [InvalidFormat]; the four bytes stay consumed. *)
Theorem read_header_invalid_magic r word tail m :
  is_open r -> reader_wf r -> rest r = word ++ tail ->
  unpack_u32 word = Ok m -> m <> MAGIC ->
  raises read_header r (ValueError msg_invalid_uasset) (advance 4 r) /\
  classify (ValueError msg_invalid_uasset) = InvalidFormat /\
  rest (advance 4 r) = tail.
Proof.
  intros Ho Hw Hr Hm Hne. split; [by eapply read_header_bad_magic|]. split; [done|].
  destruct (step_prefix r word tail Ho Hw Hr) as (_ & _ & Hr').
  apply unpack_u32_Ok in Hm as [Hlen _].
  by replace (zlength word) with 4 in Hr' by (unfold zlength; lia).
Qed.

Lemma read_header_invalid_magic_witness :
  raises read_header (reader_on [x69; x6e; x76; x61; x6c; x69; x64])
    (ValueError msg_invalid_uasset) (advance 4 (reader_on [x69; x6e; x76; x61; x6c; x69; x64])) /\
  classify (ValueError msg_invalid_uasset) = InvalidFormat /\
  rest (advance 4 (reader_on [x69; x6e; x76; x61; x6c; x69; x64])) = [x6c; x69; x64].
Proof.
  apply (read_header_invalid_magic _ [x69; x6e; x76; x61] [x6c; x69; x64] 1635151465).
  - apply reader_on_open.
  - apply reader_on_wf.
  - reflexivity.
  - reflexivity.
  - discriminate.
Defined.

(** On a file laid out as the magic number and four 32-bit words,
    [read_header] returns the five fields in order, the magic number as the
    text [0xc1832a9e], and consumes exactly twenty bytes. *)
Theorem read_header_ok r lv l3 fv fs tail :
  is_open r -> reader_wf r ->
  Forall word_ok [lv; l3; fv; fs] ->
  rest r = layout [MAGIC; lv; l3; fv; fs] ++ tail ->
  returns read_header r (header_dict lv l3 fv fs) (advance 20 r) /\
  rest (advance 20 r) = tail /\
  dict_get "magic" (header_dict lv l3 fv fs) = Some (PStr "0xc1832a9e").
Proof.
  intros Ho Hw Hall Hr. rewrite !Forall_cons in Hall.
  destruct Hall as (Hlv & Hl3 & Hfv & Hfs & _).
  unfold returns, read_header. read_word. rewrite Z.eqb_refl. cbn [negb].
  do 4 read_word. rewrite !advance_advance in *. done.
Qed.

Lemma read_header_ok_witness :
  returns read_header (reader_on (layout [MAGIC; 1; 2; 3; 100] ++ [xff]))
    (header_dict 1 2 3 100)
    (advance 20 (reader_on (layout [MAGIC; 1; 2; 3; 100] ++ [xff]))) /\
  rest (advance 20 (reader_on (layout [MAGIC; 1; 2; 3; 100] ++ [xff]))) = [xff] /\
  dict_get "magic" (header_dict 1 2 3 100) = Some (PStr "0xc1832a9e").
Proof.
  apply read_header_ok.
  - apply reader_on_open.
  - apply reader_on_wf.
  - repeat constructor; unfold word_ok; lia.
  - reflexivity.
Defined.

(** ** [read_metadata] *)

(** [read_metadata] decodes the twelve bytes at the cursor as three
    32-bit words, wherever the cursor is: it validates nothing and does not
    depend on [read_header] having been called. *)
Theorem read_metadata_ok r fl ec bs tail :
  is_open r -> reader_wf r ->
  Forall word_ok [fl; ec; bs] ->
  rest r = layout [fl; ec; bs] ++ tail ->
  returns read_metadata r (metadata_dict fl ec bs) (advance 12 r) /\
  rest (advance 12 r) = tail.
Proof.
  intros Ho Hw Hall Hr. rewrite !Forall_cons in Hall.
  destruct Hall as (Hfl & Hec & Hbs & _).
  unfold returns, read_metadata. do 3 read_word.
  rewrite !advance_advance in *. done.
Qed.

(** Called first, on a valid file, it reports the magic number as the flags
    and two version fields as count and size. *)
Lemma read_metadata_ok_witness :
  returns read_metadata (reader_on (layout [MAGIC; 1; 2; 3; 100]))
    (metadata_dict MAGIC 1 2)
    (advance 12 (reader_on (layout [MAGIC; 1; 2; 3; 100]))) /\
  rest (advance 12 (reader_on (layout [MAGIC; 1; 2; 3; 100]))) = layout [3; 100].
Proof.
  apply (read_metadata_ok _ MAGIC 1 2 (layout [3; 100])).
  - apply reader_on_open.
  - apply reader_on_wf.
  - repeat constructor; unfold word_ok, MAGIC; lia.
  - reflexivity.
Defined.

(** ** Header and metadata in sequence *)

(** C1. The round trip of the specification: on a file that holds the magic
    number and seven 32-bit words, [read_header] followed by [read_metadata]
    returns the seven values that were written, in order, and consumes the
    thirty-two bytes. *)
Theorem header_metadata_roundtrip r lv l3 fv fs fl ec bs tail :
  is_open r -> reader_wf r ->
  Forall word_ok [lv; l3; fv; fs; fl; ec; bs] ->
  rest r = layout [MAGIC; lv; l3; fv; fs; fl; ec; bs] ++ tail ->
  returns (h <- read_header ;; m <- read_metadata ;; ret (h, m)) r
    (header_dict lv l3 fv fs, metadata_dict fl ec bs) (advance 32 r) /\
  rest (advance 32 r) = tail.
Proof.
  intros Ho Hw Hall Hr. rewrite !Forall_cons in Hall.
  destruct Hall as (Hlv & Hl3 & Hfv & Hfs & Hfl & Hec & Hbs & _).
  unfold returns, read_header, read_metadata. rewrite !bind_assoc.
  read_word. rewrite Z.eqb_refl. cbn [negb]. rewrite !bind_assoc.
  do 4 (read_word; rewrite ?bind_assoc). rewrite bind_ret_l, !bind_assoc.
  do 3 (read_word; rewrite ?bind_assoc). rewrite !bind_ret_l.
  rewrite !advance_advance in *. done.
Qed.

Lemma header_metadata_roundtrip_witness :
  returns (h <- read_header ;; m <- read_metadata ;; ret (h, m))
    (reader_on (layout [MAGIC; 1; 2; 3; 100; 1; 10; 1000]))
    (header_dict 1 2 3 100, metadata_dict 1 10 1000)
    (advance 32 (reader_on (layout [MAGIC; 1; 2; 3; 100; 1; 10; 1000]))) /\
  rest (advance 32 (reader_on (layout [MAGIC; 1; 2; 3; 100; 1; 10; 1000]))) = [].
Proof.
  apply (header_metadata_roundtrip _ 1 2 3 100 1 10 1000 []).
  - apply reader_on_open.
  - apply reader_on_wf.
  - repeat constructor; unfold word_ok; lia.
  - reflexivity.
Defined.

(** C34. A file that starts with the magic number and ends before its
    thirty-second byte makes the sequence fail with [struct.error], a
    [DecodeError], wherever it ends: there is no partial result and no
    [ValueError].  Twenty-four bytes after the magic number, which the
    specification calls enough, are four too few. *)
Theorem truncated_asset_decode_error r ws extra :
  is_open r -> reader_wf r ->
  Forall word_ok ws -> (length ws < 7)%nat -> zlength extra < 4 ->
  rest r = layout (MAGIC :: ws) ++ extra ->
  (exists r', raises (h <- read_header ;; m <- read_metadata ;; ret (h, m)) r
                (StructError msg_unpack_4) r') /\
  classify (StructError msg_unpack_4) = DecodeError /\
  exn_isinstance (StructError msg_unpack_4) CValueError = false.
Proof.
  intros Ho Hw Hall Hlen Hlt Hr. split; [|done].
  by apply (decode_truncated (fun h m => ret (h, m)) r ws extra).
Qed.

Lemma truncated_asset_decode_error_witness :
  (exists r', raises (h <- read_header ;; m <- read_metadata ;; ret (h, m))
                (reader_on (layout [MAGIC; 1; 2; 3; 100; 1; 10]))
                (StructError msg_unpack_4) r') /\
  classify (StructError msg_unpack_4) = DecodeError /\
  exn_isinstance (StructError msg_unpack_4) CValueError = false.
Proof.
  apply (truncated_asset_decode_error _ [1; 2; 3; 100; 1; 10] []).
  - apply reader_on_open.
  - apply reader_on_wf.
  - repeat constructor; unfold word_ok; lia.
  - simpl. lia.
  - reflexivity.
  - reflexivity.
Defined.

(** ** The byte order of the magic number *)



(** The fixture that the tests of the repository write is not accepted
    by the reader that they test: opening it and calling [read_header], as
    [test_unreal_asset_reader_header] does, raises the [ValueError] that
    [test_invalid_unreal_asset_file] expects of an invalid file. *)
Theorem test_fixture_rejected :
  (with_reader {[ "test.uasset" := test_unreal_asset_file ]} read_header
     (__init__ "test.uasset")).1 = Raise (ValueError msg_invalid_uasset).
Proof. reflexivity. Qed.

(** ** No partial results *)

(** C40. Whatever the file holds, [read_header] either raises or returns a
    dictionary with exactly the five fields, in order, whose magic is
    [0xc1832a9e] and whose other values are numbers of 32 bits. *)
Theorem read_header_all_or_nothing r d r' :
  returns read_header r d r' ->
  exists lv l3 fv fs,
    d = header_dict lv l3 fv fs /\ Forall word_ok [lv; l3; fv; fs] /\
    dict_keys d = ["magic"; "legacy_version"; "legacy_ue3_version";
                   "file_version_ue4"; "file_size"].
Proof.
  unfold read_header. intros (m & r1 & _ & H)%returns_bind_inv.
  destruct (Z.eqb_spec m MAGIC) as [->|]; [|done]. cbn [negb] in H.
  apply returns_bind_inv in H as (lv & r2 & Hlv%read_uint32_word_ok & H).
  apply returns_bind_inv in H as (l3 & r3 & Hl3%read_uint32_word_ok & H).
  apply returns_bind_inv in H as (fv & r4 & Hfv%read_uint32_word_ok & H).
  apply returns_bind_inv in H as (fs & r5 & Hfs%read_uint32_word_ok & H).
  apply returns_ret_inv in H as [-> _]. exists lv, l3, fv, fs.
  split; [done|]. split; [|done].
  repeat (constructor; [assumption|]). constructor.
Qed.

Lemma read_header_all_or_nothing_witness :
  exists lv l3 fv fs,
    header_dict 1 2 3 100 = header_dict lv l3 fv fs /\
    Forall word_ok [lv; l3; fv; fs] /\
    dict_keys (header_dict 1 2 3 100) =
      ["magic"; "legacy_version"; "legacy_ue3_version";
       "file_version_ue4"; "file_size"].
Proof.
  apply (read_header_all_or_nothing
           (reader_on (layout [MAGIC; 1; 2; 3; 100]))
           (header_dict 1 2 3 100)
           (advance 20 (reader_on (layout [MAGIC; 1; 2; 3; 100])))).
  reflexivity.
Defined.

(** ** The name table *)

(** The loop of [read_name_table] runs once for each name that the count
    announces and not at all for a count that is zero or negative: when the
    call returns, the list has [max(0, count)] names, and the count, a
    signed 32-bit number, bounds it below [2^31]. *)
Theorem read_name_table_length r names r' :
  returns read_name_table r names r' ->
  exists count r1,
    returns read_int32 r count r1 /\
    length names = Z.to_nat count /\ zlength names = Z.max 0 count /\
    zlength names < 2 ^ 31.
Proof.
  unfold read_name_table.
  intros (count & r1 & Hc & Hl%repeat_collect_length)%returns_bind_inv.
  exists count, r1. split; [done|].
  apply returns_bind_inv in Hc as (data & r0 & _ & [Hc _]%returns_lift_inv).
  apply unpack_i32_Ok in Hc as [Hlen ->].
  pose proof (to_signed_range 32 (le_decode data) ltac:(lia)
                (le_decode_4_range data Hlen)) as Hrange.
  unfold zlength. rewrite Hl. split; [done|]. lia.
Qed.

Lemma read_name_table_length_witness :
  exists count r1,
    returns read_int32 (reader_on demo_name_table) count r1 /\
    length [[97; 98]; [72]] = Z.to_nat count /\
    zlength [[97; 98]; [72]] = Z.max 0 count /\
    zlength [[97; 98]; [72]] < 2 ^ 31.
Proof.
  apply (read_name_table_length (reader_on demo_name_table) [[97; 98]; [72]]
           (advance 17 (reader_on demo_name_table))).
  reflexivity.
Defined.

(** A count that is zero or negative gives the empty table, and only the
    four bytes of the count are consumed. *)
Theorem read_name_table_empty r hdr tail count :
  is_open r -> reader_wf r -> rest r = hdr ++ tail ->
  unpack_i32 hdr = Ok count -> count <= 0 ->
  returns read_name_table r [] (advance 4 r).
Proof.
  intros Ho Hw Hr Hc Hle. unfold returns, read_name_table.
  rewrite (bind_returns _ _ _ _ _ (read_int32_prefix r Ho Hw hdr tail count Hr Hc)).
  by replace (Z.to_nat count) with 0%nat by lia.
Qed.

Lemma read_name_table_empty_witness :
  returns read_name_table (reader_on [xff; xff; xff; xff; x61]) []
    (advance 4 (reader_on [xff; xff; xff; xff; x61])).
Proof.
  apply (read_name_table_empty _ [xff; xff; xff; xff] [x61] (-1)).
  - apply reader_on_open.
  - apply reader_on_wf.
  - reflexivity.
  - reflexivity.
  - lia.
Defined.

(** ** The decoder implements its contract *)

(** A sequence of unsigned reads refines the same sequence of the contract. *)
Ltac refines_words :=
  repeat (apply refines_bind; [apply refines_read_uint32|]; intros ?).

(** C39. [read_header] and [read_metadata] implement the decoder of the
    specification over the contract of the cursor reader: same fields, same
    kind of failure ([InvalidFormat] for a wrong magic number,
    [DecodeError] for a file that ends too soon), same cursor afterwards. *)
Theorem decoder_implements_contract :
  refines read_header c_read_header /\ refines read_metadata c_read_metadata.
Proof.
  split; [|refines_words; apply refines_ret].
  apply refines_bind; [apply refines_read_uint32|]. intros m.
  destruct (negb (m =? MAGIC)); [apply (refines_raise (ValueError msg_invalid_uasset))|].
  refines_words. apply refines_ret.
Qed.
