(* ===== verification/Session.v ===== *)
(** * The decoding session of the front-ends, against the interface

    The route and both tools do the same thing with a reader: inside a
    [with] block they call [read_header], then [read_metadata], and build
    their answer from the two dictionaries.  This file states that session
    for any class that implements the interface [Decoder] and proves what
    the front-ends rely on from the promises of the interface alone: the
    answer is built from two dictionaries, and a failure is the failure to
    open the file or a failure of decoding, never anything else. *)

From Stdlib Require Import ZArith Lia Strings.Byte.
From stdpp Require Import base tactics option list numbers strings gmap.
From S2P Require Import Prelude Errors Bytes FileIO Text Values Cursor Reader Unreal.

#[local] Open Scope string_scope.
#[local] Open Scope list_scope.
#[local] Open Scope Z_scope.
#[local] Open Scope exst_scope.

(** [header = reader.read_header(); metadata = reader.read_metadata()] and
    an answer made of both. *)
Definition decode_then `{D : Decoder} {B} (f : pydict -> pydict -> B) :
    exst exn BinaryReader B :=
  header <- dec_read_header ;;
  metadata <- dec_read_metadata ;;
  ret (f header metadata).

#[export] Hint Unfold decode_then : exst.

Section Session.
Context `{D : Decoder}.
Context {B : Type} (f : pydict -> pydict -> B).

Lemma decode_then_ready : preserves ready (decode_then f).
Proof.
  unfold decode_then. apply preserves_bind; [apply dec_header_ready|]. intros h.
  apply preserves_bind; [apply dec_metadata_ready|]. intros m. apply preserves_ret.
Qed.

(** The session raises what its two calls raise. *)
Lemma decode_then_raises_only (P : exn -> Prop) :
  raises_only ready P dec_read_header -> raises_only ready P dec_read_metadata ->
  raises_only ready P (decode_then f).
Proof.
  intros Hh Hm. unfold decode_then.
  apply raises_only_bind; [apply dec_header_ready | done |]. intros h.
  apply raises_only_bind; [apply dec_metadata_ready | done |].
  intros m. apply raises_only_ret.
Qed.

Lemma decode_then_returns r b r' :
  returns (decode_then f) r b r' -> exists h m, b = f h m.
Proof.
  intros (h & r1 & _ & (m & r2 & _ & [-> _]%returns_ret_inv)%returns_bind_inv)%returns_bind_inv.
  eauto.
Qed.

(** A session that returns was run on a file that exists and answers with
    something made of two dictionaries. *)
Lemma session_returns fs path b :
  (with_reader fs (decode_then f) (__init__ path)).1 = Ok b ->
  is_Some (fs !! path) /\ exists h m, b = f h m.
Proof.
  rewrite with_reader_outcome. destruct (fs !! path) as [c|] eqn:Hc; [|done].
  destruct (returns_or_raises (decode_then f) (opened path c))
    as [(b' & r' & Hb)|(e & r' & Hb)]; rewrite Hb; [|done].
  intros [= <-]. split; [done|]. by eapply decode_then_returns.
Qed.

(** A session that raises could not open the file, or raises what one of
    the two calls raises inside a block. *)
Lemma session_raises (P : exn -> Prop) fs path e :
  raises_only ready P dec_read_header -> raises_only ready P dec_read_metadata ->
  (with_reader fs (decode_then f) (__init__ path)).1 = Raise e ->
  (fs !! path = None /\ e = FileNotFoundError path) \/ (is_Some (fs !! path) /\ P e).
Proof.
  intros Hh Hm. rewrite with_reader_outcome.
  destruct (fs !! path) as [c|] eqn:Hc; [|intros [= <-]; by left].
  destruct (returns_or_raises (decode_then f) (opened path c))
    as [(b' & r' & Hb)|(e' & r' & Hb)]; rewrite Hb; [done|].
  intros [= <-]. right. split; [done|].
  eapply (decode_then_raises_only P Hh Hm); [|done].
  split; [apply opened_open | apply opened_wf].
Qed.


End Session.

(** ** The session of the Unreal decoder on a well-formed file *)

Section UnrealSession.
Context (fs : filesystem) (path : string).
Context (lv l3 fv fsz fl ec bs : Z) (tail : bytes).
Context (Hall : Forall word_ok [lv; l3; fv; fsz; fl; ec; bs]).
Context (Hfile : fs !! path = Some (layout [MAGIC; lv; l3; fv; fsz; fl; ec; bs] ++ tail)).
Context {B : Type} (f : pydict -> pydict -> B).

(** The body of the block gets the two dictionaries. *)
Lemma decode_body :
  returns (decode_then (D:=UnrealAssetReader) f)
    (opened path (layout [MAGIC; lv; l3; fv; fsz; fl; ec; bs] ++ tail))
    (f (header_dict lv l3 fv fsz) (metadata_dict fl ec bs))
    (advance 32 (opened path (layout [MAGIC; lv; l3; fv; fsz; fl; ec; bs] ++ tail))).
Proof using Hall.
  apply (Forall_app _ [lv; l3; fv; fsz] [fl; ec; bs]) in Hall as [Hh Hm].
  unfold returns, decode_then. cbn [dec_read_header dec_read_metadata UnrealAssetReader].
  destruct (bind_read_header
              (fun header => metadata <- read_metadata ;; ret (f header metadata))
              (opened path _) lv l3 fv fsz [fl; ec; bs] tail
              (opened_open _ _) (opened_wf _ _) Hh eq_refl) as (-> & Ho & Hw & Hr).
  destruct (bind_read_metadata
              (fun metadata => ret (f (header_dict lv l3 fv fsz) metadata))
              _ fl ec bs [] tail Ho Hw Hm Hr) as (-> & _).
  by rewrite advance_advance.
Qed.

Lemma decode_session :
  (with_reader fs (decode_then (D:=UnrealAssetReader) f) (__init__ path)).1
  = Ok (f (header_dict lv l3 fv fsz) (metadata_dict fl ec bs)).
Proof using Hall Hfile. by rewrite with_reader_outcome, Hfile, decode_body. Qed.

End UnrealSession.

(** A fact about the session of the Unreal decoder, in the terms of a
    front-end, whose block spells the two calls out. *)
Ltac spell_session H :=
  unfold decode_then in H;
  cbn [dec_read_header dec_read_metadata UnrealAssetReader] in H.
