(* ===== verification/Writer.v ===== *)
(** * The writer of the format: round trips of [read_string], [read_name_table] and [read_float]

    Nothing under [src/] writes the format.  This file states what a writer
    puts for a string and for a table of names (a signed 32-bit length
    prefix, then the encoded text; a negative prefix for UTF-16, counting
    code units) and proves that the reader returns what was written: the
    text without its trailing null characters, with the cursor just behind
    the record.  A binary32 number, written as the four bytes of
    [Bytes.pack_f32], is read back by [read_float]. *)

From Stdlib Require Import ZArith Lia Strings.Byte Floats.SpecFloat.
From stdpp Require Import base tactics option list numbers strings.
From S2P Require Import Prelude Errors Bytes FileIO Text Cursor Reader Unreal.

#[local] Open Scope string_scope.
#[local] Open Scope list_scope.
#[local] Open Scope Z_scope.
#[local] Open Scope exst_scope.

(** ** Records *)

(** A string in a one-byte-per-unit codec: the number of bytes, then the
    bytes. *)
Definition string_record (c : codec) (s : ustring) : bytes :=
  i32_bytes (zlength (codec_encode c s)) ++ codec_encode c s.

(** A string in UTF-16: minus the number of code units, then the bytes. *)
Definition wide_string_record (s : ustring) : bytes :=
  i32_bytes (- zlength (s ≫= utf16_units)) ++ encode_utf16le s.

(** The strings of a name table: UTF-8 or UTF-16, as the writer chose. *)
Inductive fstring : Type :=
| Narrow (s : ustring)
| Wide (s : ustring).

Definition fstring_text (n : fstring) : ustring :=
  match n with Narrow s | Wide s => s end.

Definition fstring_record (n : fstring) : bytes :=
  match n with
  | Narrow s => string_record Utf8 s
  | Wide s => wide_string_record s
  end.

(** What can be written: scalar values, and a length that fits the prefix. *)
Definition writable (n : fstring) : Prop :=
  Forall (fun c => is_scalar c = true) (fstring_text n) /\
  match n with
  | Narrow s => zlength (encode_utf8 s) < 2 ^ 31
  | Wide s => zlength (s ≫= utf16_units) < 2 ^ 31
  end.

(** A table of names: the count, then the records. *)
Definition name_table_record (names : list fstring) : bytes :=
  i32_bytes (zlength names) ++ mjoin (fstring_record <$> names).

(** A string with the terminator that the format's writers append. *)
Definition terminated (s : ustring) : ustring := s ++ [0].

(** A floating-point field: the four bytes of the number, and the numbers
    that the field can hold. *)
Definition float_record (x : spec_float) : bytes := pack_f32 x.

Definition is_binary32 (x : spec_float) : Prop := valid_binary 24 128 x = true.

(** Two names, the second with a character outside the Basic Multilingual
    Plane. *)
Definition demo_names : list fstring :=
  [Narrow (terminated [97; 98]); Wide (terminated [128512])].

(** ** One string *)

Section OneString.
Context (r : BinaryReader) (Ho : is_open r) (Hw : reader_wf r).

Lemma zlength_string_record c s :
  zlength (string_record c s) = 4 + zlength (codec_encode c s).
Proof. unfold string_record. by rewrite zlength_app, zlength_i32_bytes. Qed.

Lemma zlength_wide_string_record s :
  zlength (wide_string_record s) = 4 + zlength (encode_utf16le s).
Proof. unfold wide_string_record. by rewrite zlength_app, zlength_i32_bytes. Qed.

(** An empty payload was written for the empty string only. *)
Lemma codec_encode_nil c s :
  encodable c s -> zlength (codec_encode c s) = 0 -> s = [].
Proof.
  intros Hs Hz. destruct (codec_encode c s) as [|b bs] eqn:E;
    [|unfold zlength in Hz; simpl in Hz; lia].
  pose proof (proj2 (codec_decode_iff c [] s) (conj Hs (eq_sym E))) as Hd.
  destruct c; cbv in Hd; congruence.
Qed.

Lemma read_string_record encoding c s tail :
  lookup_codec encoding = Some c -> encodable c s ->
  zlength (codec_encode c s) < 2 ^ 31 ->
  rest r = string_record c s ++ tail ->
  returns (read_string encoding) r (rstrip [0] s)
    (advance (zlength (string_record c s)) r) /\
  rest (advance (zlength (string_record c s)) r) = tail.
Proof using Ho Hw.
  intros Hc Hs Hlen Hr. pose proof (zlength_nonneg (codec_encode c s)) as Hn.
  unfold string_record in Hr. rewrite <- app_assoc in Hr.
  rewrite zlength_string_record.
  apply (read_string_branches r Ho Hw encoding _ _ tail
           (zlength (codec_encode c s)) s Hr);
    [apply unpack_i32_bytes; lia | left; by decide_tests |].
  destruct (Z.eqb_spec (zlength (codec_encode c s)) 0); [by eapply codec_encode_nil|].
  decide_tests. by apply bytes_decode_encode.
Qed.

Lemma read_wide_string_record encoding s tail :
  Forall (fun c => is_scalar c = true) s -> zlength (s ≫= utf16_units) < 2 ^ 31 ->
  rest r = wide_string_record s ++ tail ->
  returns (read_string encoding) r (rstrip [0] s)
    (advance (zlength (wide_string_record s)) r) /\
  rest (advance (zlength (wide_string_record s)) r) = tail.
Proof using Ho Hw.
  intros Hs Hlen Hr. pose proof (zlength_nonneg (s ≫= utf16_units)) as Hn.
  unfold wide_string_record in Hr. rewrite <- app_assoc in Hr.
  rewrite zlength_wide_string_record.
  apply (read_string_branches r Ho Hw encoding _ _ tail
           (- zlength (s ≫= utf16_units)) s Hr);
    [apply unpack_i32_bytes; lia | left; rewrite zlength_encode_utf16le; case_tests |].
  destruct (Z.eqb_spec (- zlength (s ≫= utf16_units)) 0) as [Hz|Hnz].
  - destruct s as [|c s]; [done|]. apply Forall_cons in Hs as [[Hr' _]%is_scalar_spec _].
    revert Hz. unfold zlength, utf16_units. cbn [mbind list_bind].
    rewrite length_app. by case_tests.
  - decide_tests. by apply (bytes_decode_encode "utf-16-le" Utf16le).
Qed.

Lemma read_fstring_record n tail :
  writable n -> rest r = fstring_record n ++ tail ->
  returns (read_string "utf-8") r (rstrip [0] (fstring_text n))
    (advance (zlength (fstring_record n)) r) /\
  rest (advance (zlength (fstring_record n)) r) = tail.
Proof using Ho Hw.
  destruct n as [s|s]; intros [Hs Hlen]; simpl in *.
  - by apply (read_string_record "utf-8" Utf8).
  - by apply read_wide_string_record.
Qed.

End OneString.

(** ** A table of names *)

Lemma encodable_terminated c s : encodable c s -> encodable c (terminated s).
Proof.
  intros Hs. unfold terminated.
  destruct c; simpl in *; (apply Forall_app; split; [done|]);
    by repeat constructor.
Qed.

(** The loop of [read_name_table] on the records of the names, one after
    the other. *)
Lemma read_fstrings names r tail :
  is_open r -> reader_wf r -> Forall writable names ->
  rest r = mjoin (fstring_record <$> names) ++ tail ->
  returns (repeat_collect (length names) (read_string "utf-8")) r
    (rstrip [0] ∘ fstring_text <$> names)
    (advance (zlength (mjoin (fstring_record <$> names))) r) /\
  rest (advance (zlength (mjoin (fstring_record <$> names))) r) = tail.
Proof.
  revert r. induction names as [|n names IH]; intros r Ho Hw Hall Hr.
  - simpl in *. by rewrite advance_0.
  - apply Forall_cons in Hall as [Hn Hall].
    cbn [fmap list_fmap mjoin list_join] in *. rewrite <- app_assoc in Hr.
    destruct (read_fstring_record r Ho Hw n _ Hn Hr) as [Hret Hrest].
    destruct (step_prefix r (fstring_record n) _ Ho Hw Hr) as (Ho1 & Hw1 & _).
    destruct (IH _ Ho1 Hw1 Hall Hrest) as [Hret' Hrest'].
    rewrite zlength_app, <- advance_advance. split; [|done].
    unfold returns. cbn [repeat_collect length].
    rewrite (bind_returns _ _ _ _ _ Hret). by rewrite (bind_returns _ _ _ _ _ Hret').
Qed.

(** C20. A table of names that was written is read back: [read_name_table]
    returns the text of every name in order, without its trailing null
    characters, whether the name was written in UTF-8 or in UTF-16, and
    leaves the cursor just behind the table. *)
Theorem read_name_table_roundtrip names r tail :
  is_open r -> reader_wf r -> Forall writable names -> zlength names < 2 ^ 31 ->
  rest r = name_table_record names ++ tail ->
  returns read_name_table r (rstrip [0] ∘ fstring_text <$> names)
    (advance (zlength (name_table_record names)) r) /\
  rest (advance (zlength (name_table_record names)) r) = tail.
Proof.
  intros Ho Hw Hall Hlen Hr. pose proof (zlength_nonneg names) as Hn.
  unfold name_table_record in *. rewrite <- app_assoc in Hr.
  pose proof (unpack_i32_bytes (zlength names) ltac:(lia)) as Hcount.
  pose proof (read_int32_prefix r Ho Hw _ _ _ Hr Hcount) as Hret.
  destruct (step_prefix r _ _ Ho Hw Hr) as (Ho1 & Hw1 & Hr1).
  rewrite zlength_i32_bytes in *.
  destruct (read_fstrings names _ tail Ho1 Hw1 Hall Hr1) as [Hret' Hrest'].
  rewrite zlength_app, zlength_i32_bytes, <- advance_advance. split; [|done].
  unfold returns, read_name_table. rewrite (bind_returns _ _ _ _ _ Hret).
  unfold zlength. by rewrite Nat2Z.id.
Qed.

Lemma read_name_table_roundtrip_witness :
  returns read_name_table (reader_on (name_table_record demo_names ++ [xff]))
    (rstrip [0] ∘ fstring_text <$> demo_names)
    (advance (zlength (name_table_record demo_names))
       (reader_on (name_table_record demo_names ++ [xff]))) /\
  rest (advance (zlength (name_table_record demo_names))
          (reader_on (name_table_record demo_names ++ [xff]))) = [xff].
Proof.
  apply (read_name_table_roundtrip demo_names (reader_on _) [xff]);
    [apply reader_on_open | apply reader_on_wf | | reflexivity | apply rest_reader_on].
  repeat constructor.
Defined.

Example read_name_table_demo :
  (read_name_table (reader_on (name_table_record demo_names ++ [xff]))).1
  = Ok [[97; 98]; [128512]].
Proof. reflexivity. Qed.

(** ** Terminated strings *)

Lemma rstrip_terminated s : last s <> Some 0 -> rstrip [0] (terminated s) = s.
Proof.
  intros Hl. unfold terminated. rewrite rstrip_app by by repeat constructor.
  apply rstrip_unterminated. intros c Hc ->%list_elem_of_singleton. done.
Qed.

(** C18. What a writer puts for a string in the codec that the reader is
    asked for (the text, a terminating null character, and before them the
    number of bytes of both) is read back as the text, exactly, provided the
    text does not itself end in a null character. *)
Theorem read_string_roundtrip r encoding c s tail :
  is_open r -> reader_wf r ->
  lookup_codec encoding = Some c -> encodable c s -> last s <> Some 0 ->
  zlength (codec_encode c (terminated s)) < 2 ^ 31 ->
  rest r = string_record c (terminated s) ++ tail ->
  returns (read_string encoding) r s
    (advance (zlength (string_record c (terminated s))) r) /\
  rest (advance (zlength (string_record c (terminated s))) r) = tail.
Proof.
  intros Ho Hw Hc Hs Hl Hlen Hr.
  pose proof (read_string_record r Ho Hw encoding c _ tail Hc
                (encodable_terminated c s Hs) Hlen Hr) as H.
  by rewrite rstrip_terminated in H.
Qed.

Lemma read_string_roundtrip_witness :
  returns (read_string "utf-8")
    (reader_on (string_record Utf8 (terminated [72; 8364]) ++ [xff])) [72; 8364]
    (advance (zlength (string_record Utf8 (terminated [72; 8364])))
       (reader_on (string_record Utf8 (terminated [72; 8364]) ++ [xff]))) /\
  rest (advance (zlength (string_record Utf8 (terminated [72; 8364])))
          (reader_on (string_record Utf8 (terminated [72; 8364]) ++ [xff]))) = [xff].
Proof.
  apply (read_string_roundtrip (reader_on _) "utf-8" Utf8 [72; 8364] [xff]);
    [apply reader_on_open | apply reader_on_wf | reflexivity | by repeat constructor
    | discriminate | reflexivity | apply rest_reader_on].
Defined.

(** C19. The same for a string written in UTF-16 behind a negative length
    prefix: it is read back exactly, whatever encoding the reader was asked
    for, characters outside the Basic Multilingual Plane included. *)
Theorem read_wide_string_roundtrip r encoding s tail :
  is_open r -> reader_wf r ->
  Forall (fun c => is_scalar c = true) s -> last s <> Some 0 ->
  zlength (terminated s ≫= utf16_units) < 2 ^ 31 ->
  rest r = wide_string_record (terminated s) ++ tail ->
  returns (read_string encoding) r s
    (advance (zlength (wide_string_record (terminated s))) r) /\
  rest (advance (zlength (wide_string_record (terminated s))) r) = tail.
Proof.
  intros Ho Hw Hs Hl Hlen Hr.
  pose proof (read_wide_string_record r Ho Hw encoding _ tail
                (encodable_terminated Utf16le s Hs) Hlen Hr) as H.
  by rewrite rstrip_terminated in H.
Qed.

Lemma read_wide_string_roundtrip_witness :
  returns (read_string "ascii")
    (reader_on (wide_string_record (terminated [128512; 97]) ++ [xff])) [128512; 97]
    (advance (zlength (wide_string_record (terminated [128512; 97])))
       (reader_on (wide_string_record (terminated [128512; 97]) ++ [xff]))) /\
  rest (advance (zlength (wide_string_record (terminated [128512; 97])))
          (reader_on (wide_string_record (terminated [128512; 97]) ++ [xff]))) = [xff].
Proof.
  apply (read_wide_string_roundtrip (reader_on _) "ascii" [128512; 97] [xff]);
    [apply reader_on_open | apply reader_on_wf | by repeat constructor
    | discriminate | reflexivity | apply rest_reader_on].
Defined.

(** ** Numbers *)

(** C21. A binary32 number that is written as its four little-endian bytes
    is read back by [read_float]: every number of the format, the zeros, the
    infinities, the subnormal numbers and not-a-number included, with the
    cursor four bytes further. *)
Theorem read_float_roundtrip r x tail :
  is_open r -> reader_wf r -> is_binary32 x ->
  rest r = float_record x ++ tail ->
  returns read_float r x (advance 4 r) /\ rest (advance 4 r) = tail.
Proof.
  unfold float_record. intros Ho Hw Hv Hr.
  destruct (step_prefix r _ tail Ho Hw Hr) as (_ & _ & Hr').
  replace (zlength (pack_f32 x)) with 4 in Hr'
    by (unfold zlength; by rewrite length_pack_f32).
  split; [|done].
  pose proof (read_float_prefix r Ho Hw _ tail Hr (length_pack_f32 x)) as H.
  pose proof (unpack_pack_f32 x Hv) as [_ Hx]%unpack_f32_Ok. by rewrite <- Hx in H.
Qed.

Lemma read_float_roundtrip_witness :
  returns read_float (reader_on (float_record (S754_finite true 13 (-149)) ++ [xff]))
    (S754_finite true 13 (-149))
    (advance 4 (reader_on (float_record (S754_finite true 13 (-149)) ++ [xff]))) /\
  rest (advance 4 (reader_on (float_record (S754_finite true 13 (-149)) ++ [xff]))) = [xff].
Proof.
  apply (read_float_roundtrip (reader_on _) (S754_finite true 13 (-149)) [xff]);
    [apply reader_on_open | apply reader_on_wf | reflexivity | apply rest_reader_on].
Defined.

(** Two numbers of the format that are written as the same bytes are the
    same number. *)
Lemma float_record_inj x y :
  is_binary32 x -> is_binary32 y -> float_record x = float_record y -> x = y.
Proof.
  intros Hx Hy Heq. pose proof (unpack_pack_f32 x Hx) as H.
  unfold float_record in Heq. rewrite Heq, (unpack_pack_f32 y Hy) in H. congruence.
Qed.

(** ** What the round trip does not keep *)

(** A text that ends in a null character is not read back: its record and
    the record of the text without that character are different bytes that
    [read_string] reads as the same string. *)
Theorem trailing_null_not_read_back :
  string_record Utf8 [97; 0] <> string_record Utf8 [97] /\
  (read_string "utf-8" (reader_on (string_record Utf8 [97; 0]))).1 = Ok [97] /\
  (read_string "utf-8" (reader_on (string_record Utf8 [97]))).1 = Ok [97].
Proof. by split_and!. Qed.

(** The negative length prefix counts 16-bit code units, not characters: a
    character outside the Basic Multilingual Plane counts twice. *)
Theorem wide_prefix_counts_code_units :
  unpack_i32 (take 4 (wide_string_record [128512])) = Ok (-2) /\
  (read_string "utf-8" (reader_on (wide_string_record [128512]))).1 = Ok [128512].
Proof. by split. Qed.
