(* ===== verification/Utils.v ===== *)
(** * Helpers and configuration: [utils.py] and [config.py]

    [get_file_size], [read_file_header] (which peeks at the start of an open
    file and puts the offset back) and [detect_file_format] (which compares
    the first four bytes with a magic constant), and the constants of
    [Config].  The last theorems relate [detect_file_format] to
    [read_header]: the two disagree on every file. *)

From Stdlib Require Import ZArith Lia Strings.Byte Strings.Ascii.
From stdpp Require Import base tactics option list numbers strings gmap.
From S2P Require Import Prelude Errors Bytes FileIO Text Values Cursor Reader Unreal.

#[local] Open Scope string_scope.
#[local] Open Scope list_scope.
#[local] Open Scope Z_scope.
#[local] Open Scope exst_scope.

(** ** [utils.py] *)

Definition get_file_size (fs : filesystem) (file_path : string) : outcome exn Z :=
  getsize fs file_path.

Definition read_file_header (size : Z) : exst exn file_obj bytes :=
  current_pos <- file_tell ;;
  (file_seek 0 ;;;
   header <- file_read size ;;
   (file_seek current_pos ;;;
    ret header)).

(** The magic constant of [detect_file_format] and of [Config]. *)
Definition magic_bytes : bytes := default [] (bytes_fromhex "C1832A9E").

Definition detect_file_format (header : bytes) : string :=
  if zlength header <? 4 then "unknown"
  else if bool_decide (take 4 header = magic_bytes) then "unreal"
  else "unknown".

(** ** [config.py] *)

(** [str.lower()] on ASCII letters. *)
Definition ascii_lower (c : ascii) : ascii :=
  let n := N_of_ascii c in
  if ((65 <=? n) && (n <=? 90))%N then ascii_of_N (n + 32) else c.

Fixpoint str_lower (s : string) : string :=
  match s with
  | EmptyString => EmptyString
  | String c s' => String (ascii_lower c) (str_lower s')
  end.

(** [os.getenv("DEBUG", "False").lower() == "true"] *)
Definition DEBUG (env : gmap string string) : bool :=
  bool_decide (str_lower (default "False" (env !! "DEBUG")) = "true").

Definition MAX_FILE_SIZE : Z := 1024 * 1024 * 100.

Record format_entry : Type := mk_format {
  extensions : list string;
  magic : bytes
}.

Definition SUPPORTED_FORMATS : list (string * format_entry) :=
  [("unreal", mk_format [".uasset"] magic_bytes)].

#[export] Hint Unfold read_file_header : exst.

(** ** [read_file_header] *)

(** [read_file_header] returns the first [size] bytes of the file, fewer
    when the file is shorter, and leaves the file object as it found it,
    wherever its offset was. *)
Theorem read_file_header_restores size f :
  f_closed f = false -> file_wf f -> 0 <= size ->
  returns (read_file_header size) f (ztake size (f_content f)) f.
Proof.
  intros Hopen Hwf Hsize. destruct f as [c off cl]. simpl in *. subst.
  unfold file_wf in Hwf. simpl in Hwf. exst_unfold. simpl.
  replace (size <? -1) with false by lia. replace (size =? -1) with false by lia.
  replace (off <? 0) with false by lia. reflexivity.
Qed.

Lemma read_file_header_restores_witness :
  returns (read_file_header 4) (mk_file [x01; x02; x03; x04; x05; x06] 5 false)
    (ztake 4 (f_content (mk_file [x01; x02; x03; x04; x05; x06] 5 false)))
    (mk_file [x01; x02; x03; x04; x05; x06] 5 false).
Proof.
  apply read_file_header_restores; [reflexivity | unfold file_wf; simpl; lia | lia].
Defined.

(** ** [detect_file_format] *)

Lemma magic_bytes_eq : magic_bytes = [xc1; x83; x2a; x9e].
Proof. reflexivity. Qed.

Lemma detect_unreal_iff header :
  detect_file_format header = "unreal" <-> exists tail, header = magic_bytes ++ tail.
Proof.
  unfold detect_file_format. rewrite magic_bytes_eq. split.
  - destruct (Z.ltb_spec (zlength header) 4); [done|].
    case_bool_decide as Ht; [|done]. intros _. exists (drop 4 header).
    by rewrite <- Ht, take_drop.
  - intros [tail ->]. simpl.
    destruct (Z.ltb_spec (zlength (xc1 :: x83 :: x2a :: x9e :: tail)) 4) as [Hlt|];
      [|done].
    unfold zlength in Hlt. simpl in Hlt. lia.
Qed.

(** [detect_file_format] answers "unreal" exactly for the byte strings
    that start with [C1 83 2A 9E], and "unknown" for all others, those
    shorter than four bytes included. *)
Lemma detect_cases header :
  (detect_file_format header = "unreal" /\ take 4 header = [xc1; x83; x2a; x9e]) \/
  (detect_file_format header = "unknown" /\ take 4 header <> [xc1; x83; x2a; x9e]).
Proof.
  unfold detect_file_format. rewrite magic_bytes_eq.
  destruct (Z.ltb_spec (zlength header) 4) as [Hlt|Hge].
  - right. split; [done|]. intros Ht. apply (f_equal length) in Ht.
    rewrite length_take in Ht. unfold zlength in Hlt. cbn [length] in Ht. lia.
  - case_bool_decide; [by left | by right].
Qed.



Example fixture_detected_and_rejected :
  detect_file_format test_unreal_asset_file = "unreal" /\
  (read_header (reader_on test_unreal_asset_file)).1 = Raise (ValueError msg_invalid_uasset).
Proof. by split. Qed.

Example accepted_header_is_unknown :
  (read_header (reader_on (layout [MAGIC; 1; 2; 3; 100]))).1 = Ok (header_dict 1 2 3 100) /\
  detect_file_format (layout [MAGIC; 1; 2; 3; 100]) = "unknown".
Proof. by split. Qed.

(** ** [Config] *)

Lemma max_file_size_value : MAX_FILE_SIZE = 104857600.
Proof. reflexivity. Qed.

(** The debug flag is set by any capitalisation of "true" and by nothing
    else; unset, it is off. *)
Lemma debug_default : DEBUG ∅ = false.
Proof. reflexivity. Qed.

Example debug_true : DEBUG {[ "DEBUG" := "TrUe" ]} = true.
Proof. reflexivity. Qed.

Example debug_one : DEBUG {[ "DEBUG" := "1" ]} = false.
Proof. reflexivity. Qed.

(** The registry and the detector use the same magic bytes. *)
Lemma supported_formats_magic :
  magic <$> (SUPPORTED_FORMATS.*2) = [magic_bytes].
Proof. reflexivity. Qed.
