(* ===== verification/Tool.v ===== *)
(** * The tool front-end: [main.py]

    [handle_list_tools] is the list of the two tools; [handle_call_tool]
    dispatches on the name of the tool, checks the arguments, runs the
    decoder inside a [with] block and turns every outcome, exceptions
    included, into one text.  [format_unreal_asset_data] lays the fields out.

    The arguments of a call are a JSON object or nothing; the schema of both
    tools declares every property a string, so the object is a finite map
    from names to strings.  The reader object lives for one call: a handler
    is a computation over the state of that reader, run from [__init__], and
    [handle_call_tool] keeps its result only.  The second tool selects a
    class at run time and calls the methods of that class; the object, with
    its methods, is an instance of the interface [Decoder].  What a session
    can answer comes from [Session.v].  The server that calls the two
    functions is in [Server.v]. *)

From Stdlib Require Import ZArith Lia Strings.Byte Strings.Ascii.
From stdpp Require Import base tactics option list numbers strings gmap pretty.
From S2P Require Import Prelude Errors Bytes FileIO Text Values Cursor Reader Unreal.
From S2P Require Import Session Utils.

#[local] Open Scope string_scope.
#[local] Open Scope list_scope.
#[local] Open Scope Z_scope.
#[local] Open Scope exst_scope.

(** ** Text *)

(** The line feed of the f-strings. *)
Definition nl : string := String "010" EmptyString.

(** [s.endswith(suffix)] *)
Definition endswith (s suffix : string) : bool :=
  let n := String.length s in
  let m := String.length suffix in
  (m <=? n)%nat && String.eqb (String.substring (n - m) m s) suffix.

(** [types.TextContent(type="text", text=...)] *)
Record TextContent : Type := mk_TextContent {
  type : string;
  text : string
}.

#[export] Instance TextContent_eq_dec : EqDecision TextContent.
Proof. solve_decision. Defined.

Definition text_content (s : string) : list TextContent := [mk_TextContent "text" s].

(** ** [handle_list_tools] *)

Record property_schema : Type := mk_property {
  prop_type : string;
  prop_description : string;
  prop_enum : list string;
  prop_default : option string
}.

Record Tool : Type := mk_Tool {
  name : string;
  description : string;
  properties : list (string * property_schema);
  required : list string
}.

Definition handle_list_tools : list Tool :=
  [mk_Tool "read-unreal-asset"
     "Read and analyze Unreal Engine .uasset file structure"
     [("file_path", mk_property "string" "Path to the .uasset file" [] None)]
     ["file_path"];
   mk_Tool "read-binary-metadata"
     "Read generic binary file metadata and structure"
     [("file_path", mk_property "string" "Path to the binary file" [] None);
      ("format", mk_property "string" "File format specification (if known)"
                   ["auto"; "unreal"; "custom"] (Some "auto"))]
     ["file_path"]].

(** ** [format_unreal_asset_data] *)

(** [data.get(section, {}).get(field, 'N/A')], as the f-string prints it.
    On a dictionary of dictionaries neither [get] nor the formatting of a
    value raises, so the [except] clause of the function is never taken and
    the function is its [try] block. *)
Definition field_text (data : list (string * pydict)) (section field : string) : string :=
  pyval_str (dict_get_default field (PStr "N/A") (dict_get_default section [] data)).

Definition format_unreal_asset_data (data : list (string * pydict)) : string :=
  "Unreal Asset Analysis:" +:+ nl +:+ nl +:+
  "Header Information:" +:+ nl +:+
  "Magic: " +:+ field_text data "header" "magic" +:+ nl +:+
  "Legacy Version: " +:+ field_text data "header" "legacy_version" +:+ nl +:+
  "UE4 Version: " +:+ field_text data "header" "file_version_ue4" +:+ nl +:+
  "File Size: " +:+ field_text data "header" "file_size" +:+ " bytes" +:+ nl +:+ nl +:+
  "Metadata:" +:+ nl +:+
  "Flags: " +:+ field_text data "metadata" "flags" +:+ nl +:+
  "Element Count: " +:+ field_text data "metadata" "element_count" +:+ nl +:+
  "Bulk Data Size: " +:+ field_text data "metadata" "bulk_data_size" +:+ " bytes" +:+ nl +:+
  "---".

(** ** [handle_call_tool] *)

(** [not arguments]: no object, or an empty one. *)
Definition no_arguments (arguments : option (gmap string string)) : bool :=
  match arguments with
  | None => true
  | Some args => bool_decide (args = ∅)
  end.

(** [not file_path] for the result of [arguments.get("file_path")]. *)
Definition no_value (v : option string) : bool :=
  match v with
  | None => true
  | Some s => bool_decide (s = EmptyString)
  end.

(** The branch of the tool [read-unreal-asset], from the [try] on. *)
Definition read_unreal_asset (fs : filesystem) (file_path : string) :
    exst exn BinaryReader (list TextContent) :=
  catch
    (with_reader fs
       (header <- read_header ;;
        metadata <- read_metadata ;;
        ret (text_content
               (format_unreal_asset_data [("header", header); ("metadata", metadata)]))))
    (except_clauses
       [(CFileNotFoundError,
         fun _ => ret (text_content ("Error: File not found - " +:+ file_path)));
        (CValueError,
         fun e => ret (text_content ("Error: " +:+ exn_str e)));
        (CException,
         fun e => ret (text_content ("Unexpected error: " +:+ exn_str e)))]).

(** The classes that [reader_class] can name. *)
Inductive reader_class : Type :=
| ClsUnrealAssetReader
| ClsBinaryReader.

#[export] Instance reader_class_eq_dec : EqDecision reader_class.
Proof. solve_decision. Defined.

(** [reader_class(file_path)]: the object, which carries the methods of its
    class.  [BinaryReader] has abstract methods and cannot be instantiated. *)
Definition instantiate (cls : reader_class) : exst exn BinaryReader Decoder :=
  match cls with
  | ClsUnrealAssetReader => ret UnrealAssetReader
  | ClsBinaryReader => raise (TypeError msg_abstract)
  end.

Definition select_reader_class (file_path format_type : string) : reader_class :=
  if bool_decide (format_type = "unreal")
     || (bool_decide (format_type = "auto") && endswith file_path ".uasset")
  then ClsUnrealAssetReader else ClsBinaryReader.

(** The text of a successful generic analysis. *)
Definition format_binary_analysis (file_path : string) (file_size : Z)
    (format_type : string) (header metadata : pydict) : string :=
  "Binary File Analysis:" +:+ nl +:+ nl +:+
  "File Path: " +:+ file_path +:+ nl +:+
  "File Size: " +:+ pretty file_size +:+ " bytes" +:+ nl +:+
  "Format: " +:+ format_type +:+ nl +:+ nl +:+
  (if pydict_truthy header
   then "Header Information:" +:+ nl +:+ pydict_repr header +:+ nl +:+ nl
   else EmptyString) +:+
  (if pydict_truthy metadata
   then "Metadata Information:" +:+ nl +:+ pydict_repr metadata
   else EmptyString).

(** The branch of the tool [read-binary-metadata], from the [try] on.  The
    methods that are called are those of the class that was selected.
    Every class that can be instantiated has both methods, so the two
    [hasattr] tests hold. *)
Definition read_binary_metadata (fs : filesystem) (file_path format_type : string) :
    exst exn BinaryReader (list TextContent) :=
  catch
    (reader <- instantiate (select_reader_class file_path format_type) ;;
     with_reader fs
       (file_size <- lift_outcome (getsize fs file_path) ;;
        header <- @dec_read_header reader ;;
        metadata <- @dec_read_metadata reader ;;
        ret (text_content
               (format_binary_analysis file_path file_size format_type header metadata))))
    (except_clauses
       [(CFileNotFoundError,
         fun _ => ret (text_content ("Error: File not found - " +:+ file_path)));
        (CException,
         fun e => ret (text_content ("Error analyzing file: " +:+ exn_str e)))]).

Definition handle_call_tool (fs : filesystem) (name : string)
    (arguments : option (gmap string string)) : outcome exn (list TextContent) :=
  if no_arguments arguments then Ok (text_content "Missing arguments for the request")
  else
    let args := default ∅ arguments in
    if bool_decide (name = "read-unreal-asset") then
      let file_path := args !! "file_path" in
      if no_value file_path then Ok (text_content "Missing file_path parameter")
      else
        let file_path := default EmptyString file_path in
        (read_unreal_asset fs file_path (__init__ file_path)).1
    else if bool_decide (name = "read-binary-metadata") then
      let file_path := args !! "file_path" in
      if no_value file_path then Ok (text_content "Missing file_path parameter")
      else
        let file_path := default EmptyString file_path in
        let format_type := default "auto" (args !! "format") in
        (read_binary_metadata fs file_path format_type (__init__ file_path)).1
    else Ok (text_content ("Unknown tool: " +:+ name)).

#[export] Hint Unfold read_unreal_asset read_binary_metadata instantiate : exst.

(** An outcome that is one text item. *)
Definition is_text (o : outcome exn (list TextContent)) : Prop :=
  exists s, o = Ok (text_content s).

(** Sample calls: a file system with a well-formed asset of thirty-two bytes,
    in the byte order that [read_header] accepts, and the arguments that
    name it. *)
Definition asset_fs : filesystem :=
  {[ "a.uasset" := layout [MAGIC; 1; 2; 3; 100; 1; 10; 1000];
     "b.bin" := layout [MAGIC; 1; 2; 3; 100; 1; 10; 1000];
     "short.uasset" := layout [MAGIC; 1; 2] ]}.

Definition file_args (path : string) : gmap string string :=
  {[ "file_path" := path ]}.

Definition path_args (path : string) : option (gmap string string) :=
  Some (file_args path).

(** ** Dispatch *)

Lemma no_arguments_lookup (args : gmap string string) k v :
  args !! k = Some v -> no_arguments (Some args) = false.
Proof.
  intros H. simpl. case_bool_decide; [|done]. subst. by rewrite lookup_empty in H.
Qed.

Lemma no_value_Some path : path <> EmptyString -> no_value (Some path) = false.
Proof. intros. simpl. by case_bool_decide. Qed.

(** A call with a usable file path is the branch of the tool that it names. *)
Lemma call_read_unreal_asset fs (args : gmap string string) path :
  args !! "file_path" = Some path -> path <> EmptyString ->
  handle_call_tool fs "read-unreal-asset" (Some args) =
    (read_unreal_asset fs path (__init__ path)).1.
Proof.
  intros Ha Hp. unfold handle_call_tool.
  rewrite (no_arguments_lookup _ _ _ Ha). cbn [from_option id].
  rewrite bool_decide_eq_true_2 by done. rewrite Ha, (no_value_Some _ Hp). done.
Qed.

Lemma call_read_binary_metadata fs (args : gmap string string) path :
  args !! "file_path" = Some path -> path <> EmptyString ->
  handle_call_tool fs "read-binary-metadata" (Some args) =
    (read_binary_metadata fs path (default "auto" (args !! "format")) (__init__ path)).1.
Proof.
  intros Ha Hp. unfold handle_call_tool.
  rewrite (no_arguments_lookup _ _ _ Ha). cbn [from_option id].
  rewrite bool_decide_eq_false_2 by done. rewrite bool_decide_eq_true_2 by done.
  rewrite Ha, (no_value_Some _ Hp). done.
Qed.

(** ** Every outcome is a text *)

Lemma is_text_ok s : is_text (Ok (text_content s)).
Proof. by exists s. Qed.

#[export] Hint Resolve is_text_ok : exst.

(** A [try] statement whose body returns texts only and whose last clause
    catches [Exception] and returns a text, yields a text. *)
Lemma catch_is_text {S} (m : exst exn S (list TextContent)) clauses s :
  (forall v s', returns m s v s' -> is_text (Ok v)) ->
  Forall (fun ch => forall e s, is_text (ch.2 e s).1) clauses ->
  last (clauses.*1) = Some CException ->
  is_text (catch m (except_clauses clauses) s).1.
Proof.
  intros Hm Hall Hlast. apply (catch_all (fun x => is_text x.1)); [done|].
  intros e s' _. by apply (except_clauses_all (fun x => is_text x.1)).
Qed.

(** What a block returns is what its body returned. *)
Lemma with_reader_returns_inv {A} fs (body : exst exn BinaryReader A) r v r' :
  returns (with_reader fs body) r v r' -> exists r1 r2, returns body r1 v r2.
Proof.
  unfold with_reader. intros (_ & r1 & _ & H)%returns_bind_inv.
  unfold returns, finally in H. destruct (body r1) as [[a|e] r2] eqn:E.
  - destruct (__exit__ r2) as [[[]|e'] r3]; [|done]. injection H as -> _. eauto.
  - by destruct (__exit__ r2) as [[[]|e'] r3].
Qed.

Lemma read_unreal_asset_is_text fs path r : is_text (read_unreal_asset fs path r).1.
Proof.
  apply catch_is_text; [|repeat constructor; intros; apply is_text_ok|done].
  intros v s' (r1 & r2 & H)%with_reader_returns_inv.
  apply returns_bind_inv in H as (h & r3 & _ & H).
  apply returns_bind_inv in H as (m & r4 & _ & H).
  apply returns_ret_inv in H as [-> _]. apply is_text_ok.
Qed.

Lemma read_binary_metadata_is_text fs path format_type r :
  is_text (read_binary_metadata fs path format_type r).1.
Proof.
  apply catch_is_text; [|repeat constructor; intros; apply is_text_ok|done].
  intros v s' (D & r0 & _ & (r1 & r2 & H)%with_reader_returns_inv)%returns_bind_inv.
  apply returns_bind_inv in H as (sz & r3 & _ & H).
  apply returns_bind_inv in H as (h & r4 & _ & H).
  apply returns_bind_inv in H as (m & r5 & _ & H).
  apply returns_ret_inv in H as [-> _]. apply is_text_ok.
Qed.

Lemma handle_call_tool_is_text fs name arguments :
  is_text (handle_call_tool fs name arguments).
Proof.
  unfold handle_call_tool. destruct (no_arguments arguments); [by eexists|].
  cbn zeta. repeat case_bool_decide; try (by eexists);
    destruct (no_value _); try (by eexists).
  - apply read_unreal_asset_is_text.
  - apply read_binary_metadata_is_text.
Qed.

(** C9. The handler never raises and never answers anything but one text item:
    every failure of the decoder, of the runtime under it and of the
    arguments is turned into a line of text. *)
Theorem handle_call_tool_total fs name arguments :
  exists s, handle_call_tool fs name arguments = Ok (text_content s).
Proof. apply handle_call_tool_is_text. Qed.

Lemma handle_call_tool_total_witness :
  exists s, handle_call_tool asset_fs "read-unreal-asset" (path_args "short.uasset") =
            Ok (text_content s).
Proof. apply handle_call_tool_total. Defined.

(** A call with arguments and a name that is not listed is answered with
    that name. *)
Lemma call_unlisted fs n (args : gmap string string) :
  args <> ∅ -> n ∉ name <$> handle_list_tools ->
  handle_call_tool fs n (Some args) = Ok (text_content ("Unknown tool: " +:+ n)).
Proof.
  intros Hargs Hn. unfold handle_call_tool. simpl.
  rewrite bool_decide_eq_false_2 by done.
  rewrite !bool_decide_eq_false_2; [done|..]; intros ->; apply Hn; set_solver.
Qed.

(** ** The tool [read-unreal-asset] *)

Lemma lookup_file_args path : file_args path !! "file_path" = Some path.
Proof. apply lookup_singleton_eq. Qed.

Section ReadUnrealAsset.
Context (fs : filesystem) (args : gmap string string) (path : string).
Context (Ha : args !! "file_path" = Some path) (Hp : path <> EmptyString).

(** The call of the tool on a file that holds the eight words of an asset,
    and on a path that names no file. *)
Lemma call_asset_found lv l3 fv fsz fl ec bs tail :
  Forall word_ok [lv; l3; fv; fsz; fl; ec; bs] ->
  fs !! path = Some (layout [MAGIC; lv; l3; fv; fsz; fl; ec; bs] ++ tail) ->
  handle_call_tool fs "read-unreal-asset" (Some args) =
    Ok (text_content (format_unreal_asset_data
          [("header", header_dict lv l3 fv fsz); ("metadata", metadata_dict fl ec bs)])).
Proof using Ha Hp.
  intros Hall Hfile. rewrite (call_read_unreal_asset _ _ _ Ha Hp).
  pose proof (decode_session fs path _ _ _ _ _ _ _ tail Hall Hfile
                (fun h m => text_content
                   (format_unreal_asset_data [("header", h); ("metadata", m)]))) as Hs.
  spell_session Hs. unfold read_unreal_asset. by rewrite catch_outcome, Hs.
Qed.

Lemma call_asset_missing :
  fs !! path = None ->
  handle_call_tool fs "read-unreal-asset" (Some args) =
    Ok (text_content ("Error: File not found - " +:+ path)).
Proof using Ha Hp.
  intros Hfile. rewrite (call_read_unreal_asset _ _ _ Ha Hp).
  unfold read_unreal_asset, catch. by rewrite (with_reader_missing _ _ _ Hfile).
Qed.

(** C22. On a well-formed asset the tool answers the text that
    [format_unreal_asset_data] makes of the decoded header and metadata. *)
Theorem read_unreal_asset_tool_ok lv l3 fv fsz fl ec bs tail :
  Forall word_ok [lv; l3; fv; fsz; fl; ec; bs] ->
  fs !! path = Some (layout [MAGIC; lv; l3; fv; fsz; fl; ec; bs] ++ tail) ->
  handle_call_tool fs "read-unreal-asset" (Some args) =
    Ok (text_content (format_unreal_asset_data
          [("header", header_dict lv l3 fv fsz); ("metadata", metadata_dict fl ec bs)])).
Proof using Ha Hp. apply call_asset_found. Qed.

(** C23. The three failures of the tool, each with the line that reports it: a
    path that names no file, a file whose first word is not the magic
    number, and a file that ends before the last field. *)
Theorem read_unreal_asset_tool_errors :
  (fs !! path = None ->
   handle_call_tool fs "read-unreal-asset" (Some args) =
     Ok (text_content ("Error: File not found - " +:+ path))) /\
  (forall word tail m,
     fs !! path = Some (word ++ tail) -> unpack_u32 word = Ok m -> m <> MAGIC ->
     handle_call_tool fs "read-unreal-asset" (Some args) =
       Ok (text_content "Error: Not a valid .uasset file")) /\
  (forall ws extra,
     Forall word_ok ws -> (length ws < 7)%nat -> zlength extra < 4 ->
     fs !! path = Some (layout (MAGIC :: ws) ++ extra) ->
     handle_call_tool fs "read-unreal-asset" (Some args) =
       Ok (text_content "Unexpected error: unpack requires a buffer of 4 bytes")).
Proof using Ha Hp.
  split; [apply call_asset_missing|].
  rewrite (call_read_unreal_asset _ _ _ Ha Hp). unfold read_unreal_asset. split.
  - intros word tail m Hfile Hm Hne.
    pose proof (read_header_bad_magic _ word tail m (opened_open path _)
                  (opened_wf path _) eq_refl Hm Hne) as Hr.
    by rewrite (catch_raises _ _ _ _ _
                  (with_reader_raises _ _ _ _ _ _ Hfile (bind_raises _ _ _ _ _ Hr))).
  - intros ws extra Hall Hlen Hlt Hfile.
    destruct (decode_truncated
                (fun h m => ret (text_content
                   (format_unreal_asset_data [("header", h); ("metadata", m)])))
                (opened path _) ws extra (opened_open _ _) (opened_wf _ _)
                Hall Hlen Hlt eq_refl) as (r' & Hr).
    by rewrite (catch_raises _ _ _ _ _ (with_reader_raises _ _ _ _ _ _ Hfile Hr)).
Qed.

End ReadUnrealAsset.

Lemma read_unreal_asset_tool_ok_witness :
  handle_call_tool asset_fs "read-unreal-asset" (path_args "a.uasset") =
    Ok (text_content (format_unreal_asset_data
          [("header", header_dict 1 2 3 100); ("metadata", metadata_dict 1 10 1000)])).
Proof.
  apply (read_unreal_asset_tool_ok asset_fs (file_args "a.uasset") "a.uasset"
           ltac:(vm_compute; reflexivity) ltac:(done) 1 2 3 100 1 10 1000 []).
  - repeat constructor; unfold word_ok; lia.
  - reflexivity.
Defined.

(** The text of that answer. *)
Example read_unreal_asset_text :
  handle_call_tool asset_fs "read-unreal-asset" (path_args "a.uasset") =
  Ok (text_content
        ("Unreal Asset Analysis:" +:+ nl +:+ nl +:+
         "Header Information:" +:+ nl +:+
         "Magic: 0xc1832a9e" +:+ nl +:+
         "Legacy Version: 1" +:+ nl +:+
         "UE4 Version: 3" +:+ nl +:+
         "File Size: 100 bytes" +:+ nl +:+ nl +:+
         "Metadata:" +:+ nl +:+
         "Flags: 1" +:+ nl +:+
         "Element Count: 10" +:+ nl +:+
         "Bulk Data Size: 1000 bytes" +:+ nl +:+
         "---")).
Proof. reflexivity. Qed.

Lemma read_unreal_asset_tool_errors_witness :
  handle_call_tool asset_fs "read-unreal-asset" (path_args "short.uasset") =
    Ok (text_content "Unexpected error: unpack requires a buffer of 4 bytes").
Proof.
  apply (proj2 (proj2 (read_unreal_asset_tool_errors asset_fs
                         (file_args "short.uasset") "short.uasset"
                         ltac:(vm_compute; reflexivity) ltac:(done))) [1; 2] []).
  - repeat constructor; unfold word_ok; lia.
  - simpl. lia.
  - reflexivity.
  - reflexivity.
Defined.

(** The answers of the block of the tool: the formatted fields, or one of
    three error lines. *)
Lemma read_unreal_asset_cases fs path :
  exists s, (read_unreal_asset fs path (__init__ path)).1 = Ok (text_content s) /\
    ((exists h m, s = format_unreal_asset_data [("header", h); ("metadata", m)]) \/
     fs !! path = None /\ s = "Error: File not found - " +:+ path \/
     s = "Error: Not a valid .uasset file" \/
     s = "Unexpected error: unpack requires a buffer of 4 bytes").
Proof.
  unfold read_unreal_asset. rewrite catch_outcome.
  destruct (with_reader fs _ (__init__ path)).1 as [b|e] eqn:E.
  - apply (session_returns (D:=UnrealAssetReader)
             (fun h m => text_content
                (format_unreal_asset_data [("header", h); ("metadata", m)]))) in E
      as [_ (h & m & ->)]. eauto 6.
  - apply (session_raises (D:=UnrealAssetReader) _ unreal_failure fs path e
             read_header_failures read_metadata_failures) in E
      as [[? ->]|[_ [->| ->]]]; eexists; (split; [reflexivity|]); auto.
Qed.

(** C24. The tool [read-unreal-asset] has six answers and no other: two for
    arguments that are missing, the formatted fields of a header and of a
    metadata dictionary, and one line for each of the three ways in which
    the session fails. *)
Theorem read_unreal_asset_answers fs arguments :
  exists s, handle_call_tool fs "read-unreal-asset" arguments = Ok (text_content s) /\
    (s = "Missing arguments for the request" \/
     s = "Missing file_path parameter" \/
     (exists h m, s = format_unreal_asset_data [("header", h); ("metadata", m)]) \/
     (exists path, fs !! path = None /\ s = "Error: File not found - " +:+ path) \/
     s = "Error: Not a valid .uasset file" \/
     s = "Unexpected error: unpack requires a buffer of 4 bytes").
Proof.
  unfold handle_call_tool. destruct (no_arguments arguments); [by eauto|].
  rewrite bool_decide_eq_true_2 by done.
  destruct (no_value (default ∅ arguments !! "file_path")); [by eauto|].
  destruct (read_unreal_asset_cases fs (default EmptyString (default ∅ arguments !! "file_path")))
    as (s & -> & [H|[H|[H|H]]]); eauto 10.
Qed.

(** The text leaves out one field of the header: whatever
    [legacy_ue3_version] is, the answer is the same. *)
Theorem format_omits_legacy_ue3_version lv l3 l3' fv fsz md :
  format_unreal_asset_data [("header", header_dict lv l3 fv fsz); ("metadata", md)] =
  format_unreal_asset_data [("header", header_dict lv l3' fv fsz); ("metadata", md)].
Proof. reflexivity. Qed.

(** On the fixture of the repository's tests the tool reports an invalid
    file. *)
Theorem tool_rejects_test_fixture :
  handle_call_tool {[ "test.uasset" := test_unreal_asset_file ]} "read-unreal-asset"
    (path_args "test.uasset") = Ok (text_content "Error: Not a valid .uasset file").
Proof. reflexivity. Qed.

(** ** The tool [read-binary-metadata] *)

Lemma select_reader_class_base path format_type :
  select_reader_class path format_type = ClsBinaryReader <->
  format_type <> "unreal" /\ (format_type <> "auto" \/ endswith path ".uasset" = false).
Proof.
  unfold select_reader_class. repeat case_bool_decide; simpl;
    destruct (endswith path ".uasset"); naive_solver.
Qed.

Section ReadBinaryMetadata.
Context (fs : filesystem) (args : gmap string string) (path format_type : string).
Context (Ha : args !! "file_path" = Some path) (Hp : path <> EmptyString).
Context (Hf : default "auto" (args !! "format") = format_type).

(** C26. The generic reader does not exist: whenever the tool does not select
    the Unreal decoder, it selects the abstract class, which cannot be
    instantiated, and the answer is that error, whether or not the file
    exists and whatever it holds. *)
Theorem generic_reader_not_instantiable :
  format_type <> "unreal" ->
  format_type <> "auto" \/ endswith path ".uasset" = false ->
  handle_call_tool fs "read-binary-metadata" (Some args) =
    Ok (text_content ("Error analyzing file: " +:+ msg_abstract)).
Proof using Ha Hp Hf.
  intros H1 H2. rewrite (call_read_binary_metadata _ _ _ Ha Hp), Hf.
  unfold read_binary_metadata, catch, bind.
  by rewrite (proj2 (select_reader_class_base path format_type) (conj H1 H2)).
Qed.

(** When the Unreal decoder is selected and the file is a well-formed
    asset, the answer holds the path, the size of the file, the format as it
    was asked for, and the two dictionaries as Python prints them. *)
Theorem read_binary_metadata_tool_ok lv l3 fv fsz fl ec bs tail :
  select_reader_class path format_type = ClsUnrealAssetReader ->
  Forall word_ok [lv; l3; fv; fsz; fl; ec; bs] ->
  fs !! path = Some (layout [MAGIC; lv; l3; fv; fsz; fl; ec; bs] ++ tail) ->
  handle_call_tool fs "read-binary-metadata" (Some args) =
    Ok (text_content
          (format_binary_analysis path (32 + zlength tail) format_type
             (header_dict lv l3 fv fsz) (metadata_dict fl ec bs))).
Proof using Ha Hp Hf.
  intros Hsel Hall Hfile. rewrite (call_read_binary_metadata _ _ _ Ha Hp), Hf.
  unfold read_binary_metadata. rewrite Hsel.
  assert (getsize fs path = Ok (32 + zlength tail)) as Hsize.
  { unfold getsize. rewrite Hfile, zlength_app, zlength_layout. done. }
  pose proof (decode_body path lv l3 fv fsz fl ec bs tail Hall
                (fun h m => text_content
                   (format_binary_analysis path (32 + zlength tail) format_type h m)))
    as Hbody.
  erewrite catch_returns; [done|]. unfold returns, instantiate. rewrite bind_ret_l.
  eapply with_reader_returns; [exact Hfile|].
  unfold returns. erewrite bind_returns; [exact Hbody|].
  unfold returns, lift_outcome. by rewrite Hsize.
Qed.

End ReadBinaryMetadata.

(** The answer is the last of three alternatives: a line that reports an
    exception with one of the listed texts. *)
Ltac error_line :=
  eexists; (split; [reflexivity|]); right; right;
  eexists; (split; [|reflexivity]); repeat constructor.

(** The answers of the block of the tool: the analysis, the line for a
    missing file, or the line that reports the exception of the decoder or
    of the instantiation. *)
Lemma read_binary_metadata_cases fs path format_type :
  exists s, (read_binary_metadata fs path format_type (__init__ path)).1
            = Ok (text_content s) /\
    ((exists size h m, s = format_binary_analysis path size format_type h m) \/
     fs !! path = None /\ s = "Error: File not found - " +:+ path \/
     exists msg, msg ∈ [msg_abstract; msg_invalid_uasset; msg_unpack_4] /\
                 s = "Error analyzing file: " +:+ msg).
Proof.
  unfold read_binary_metadata. rewrite catch_outcome.
  destruct (select_reader_class path format_type); unfold instantiate;
    [rewrite !bind_ret_l | rewrite !bind_raise_l; error_line].
  rewrite with_reader_outcome. destruct (fs !! path) as [c|] eqn:Hc; [|simpl; by eauto 8].
  unfold bind at 1, lift_outcome, getsize. rewrite Hc.
  destruct (returns_or_raises
              (decode_then (D:=UnrealAssetReader) (fun h m => text_content
                 (format_binary_analysis path (zlength c) format_type h m)))
              (opened path c)) as [(b & r' & Hb)|(e & r' & Hb)].
  - pose proof (decode_then_returns _ _ _ _ Hb) as (h & m & ->).
    unfold decode_then in Hb. rewrite Hb. eauto 8.
  - pose proof (decode_then_raises_only _ unreal_failure
                  read_header_failures read_metadata_failures _ _ _
                  (conj (opened_open _ _) (opened_wf _ _)) Hb) as [->| ->];
      unfold decode_then in Hb; rewrite Hb; error_line.
Qed.

(** C25. The tool [read-binary-metadata] answers the analysis, one of the two
    lines for missing arguments, the line for a missing file, or the line
    "Error analyzing file" with one of three texts: that the abstract class
    cannot be instantiated, that the file is not a valid asset, or that it
    ends too soon. *)
Theorem read_binary_metadata_answers fs arguments :
  exists s, handle_call_tool fs "read-binary-metadata" arguments = Ok (text_content s) /\
    (s = "Missing arguments for the request" \/
     s = "Missing file_path parameter" \/
     (exists path size format_type h m,
        s = format_binary_analysis path size format_type h m) \/
     (exists path, fs !! path = None /\ s = "Error: File not found - " +:+ path) \/
     exists msg, msg ∈ [msg_abstract; msg_invalid_uasset; msg_unpack_4] /\
                 s = "Error analyzing file: " +:+ msg).
Proof.
  unfold handle_call_tool. destruct (no_arguments arguments); [by eauto|].
  rewrite bool_decide_eq_false_2 by done. rewrite bool_decide_eq_true_2 by done.
  destruct (no_value (default ∅ arguments !! "file_path")); [by eauto|].
  destruct (read_binary_metadata_cases fs
              (default EmptyString (default ∅ arguments !! "file_path"))
              (default "auto" (default ∅ arguments !! "format")))
    as (s & -> & [(? & ? & ? & ->)|[[? ->]|(? & ? & ->)]]); eauto 12.
Qed.

Lemma generic_reader_not_instantiable_witness :
  handle_call_tool asset_fs "read-binary-metadata"
    (Some (<[ "format" := "custom" ]> (file_args "b.bin"))) =
    Ok (text_content ("Error analyzing file: " +:+ msg_abstract)).
Proof.
  apply (generic_reader_not_instantiable asset_fs _ "b.bin" "custom");
    [by vm_compute | done | by vm_compute | done | by left].
Defined.

(** The default format on a path without the extension: the same error. *)
Example binary_metadata_auto_bin :
  handle_call_tool asset_fs "read-binary-metadata" (path_args "b.bin") =
    Ok (text_content ("Error analyzing file: " +:+ msg_abstract)).
Proof. reflexivity. Qed.

Lemma read_binary_metadata_tool_ok_witness :
  handle_call_tool asset_fs "read-binary-metadata" (path_args "a.uasset") =
    Ok (text_content
          (format_binary_analysis "a.uasset" (32 + zlength (@nil byte)) "auto"
             (header_dict 1 2 3 100) (metadata_dict 1 10 1000))).
Proof.
  apply (read_binary_metadata_tool_ok asset_fs (file_args "a.uasset") "a.uasset" "auto"
           ltac:(by vm_compute) ltac:(done) ltac:(by vm_compute) 1 2 3 100 1 10 1000 []).
  - reflexivity.
  - repeat constructor; unfold word_ok; lia.
  - reflexivity.
Defined.

(** The text of that answer. *)
Example read_binary_metadata_text :
  handle_call_tool asset_fs "read-binary-metadata" (path_args "a.uasset") =
  Ok (text_content
        ("Binary File Analysis:" +:+ nl +:+ nl +:+
         "File Path: a.uasset" +:+ nl +:+
         "File Size: 32 bytes" +:+ nl +:+
         "Format: auto" +:+ nl +:+ nl +:+
         "Header Information:" +:+ nl +:+
         "{'magic': '0xc1832a9e', 'legacy_version': 1, 'legacy_ue3_version': 2, 'file_version_ue4': 3, 'file_size': 100}" +:+ nl +:+ nl +:+
         "Metadata Information:" +:+ nl +:+
         "{'flags': 1, 'element_count': 10, 'bulk_data_size': 1000}")).
Proof. reflexivity. Qed.

(** ** Listed tools and handled tools *)

(** Two answers differ when their texts differ from some character of
    their fixed beginnings on. *)
Ltac texts_differ :=
  let H := fresh "Htext" in
  intros [= H]; revert H; unfold format_unreal_asset_data, format_binary_analysis;
  cbn [String.app]; discriminate.

(** A tool that is listed has a branch: no answer to a call of it is the
    answer to an unknown tool. *)
Lemma listed_not_unknown fs n arguments :
  n ∈ name <$> handle_list_tools ->
  handle_call_tool fs n arguments <> Ok (text_content ("Unknown tool: " +:+ n)).
Proof.
  intros Hn. assert (n = "read-unreal-asset" \/ n = "read-binary-metadata") as [-> | ->]
    by set_solver.
  all: unfold handle_call_tool; destruct (no_arguments arguments); [texts_differ|].
  all: cbn [bool_decide decide_rel]; repeat case_bool_decide; try done.
  all: destruct (no_value _); [texts_differ|].
  - destruct (read_unreal_asset_cases fs
                (default EmptyString (default ∅ arguments !! "file_path")))
      as (s & -> & [(h & m & ->)|[[_ ->]|[->| ->]]]); texts_differ.
  - destruct (read_binary_metadata_cases fs
                (default EmptyString (default ∅ arguments !! "file_path"))
                (default "auto" (default ∅ arguments !! "format")))
      as (s & -> & [(? & ? & ? & ->)|[[? ->]|(? & ? & ->)]]); texts_differ.
Qed.

(** C27. The tools that are listed are the tools that are handled.  A call
    without arguments, or with an empty object, is answered before the name
    of the tool is looked at; a call with arguments is answered "Unknown
    tool" exactly when its name is not the name of a tool of
    [handle_list_tools]. *)
Theorem unknown_tool_iff_unlisted fs n (args : gmap string string) :
  handle_call_tool fs n None = Ok (text_content "Missing arguments for the request") /\
  handle_call_tool fs n (Some ∅) = Ok (text_content "Missing arguments for the request") /\
  (args <> ∅ ->
   (handle_call_tool fs n (Some args) = Ok (text_content ("Unknown tool: " +:+ n)) <->
    n ∉ name <$> handle_list_tools)).
Proof.
  split_and!; [done..|]. intros Hargs. split; [|by apply call_unlisted].
  intros Hcall Hn. by apply (listed_not_unknown fs n (Some args)).
Qed.

Lemma unknown_tool_iff_unlisted_witness :
  file_args "a.uasset" <> ∅ /\
  (handle_call_tool asset_fs "read-asset" (path_args "a.uasset") =
     Ok (text_content "Unknown tool: read-asset") <->
   "read-asset" ∉ name <$> handle_list_tools).
Proof.
  split; [apply insert_non_empty|].
  apply (proj2 (proj2 (unknown_tool_iff_unlisted asset_fs "read-asset"
                         (file_args "a.uasset")))), insert_non_empty.
Defined.

(** ** Release of the file *)

(** Both tools leave no file open, whatever the outcome of the call. *)
Theorem tools_release_file fs path format_type :
  is_released (read_unreal_asset fs path (__init__ path)).2 /\
  is_released (read_binary_metadata fs path format_type (__init__ path)).2.
Proof.
  unfold read_unreal_asset, read_binary_metadata.
  split; apply (catch_state is_released).
  - apply with_reader_released.
  - intros e. apply preserves_except_clauses.
    repeat constructor; intros e'; apply preserves_ret.
  - unfold bind, instantiate.
    destruct (select_reader_class path format_type); [apply with_reader_released | done].
  - intros e. apply preserves_except_clauses.
    repeat constructor; intros e'; apply preserves_ret.
Qed.
