(* ===== verification/Server.v ===== *)
(** * The stdio server: [server], the decorators and [main] in [main.py]

    [main.py] creates a [Server], registers [handle_list_tools] and
    [handle_call_tool] with the decorators [server.list_tools()] and
    [server.call_tool()], and [main] runs the server over the standard
    streams with the name, the version and the capabilities of the server.

    The server of the MCP library is modelled at its call sites: the
    handlers that a server holds, what the decorators register, how
    [get_capabilities] reads the registered handlers, and the loop of [run],
    which takes the requests that the session hands over one by one, looks
    up the handler of each and answers it.  The loop is an interaction tree:
    receiving a request, reading the file system and sending a response are
    events, and the loop ends when the stream of requests is closed.  The
    events are given their meaning over a world that holds the requests
    still to come, each with the file system of the moment at which it is
    handled, and the responses sent so far.

    The library starts one task per request; a handler of this program
    never awaits, so each runs to its end once started, and the model
    handles the requests in the order of their arrival.  Every response
    carries the identifier of its request.  The handshake of a session and
    the order that the session imposes on it are the library's; the model
    keeps the options that [main] passes for it. *)

From Stdlib Require Import ZArith Lia.
From stdpp Require Import base tactics option list strings gmap.
From S2P Require Import Prelude Errors FileIO Unreal Tool.
From ITree Require Import ITree ITreeFacts Events.State Events.StateFacts Props.Finite.

#[local] Open Scope string_scope.
#[local] Open Scope list_scope.

(** ** Requests and responses *)

(** The requests that reach the handlers of a server.  [OtherRequest] stands
    for the request types of the protocol for which this program registers
    nothing (resources, prompts, logging and the like). *)
Inductive client_request : Type :=
| PingRequest
| ListToolsRequest
| CallToolRequest (tool : string) (arguments : option (gmap string string))
| OtherRequest (method : string).

Inductive server_result : Type :=
| EmptyResult
| ListToolsResult (tools : list Tool)
| CallToolResult (content : list TextContent) (isError : bool).

Record ErrorData : Type := mk_ErrorData {
  code : Z;
  message : string
}.

Inductive response : Type :=
| Result (r : server_result)
| Error (e : ErrorData).

(** The identifier of a JSON-RPC request. *)
Definition request_id : Type := Z.

Definition METHOD_NOT_FOUND : Z := -32601.

(** ** The server object *)

(** A handler reads the file system of the moment and returns or raises. *)
Definition handler (A : Type) : Type := filesystem -> outcome exn A.

(** [Server]: its name and the handlers registered for the request types.
    A new server answers pings and nothing else. *)
Record Server : Type := mk_Server {
  srv_name : string;
  list_tools_handler : option (handler server_result);
  call_tool_handler :
    option (string -> option (gmap string string) -> handler server_result)
}.

Definition new_server (name : string) : Server := mk_Server name None None.

(** The decorator [server.list_tools()]: the registered handler wraps the
    list that the function returns. *)
Definition list_tools (func : list Tool) (s : Server) : Server :=
  mk_Server (srv_name s) (Some (fun _ => Ok (ListToolsResult func))) (call_tool_handler s).

(** The decorator [server.call_tool()]: the registered handler calls the
    function with the name and with the arguments, or an empty object when
    there are none; what the function returns is a result, what it raises is
    a result that is flagged as an error and holds the text of the
    exception. *)
Definition call_tool
    (func : filesystem -> string -> option (gmap string string) ->
            outcome exn (list TextContent)) (s : Server) : Server :=
  mk_Server (srv_name s) (list_tools_handler s)
    (Some (fun tool arguments fs =>
             match func fs tool (Some (default ∅ arguments)) with
             | Ok results => Ok (CallToolResult results false)
             | Raise e => Ok (CallToolResult (text_content (exn_str e)) true)
             end)).

(** [server = Server("binary_reader")] with the two decorated functions. *)
Definition server : Server :=
  call_tool handle_call_tool (list_tools handle_list_tools (new_server "binary_reader")).

(** The handler registered for the type of a request, applied to the
    request. *)
Definition lookup_handler (s : Server) (req : client_request) :
    option (handler server_result) :=
  match req with
  | PingRequest => Some (fun _ => Ok EmptyResult)
  | ListToolsRequest => list_tools_handler s
  | CallToolRequest tool arguments =>
      match call_tool_handler s with
      | Some h => Some (h tool arguments)
      | None => None
      end
  | OtherRequest _ => None
  end.

(** One request: the response of its handler, an error with code 0 and the
    text of the exception when the handler raises, and "Method not found"
    when no handler is registered. *)
Definition handle_request (s : Server) (fs : filesystem) (req : client_request) :
    response :=
  match lookup_handler s req with
  | Some h =>
      match h fs with
      | Ok r => Result r
      | Raise err => Error (mk_ErrorData 0 (exn_str err))
      end
  | None => Error (mk_ErrorData METHOD_NOT_FOUND "Method not found")
  end.

(** ** Capabilities and options *)

Record NotificationOptions : Type := mk_NotificationOptions {
  prompts_changed : bool;
  resources_changed : bool;
  tools_changed : bool
}.

(** [NotificationOptions()] *)
Definition default_notification_options : NotificationOptions :=
  mk_NotificationOptions false false false.

(** A capability is absent or has its [listChanged] flag. *)
Record ServerCapabilities : Type := mk_ServerCapabilities {
  experimental : gmap string string;
  cap_prompts : option bool;
  cap_resources : option bool;
  cap_tools : option bool
}.

(** [server.get_capabilities]: a capability is announced when the handler
    that lists its items is registered.  This server has no place for
    prompts or resources. *)
Definition get_capabilities (s : Server) (notification_options : NotificationOptions)
    (experimental_capabilities : gmap string string) : ServerCapabilities :=
  mk_ServerCapabilities experimental_capabilities None None
    (match list_tools_handler s with
     | Some _ => Some (tools_changed notification_options)
     | None => None
     end).

Record InitializationOptions : Type := mk_InitializationOptions {
  server_name : string;
  server_version : string;
  capabilities : ServerCapabilities
}.

(** ** The loop *)

(** What the loop does to the session and to the world around it. *)
Variant sessionE : Type -> Type :=
| Open (opts : InitializationOptions) : sessionE unit
| Incoming : sessionE (option (request_id * client_request))
| Respond (id : request_id) (r : response) : sessionE unit.

Variant worldE : Type -> Type :=
| Files : worldE filesystem.

Definition serverE : Type -> Type := sessionE +' worldE.

Definition session_event {T} (e : sessionE T) : itree serverE T := ITree.trigger (inl1 e).
Definition world_event {T} (e : worldE T) : itree serverE T := ITree.trigger (inr1 e).

(** One message: the handler runs on the file system as it is now and the
    response goes out under the identifier of the request. *)
Definition handle_message (s : Server) (id : request_id) (req : client_request) :
    itree serverE unit :=
  ITree.bind (world_event Files)
    (fun fs => session_event (Respond id (handle_request s fs req))).

(** One turn of [async for message in session.incoming_messages]. *)
Definition run_body (s : Server) (_ : unit) : itree serverE (unit + unit) :=
  ITree.bind (session_event Incoming) (fun m =>
    match m with
    | Some (id, req) => ITree.bind (handle_message s id req) (fun _ => Ret (inl tt))
    | None => Ret (inr tt)
    end).

(** [server.run(read_stream, write_stream, initialization_options)] *)
Definition run (s : Server) (opts : InitializationOptions) : itree serverE unit :=
  ITree.bind (session_event (Open opts)) (fun _ => ITree.iter (run_body s) tt).

(** The [InitializationOptions] that [main] builds. *)
Definition main_options : InitializationOptions :=
  mk_InitializationOptions "binary_reader" "0.1.0"
    (get_capabilities server default_notification_options ∅).

Definition main : itree serverE unit := run server main_options.

(** ** The world *)

(** The options of the open session, the requests still to come with the
    file system at the time of each, the file system now, and the responses
    sent. *)
Record world : Type := mk_world {
  session : option InitializationOptions;
  inbox : list (filesystem * (request_id * client_request));
  files : filesystem;
  outbox : list (request_id * response)
}.

Definition handle_session : sessionE ~> Monads.stateT world (itree void1) :=
  fun _ e w =>
    match e with
    | Open opts => Ret (mk_world (Some opts) (inbox w) (files w) (outbox w), tt)
    | Incoming =>
        match inbox w with
        | [] => Ret (w, None)
        | (fs, m) :: rest => Ret (mk_world (session w) rest fs (outbox w), Some m)
        end
    | Respond id r =>
        Ret (mk_world (session w) (inbox w) (files w) (outbox w ++ [(id, r)]), tt)
    end.

Definition handle_world : worldE ~> Monads.stateT world (itree void1) :=
  fun _ e w => match e with Files => Ret (w, files w) end.

Definition handle_io : serverE ~> Monads.stateT world (itree void1) :=
  fun _ e =>
    match e with
    | inl1 e => handle_session _ e
    | inr1 e => handle_world _ e
    end.

(** The server on a world. *)
Definition serve (t : itree serverE unit) (w : world) : itree void1 (world * unit) :=
  interp_state handle_io t w.

(** ** Reference: the answers as a function of the requests *)

Definition answer (s : Server) (m : filesystem * (request_id * client_request)) :
    request_id * response :=
  (m.2.1, handle_request s m.1 m.2.2).

Definition answers (s : Server) (msgs : list (filesystem * (request_id * client_request))) :
    list (request_id * response) :=
  answer s <$> msgs.

(** The world that a run leaves: the session open with its options, no
    request left, the file system of the last request, and one answer more
    for each request. *)
Definition final_world (s : Server) (opts : InitializationOptions) (w : world) : world :=
  mk_world (Some opts) [] (default (files w) (last (inbox w).*1)) (outbox w ++ answers s (inbox w)).

(** A response that reports a failure of a handler: a tool result flagged
    as an error by the decorator, or the error with code 0 that the server
    makes of an exception. *)
Definition is_failure (r : response) : bool :=
  match r with
  | Result (CallToolResult _ isError) => isError
  | Result _ => false
  | Error e => bool_decide (code e = 0%Z)
  end.

(** A sample session: the tools are listed, an asset is read, a request of
    another kind arrives, then the asset is read again after the file has
    been replaced by a shorter one. *)
Definition sample_inbox : list (filesystem * (request_id * client_request)) :=
  [(asset_fs, (1%Z, ListToolsRequest));
   (asset_fs, (2%Z, CallToolRequest "read-unreal-asset" (path_args "a.uasset")));
   (asset_fs, (3%Z, OtherRequest "resources/list"));
   ({[ "a.uasset" := [] ]}, (4%Z, CallToolRequest "read-unreal-asset" (path_args "a.uasset")))].

Definition sample_world : world := mk_world None sample_inbox ∅ [].

(** ** Running the events *)

Section Serve.
Context (s : Server).

Lemma serve_session {T} (e : sessionE T) w :
  interp_state handle_io (session_event e) w ≈ handle_session T e w.
Proof. unfold session_event. rewrite interp_state_trigger. reflexivity. Qed.

Lemma serve_world {T} (e : worldE T) w :
  interp_state handle_io (world_event e) w ≈ handle_world T e w.
Proof. unfold world_event. rewrite interp_state_trigger. reflexivity. Qed.

Lemma serve_handle_message id req w :
  interp_state handle_io (handle_message s id req) w ≈
  Ret (mk_world (session w) (inbox w) (files w)
         (outbox w ++ [(id, handle_request s (files w) req)]), tt).
Proof.
  unfold handle_message.
  rewrite interp_state_bind, serve_world. cbn. rewrite bind_ret_l. cbn.
  rewrite serve_session. reflexivity.
Qed.

(** One turn of the loop: the run is over when no request is left;
    otherwise the first request is answered on its file system and the loop
    goes on with the rest. *)
Lemma serve_loop_unfold w :
  interp_state handle_io (ITree.iter (run_body s) tt) w ≈
  match inbox w with
  | [] => Ret (w, tt)
  | (fs, (id, req)) :: rest =>
      interp_state handle_io (ITree.iter (run_body s) tt)
        (mk_world (session w) rest fs (outbox w ++ [(id, handle_request s fs req)]))
  end.
Proof.
  rewrite unfold_iter. unfold run_body at 1.
  rewrite bind_bind, interp_state_bind, serve_session. cbn.
  destruct (inbox w) as [|[fs [id req]] rest]; rewrite bind_ret_l; cbn.
  - rewrite bind_ret_l, interp_state_ret. reflexivity.
  - rewrite bind_bind, interp_state_bind, serve_handle_message, bind_ret_l. cbn.
    rewrite bind_ret_l, interp_state_tau, tau_eutt. reflexivity.
Qed.

(** The loop, by induction on the requests still to come. *)
Lemma serve_loop o msgs fs out :
  interp_state handle_io (ITree.iter (run_body s) tt) (mk_world o msgs fs out) ≈
  Ret (mk_world o [] (default fs (last msgs.*1)) (out ++ answers s msgs), tt).
Proof.
  revert fs out.
  induction msgs as [|[fs' [id req]] msgs IH]; intros fs out; rewrite serve_loop_unfold; cbn.
  - by rewrite app_nil_r.
  - rewrite IH, <- app_assoc. cbn. rewrite last_cons. destruct (last _); reflexivity.
Qed.

Lemma serve_run opts w : serve (run s opts) w ≈ Ret (final_world s opts w, tt).
Proof.
  unfold serve, run. rewrite interp_state_bind, serve_session. cbn.
  rewrite bind_ret_l. cbn. destruct w. by rewrite serve_loop.
Qed.

(** The same run counted in silent steps, which [burn] removes one by one:
    one for the end of the stream, four for each request (three events and
    the turn of the loop). *)
Lemma burn_loop_nil k o fs out :
  burn (2 + k) (interp_state handle_io (ITree.iter (run_body s) tt) (mk_world o [] fs out)) =
  Ret (mk_world o [] fs out, tt).
Proof. reflexivity. Qed.

Lemma burn_loop_cons k o fs' id req msgs fs out :
  burn (4 + k) (interp_state handle_io (ITree.iter (run_body s) tt)
                  (mk_world o ((fs', (id, req)) :: msgs) fs out)) =
  burn k (interp_state handle_io (ITree.iter (run_body s) tt)
            (mk_world o msgs fs' (out ++ [(id, handle_request s fs' req)]))).
Proof. reflexivity. Qed.

Lemma burn_loop k o msgs fs out :
  burn (4 * length msgs + 2 + k)
    (interp_state handle_io (ITree.iter (run_body s) tt) (mk_world o msgs fs out)) =
  Ret (mk_world o [] (default fs (last msgs.*1)) (out ++ answers s msgs), tt).
Proof.
  revert fs out. induction msgs as [|[fs' [id req]] msgs IH]; intros fs out.
  - cbn [length Nat.mul]. rewrite burn_loop_nil. cbn. by rewrite app_nil_r.
  - replace (4 * length ((fs', (id, req)) :: msgs) + 2 + k)%nat
      with (4 + (4 * length msgs + 2 + k))%nat by (cbn [length]; lia).
    rewrite burn_loop_cons, IH, <- app_assoc. cbn. rewrite last_cons. by destruct (last _).
Qed.

Lemma burn_open n opts w :
  burn (2 + n) (serve (run s opts) w) =
  burn (1 + n) (interp_state handle_io (ITree.iter (run_body s) tt)
                  (mk_world (Some opts) (inbox w) (files w) (outbox w))).
Proof. reflexivity. Qed.

Lemma burn_run opts w k :
  burn (4 * length (inbox w) + 3 + k) (serve (run s opts) w) =
  Ret (final_world s opts w, tt).
Proof.
  replace (4 * length (inbox w) + 3 + k)%nat
    with (2 + (4 * length (inbox w) + 1 + k))%nat by lia.
  rewrite burn_open.
  replace (1 + (4 * length (inbox w) + 1 + k))%nat
    with (4 * length (inbox w) + 2 + k)%nat by lia.
  apply burn_loop.
Qed.

(** The response to a request of the stream is among those of the world
    that the run leaves. *)
Lemma final_world_answer opts w fs id req :
  (fs, (id, req)) ∈ inbox w -> (id, handle_request s fs req) ∈ outbox (final_world s opts w).
Proof.
  intros Hin. cbn. apply elem_of_app. right.
  by apply (list_elem_of_fmap_2 (answer s)) in Hin.
Qed.

(** A capability is announced exactly when the request that lists its
    items has a handler. *)
Lemma capabilities_match_handlers notification_options experimental_capabilities fs :
  is_Some (cap_tools (get_capabilities s notification_options experimental_capabilities)) <->
  handle_request s fs ListToolsRequest <>
    Error (mk_ErrorData METHOD_NOT_FOUND "Method not found").
Proof.
  unfold get_capabilities, handle_request. cbn.
  destruct (list_tools_handler s) as [h|]; cbn.
  - split; [intros _|by eauto]. by destruct (h fs).
  - split; [by intros [? ?]|done].
Qed.

End Serve.

(** ** What the server of the program answers *)

(** The decorator passes an empty object for missing arguments; the
    function answers both in the same way. *)
Lemma handle_call_tool_or_empty fs tool arguments :
  handle_call_tool fs tool (Some (default ∅ arguments)) = handle_call_tool fs tool arguments.
Proof. by destruct arguments. Qed.

(** A call of a tool is answered with the text that [handle_call_tool]
    returns, not flagged as an error. *)
Lemma handle_request_call fs tool arguments :
  exists s, handle_call_tool fs tool arguments = Ok (text_content s) /\
    handle_request server fs (CallToolRequest tool arguments) =
      Result (CallToolResult (text_content s) false).
Proof.
  destruct (handle_call_tool_is_text fs tool arguments) as [s Hs]. exists s. split; [done|].
  unfold handle_request. cbn. by rewrite handle_call_tool_or_empty, Hs.
Qed.







(** The options with which [main] opens the session announce the tools and
    nothing else, without change notifications. *)
Example main_options_value :
  main_options =
    mk_InitializationOptions "binary_reader" "0.1.0"
      (mk_ServerCapabilities ∅ None None (Some false)).
Proof. reflexivity. Qed.

(** The sample session, run with fuel: four responses, under the
    identifiers of the requests.  The same call is answered differently once
    the file has changed. *)
Example sample_session :
  burn 40 (serve main sample_world) =
  Ret (mk_world (Some main_options) [] {[ "a.uasset" := [] ]}
         [(1%Z, Result (ListToolsResult handle_list_tools));
          (2%Z, Result (CallToolResult
                  (text_content (format_unreal_asset_data
                     [("header", Unreal.header_dict 1 2 3 100);
                      ("metadata", Unreal.metadata_dict 1 10 1000)])) false));
          (3%Z, Error (mk_ErrorData METHOD_NOT_FOUND "Method not found"));
          (4%Z, Result (CallToolResult
                  (text_content "Unexpected error: unpack requires a buffer of 4 bytes")
                  false))], tt).
Proof. vm_compute. reflexivity. Qed.
