(* ===== verification/Api.v ===== *)
(** * The HTTP route: [api/routes.py] and [api/schemas.py]

    [analyze_binary_file] runs the Unreal decoder on the path of the request
    inside a [with] block and answers the two dictionaries; every exception
    becomes an [HTTPException] with status 400 whose detail is the text of
    the exception.  The two schema classes are records.  The handler takes
    a request that the web framework has validated; what the test client
    sees of the validation and of the response is in [Tests.v]. *)

From Stdlib Require Import ZArith Lia Strings.Byte Strings.Ascii.
From stdpp Require Import base tactics option list numbers strings gmap.
From S2P Require Import Prelude Errors Bytes FileIO Text Values Cursor Reader Unreal.
From S2P Require Import Session.

#[local] Open Scope string_scope.
#[local] Open Scope list_scope.
#[local] Open Scope Z_scope.
#[local] Open Scope exst_scope.

(** ** [schemas.py] *)

(** [format] is optional and defaults to ["auto"]. *)
Record BinaryAnalysisRequest : Type := mk_request {
  req_file_path : string;
  req_format : option string
}.

Record BinaryAnalysisResponse : Type := mk_response {
  resp_file_path : string;
  resp_header : pydict;
  resp_metadata : pydict;
  resp_format : string
}.

#[export] Instance BinaryAnalysisResponse_eq_dec : EqDecision BinaryAnalysisResponse.
Proof. solve_decision. Defined.

(** [HTTPException(status_code=..., detail=...)] *)
Record HTTPException : Type := mk_HTTPException {
  status_code : Z;
  detail : string
}.

#[export] Instance HTTPException_eq_dec : EqDecision HTTPException.
Proof. solve_decision. Defined.

(** ** [routes.py] *)

(** The [with] block of the handler. *)
Definition analyze_session (fs : filesystem) (request : BinaryAnalysisRequest) :
    exst exn BinaryReader BinaryAnalysisResponse :=
  with_reader fs
    (header <- read_header ;;
     metadata <- read_metadata ;;
     ret (mk_response (req_file_path request) header metadata "unreal")).

(** [except Exception as e: raise HTTPException(status_code=400, detail=str(e))] *)
Definition analyze_binary_file (fs : filesystem) (request : BinaryAnalysisRequest) :
    outcome HTTPException BinaryAnalysisResponse :=
  match (analyze_session fs request (__init__ (req_file_path request))).1 with
  | Ok response => Ok response
  | Raise e => Raise (mk_HTTPException 400 (exn_str e))
  end.

(** [needle in haystack] *)
Fixpoint contains (needle haystack : string) : bool :=
  String.prefix needle haystack ||
  match haystack with
  | EmptyString => false
  | String _ rest => contains needle rest
  end.

(** The file that [test_analyze_endpoint_with_mock_file] writes: the magic
    bytes of the tests and twenty-eight null bytes. *)
Definition mock_file : bytes :=
  default [] (bytes_fromhex "C1832A9E") ++ replicate 28 x00.

(** ** Success *)

(** C28. On a well-formed asset the route answers the path of the request, the
    header and the metadata as decoded, and the format ["unreal"]. *)
Theorem analyze_ok fs request lv l3 fv fsz fl ec bs tail :
  Forall word_ok [lv; l3; fv; fsz; fl; ec; bs] ->
  fs !! req_file_path request =
    Some (layout [MAGIC; lv; l3; fv; fsz; fl; ec; bs] ++ tail) ->
  analyze_binary_file fs request =
    Ok (mk_response (req_file_path request) (header_dict lv l3 fv fsz)
          (metadata_dict fl ec bs) "unreal").
Proof.
  intros Hall Hfile.
  pose proof (decode_session fs _ _ _ _ _ _ _ _ tail Hall Hfile
                (fun h m => mk_response (req_file_path request) h m "unreal")) as Hs.
  spell_session Hs. unfold analyze_binary_file, analyze_session. by rewrite Hs.
Qed.

Lemma analyze_ok_witness :
  analyze_binary_file {[ "a.uasset" := layout [MAGIC; 1; 2; 3; 100; 1; 10; 1000] ]}
    (mk_request "a.uasset" None) =
    Ok (mk_response "a.uasset" (header_dict 1 2 3 100) (metadata_dict 1 10 1000) "unreal").
Proof.
  apply (analyze_ok _ (mk_request "a.uasset" None) 1 2 3 100 1 10 1000 []).
  - repeat constructor; unfold word_ok; lia.
  - reflexivity.
Defined.

(** ** Failure *)



(** A path that names no file is answered with the text of the runtime's
    [FileNotFoundError], which gives the error number and the path. *)
Theorem analyze_not_found fs request :
  fs !! req_file_path request = None ->
  analyze_binary_file fs request =
    Raise (mk_HTTPException 400
             ("[Errno 2] No such file or directory: '" +:+ req_file_path request +:+ "'")).
Proof.
  intros Hfile. unfold analyze_binary_file, analyze_session.
  by rewrite (with_reader_missing _ _ _ Hfile).
Qed.

Lemma analyze_not_found_witness :
  analyze_binary_file ∅ (mk_request "nonexistent.uasset" None) =
    Raise (mk_HTTPException 400
             ("[Errno 2] No such file or directory: '" +:+ "nonexistent.uasset" +:+ "'")).
Proof. apply (analyze_not_found ∅ (mk_request "nonexistent.uasset" None)). reflexivity. Defined.

(** The detail that [test_analyze_endpoint_missing_file] inspects does not
    contain the words that the test looks for. *)
Example missing_file_detail_lacks_phrase :
  exists h, analyze_binary_file ∅ (mk_request "nonexistent.uasset" None) = Raise h /\
            status_code h = 400 /\ contains "File not found" (detail h) = false.
Proof. eexists. split; [reflexivity|]. split; reflexivity. Qed.

(** The file of [test_analyze_endpoint_with_mock_file] is answered with
    status 400, where the test expects 200. *)
Example mock_file_is_rejected :
  analyze_binary_file {[ "m.uasset" := mock_file ]} (mk_request "m.uasset" None) =
    Raise (mk_HTTPException 400 "Not a valid .uasset file").
Proof. reflexivity. Qed.

(** ** The format of the request *)

(** The route does not read the format of the request: it always runs the
    Unreal decoder, and a successful answer always says ["unreal"]. *)
Theorem analyze_ignores_format fs path format1 format2 :
  analyze_binary_file fs (mk_request path format1) =
  analyze_binary_file fs (mk_request path format2).
Proof. reflexivity. Qed.

(** ** Release of the file *)

Theorem analyze_releases_file fs request :
  is_released (analyze_session fs request (__init__ (req_file_path request))).2.
Proof. apply with_reader_released. Qed.
